(** * Content repurposing engine: result recording, status aggregation,
      regeneration, edits, scheduling and prompt building.

    A shallow embedding of the API route handlers:
      - [POST_callback]    the n8n result callback  (api/n8n/callback)
      - [POST_regenerate]  api/content/[id]/regenerate/route.ts
      - [PATCH_output]     api/content/[id]/outputs/[outputId]/route.ts
      - [POST_schedule]    the schedule route       (api/content/[id]/schedule)
      - [buildUserPrompt]  api/profiles/[id]/platforms/[platform]/test/route.ts
      - [BuildAIPrompt]    the "Build AI Prompt" function node of the
                           platform processor workflow
    The durable store is a record of tables (lists of rows); every Prisma call
    is a function on it.  Request bodies are the values the zod schemas let
    through.  Timestamps are milliseconds since the epoch. *)

From Stdlib Require Import List String Ascii ZArith Bool Arith Lia Permutation.
From Stdlib Require Import DecimalString.
Import ListNotations.
Open Scope string_scope.

(* ================================================================== *)
(** ** Data model *)
(* ================================================================== *)

(** [platformEnum] of lib/validations/platform. *)
Inductive Platform : Set :=
  | instagram | linkedin | twitter | facebook | pinterest | tiktok.

Definition Platform_eqb (p q : Platform) : bool :=
  match p, q with
  | instagram, instagram | linkedin, linkedin | twitter, twitter
  | facebook, facebook | pinterest, pinterest | tiktok, tiktok => true
  | _, _ => false
  end.

Definition platform_name (p : Platform) : string :=
  match p with
  | instagram => "instagram" | linkedin => "linkedin" | twitter => "twitter"
  | facebook => "facebook" | pinterest => "pinterest" | tiktok => "tiktok"
  end.

(** [Array.prototype.includes] on a platform array. *)
Definition includes (l : list Platform) (p : Platform) : bool :=
  existsb (Platform_eqb p) l.

(** [content_queue.status]. *)
Inductive Status : Set := pending | processing | complete | partial | failed.

Definition Status_eqb (a b : Status) : bool :=
  match a, b with
  | pending, pending | processing, processing | complete, complete
  | partial, partial | failed, failed => true
  | _, _ => false
  end.

(** A row of [platform_outputs].  [outputId] is the primary key the store
    assigns; [rewrittenCopy = None] is SQL NULL, the failure signal. *)
Record PlatformOutput : Set := mkOutput {
  outputId : nat;
  contentId : string;
  platform : Platform;
  optimizedImageUrl : option string;
  rewrittenCopy : option string;
  hashtags : list string;
  userEdited : bool;
  editedCopy : option string;
  editedHashtags : list string;
  scheduledFor : option Z;
  tokensUsed : option Z;
  processingTimeMs : option Z;
  modelUsed : option string
}.

(** A row of [platform_configs], with the columns the handlers read. *)
Record PlatformConfig : Set := mkConfig {
  brandVoiceProfileId : string;
  cfgPlatform : Platform;
  charLimit : Z;
  bestPostingTime : option string;
  userPromptTemplate : option string
}.

(** A row of [content_queue]. *)
Record ContentQueue : Set := mkContent {
  cqId : string;
  cqProfileId : option string;
  targetPlatforms : list Platform;
  status : Status;
  errorMessage : option string;
  processingCompletedAt : option Z
}.

(** The durable store.  [nextId] is the key the next created output gets. *)
Record Store : Set := mkStore {
  contentQueue : list ContentQueue;
  platformOutput : list PlatformOutput;
  platformConfig : list PlatformConfig;
  nextId : nat
}.

(* ------------------------------------------------------------------ *)
(** *** JavaScript value helpers *)

(** Truthiness of a [string | null | undefined]. *)
Definition truthy (s : option string) : bool :=
  match s with
  | Some EmptyString => false
  | Some _ => true
  | None => false
  end.

(** [a || b] on an optional string with a string default. *)
Definition or_default (s : option string) (d : string) : string :=
  match s with
  | Some EmptyString => d
  | Some v => v
  | None => d
  end.

(** [a ?? b]. *)
Definition nullish {A : Type} (a : option A) (b : A) : A :=
  match a with Some v => v | None => b end.

Definition isSome {A : Type} (a : option A) : bool :=
  match a with Some _ => true | None => false end.

(* ------------------------------------------------------------------ *)
(** *** Prisma calls *)

Definition set_status_fields (s : Status) (t : option Z) (e : option string)
    (c : ContentQueue) : ContentQueue :=
  mkContent (cqId c) (cqProfileId c) (targetPlatforms c) s e t.

Definition set_status (s : Status) (c : ContentQueue) : ContentQueue :=
  mkContent (cqId c) (cqProfileId c) (targetPlatforms c) s
            (errorMessage c) (processingCompletedAt c).

(** [prisma.contentQueue.findUnique({ where: { id } })]. *)
Definition contentQueue_findUnique (c : string) (st : Store) : option ContentQueue :=
  find (fun q => String.eqb (cqId q) c) (contentQueue st).

(** [prisma.contentQueue.update({ where: { id }, data })]. *)
Definition contentQueue_update (c : string) (f : ContentQueue -> ContentQueue)
    (st : Store) : Store :=
  mkStore (map (fun q => if String.eqb (cqId q) c then f q else q) (contentQueue st))
          (platformOutput st) (platformConfig st) (nextId st).

(** The relation [content.platformOutputs]. *)
Definition platformOutputs_of (c : string) (st : Store) : list PlatformOutput :=
  filter (fun o => String.eqb (contentId o) c) (platformOutput st).

(** The relation [content.brandVoiceProfile?.platformConfigs]. *)
Definition platformConfigs_of (q : ContentQueue) (st : Store) : option (list PlatformConfig) :=
  match cqProfileId q with
  | Some pid => Some (filter (fun c => String.eqb (brandVoiceProfileId c) pid) (platformConfig st))
  | None => None
  end.

Definition same_pair (c : string) (p : Platform) (o : PlatformOutput) : bool :=
  String.eqb (contentId o) c && Platform_eqb (platform o) p.

(** [prisma.platformOutput.findUnique({ where: { contentId_platform } })]. *)
Definition platformOutput_findUnique (c : string) (p : Platform) (st : Store)
    : option PlatformOutput :=
  find (same_pair c p) (platformOutput st).

(** [prisma.platformOutput.update({ where: { id }, data })]. *)
Definition platformOutput_update (i : nat) (f : PlatformOutput -> PlatformOutput)
    (st : Store) : Store :=
  mkStore (contentQueue st)
          (map (fun o => if Nat.eqb (outputId o) i then f o else o) (platformOutput st))
          (platformConfig st) (nextId st).

(** [prisma.platformOutput.create({ data })]: the store assigns the key; the
    foreign key to [content_queue] rejects a row of an unknown content
    ([None] is the thrown error). *)
Definition platformOutput_create (mk : nat -> PlatformOutput) (st : Store) : option Store :=
  let o := mk (nextId st) in
  if isSome (contentQueue_findUnique (contentId o) st)
  then Some (mkStore (contentQueue st) (platformOutput st ++ [o])
                     (platformConfig st) (S (nextId st)))
  else None.

(** [prisma.platformOutput.deleteMany({ where: { contentId, platform: { in } } })]. *)
Definition platformOutput_deleteMany (c : string) (ps : list Platform) (st : Store) : Store :=
  mkStore (contentQueue st)
          (filter (fun o => negb (String.eqb (contentId o) c && includes ps (platform o)))
                  (platformOutput st))
          (platformConfig st) (nextId st).

(* ================================================================== *)
(** ** The n8n result callback: POST /api/n8n/callback *)
(* ================================================================== *)

(** [status: z.enum(["success", "failed"])]. *)
Inductive JobStatus : Set := success | job_failed.

(** The optional [output] object of [callbackSchema]; [None] is an omitted
    (undefined) field. *)
Record CallbackOutput : Set := mkCbOutput {
  optimized_image_url : option string;
  rewritten_copy : option string;
  cb_hashtags : option (list string);
  tokens_used : option Z;
  processing_time_ms : option Z;
  model_used : option string
}.

(** A body accepted by [callbackSchema.parse]. *)
Record CallbackBody : Set := mkCallback {
  content_id : string;
  cb_platform : Platform;
  cb_status : JobStatus;
  output : option CallbackOutput;
  error_message : option string
}.

(** A request: the [x-n8n-secret] header, the parsed body and the value
    [new Date()] has while it is handled. *)
Record CallbackRequest : Set := mkCbRequest {
  x_n8n_secret : option string;
  body : CallbackBody;
  handled_at : Z
}.

Inductive CallbackResponse : Set :=
  | CbUnauthorized          (* 401 UNAUTHORIZED *)
  | CbAcknowledged          (* 200 { success: true, data: { acknowledged: true } } *)
  | CbInternalError.        (* 500 INTERNAL_ERROR, from the catch block *)

(** [expectedSecret && secret !== expectedSecret]. *)
Definition secret_rejected (expectedSecret secret : option string) : bool :=
  truthy expectedSecret &&
  negb (match expectedSecret, secret with
        | Some e, Some s => String.eqb s e
        | _, _ => false
        end).

(** A field left [undefined] in the [data] of a Prisma update keeps the
    stored value. *)
Definition set_if_defined {A : Type} (new old : option A) : option A :=
  match new with Some v => Some v | None => old end.

(** [data] of the update on the success branch. *)
Definition success_update (out : CallbackOutput) (o : PlatformOutput) : PlatformOutput :=
  mkOutput (outputId o) (contentId o) (platform o)
           (set_if_defined (optimized_image_url out) (optimizedImageUrl o))
           (set_if_defined (rewritten_copy out) (rewrittenCopy o))
           (nullish (cb_hashtags out) [])
           (userEdited o) (editedCopy o) (editedHashtags o) (scheduledFor o)
           (set_if_defined (tokens_used out) (tokensUsed o))
           (set_if_defined (processing_time_ms out) (processingTimeMs o))
           (set_if_defined (model_used out) (modelUsed o)).

(** [data] of the create on the success branch; the other columns take the
    schema defaults. *)
Definition success_create (b : CallbackBody) (out : CallbackOutput) (i : nat) : PlatformOutput :=
  mkOutput i (content_id b) (cb_platform b)
           (optimized_image_url out) (rewritten_copy out)
           (nullish (cb_hashtags out) [])
           false None [] None
           (tokens_used out) (processing_time_ms out) (model_used out).

(** [data: { rewrittenCopy: null }]. *)
Definition failed_update (o : PlatformOutput) : PlatformOutput :=
  mkOutput (outputId o) (contentId o) (platform o)
           (optimizedImageUrl o) None (hashtags o)
           (userEdited o) (editedCopy o) (editedHashtags o) (scheduledFor o)
           (tokensUsed o) (processingTimeMs o) (modelUsed o).

(** [data: { contentId, platform, rewrittenCopy: null, hashtags: [] }]. *)
Definition failed_create (b : CallbackBody) (i : nat) : PlatformOutput :=
  mkOutput i (content_id b) (cb_platform b) None None [] false None [] None None None None.

(** Lines 44-102: find the row of the pair, then update it or create one.
    [None] is an error thrown by the store. *)
Definition record_result (b : CallbackBody) (st : Store) : option Store :=
  let existingOutput := platformOutput_findUnique (content_id b) (cb_platform b) st in
  match cb_status b, output b with
  | success, Some out =>
      match existingOutput with
      | Some e => Some (platformOutput_update (outputId e) (success_update out) st)
      | None => platformOutput_create (success_create b out) st
      end
  | success, None => Some st
  | job_failed, _ =>
      match existingOutput with
      | Some e => Some (platformOutput_update (outputId e) failed_update st)
      | None => platformOutput_create (failed_create b) st
      end
  end.

Definition successCount_of (outs : list PlatformOutput) : nat :=
  List.length (filter (fun o => isSome (rewrittenCopy o)) outs).

(** The value of [newStatus] at line 130. *)
Definition derive_status (targetCount outputCount successCount : nat) : Status :=
  if (targetCount <=? outputCount)%nat then
    if (successCount =? targetCount)%nat then complete
    else if (successCount =? 0)%nat then failed
    else partial
  else processing.

(** Lines 104-142: re-read the unit and, when every target has a row,
    write the derived status. *)
Definition aggregate_status (req : CallbackRequest) (st : Store) : Store :=
  let c := content_id (body req) in
  match contentQueue_findUnique c st with
  | Some content =>
      let targetCount := List.length (targetPlatforms content) in
      let outputs := platformOutputs_of (cqId content) st in
      let outputCount := List.length outputs in
      let successCount := successCount_of outputs in
      let newStatus := derive_status targetCount outputCount successCount in
      if (targetCount <=? outputCount)%nat then
        contentQueue_update c
          (set_status_fields newStatus (Some (handled_at req))
             (if Status_eqb newStatus failed
              then Some (or_default (error_message (body req)) "All platforms failed")
              else None))
          st
      else st
  | None => st
  end.

Definition POST_callback (N8N_CALLBACK_SECRET : option string) (req : CallbackRequest)
    (st : Store) : CallbackResponse * Store :=
  if secret_rejected N8N_CALLBACK_SECRET (x_n8n_secret req) then (CbUnauthorized, st)
  else
    match record_result (body req) st with
    | None => (CbInternalError, st)
    | Some st1 => (CbAcknowledged, aggregate_status req st1)
    end.

(** Recording a sequence of callbacks one at a time. *)
Definition record_all (secret : option string) (reqs : list CallbackRequest) (st : Store) : Store :=
  fold_left (fun s r => snd (POST_callback secret r s)) reqs st.

(** The unit's stored status. *)
Definition status_of (c : string) (st : Store) : option Status :=
  option_map status (contentQueue_findUnique c st).

(* ================================================================== *)
(** ** Regenerate: POST /api/content/:id/regenerate *)
(* ================================================================== *)

Inductive RegenerateResponse : Set :=
  | RegUnauthorized
  | RegContentNotFound
  | RegInvalidPlatforms (message : string)
  | RegOk (content_id : string) (regenerating_platforms : list Platform) (st : Status).

(** [invalidPlatforms.join(", ")]. *)
Definition join_names (ps : list Platform) : string :=
  String.concat ", " (map platform_name ps).

(** [session] is whether [getServerSession] returned a session; [platforms]
    is the body accepted by [regenerateSchema]. *)
Definition POST_regenerate (session : bool) (contentId : string) (platforms : list Platform)
    (st : Store) : RegenerateResponse * Store :=
  if negb session then (RegUnauthorized, st)
  else
    match contentQueue_findUnique contentId st with
    | None => (RegContentNotFound, st)
    | Some content =>
        let invalidPlatforms :=
          filter (fun p => negb (includes (targetPlatforms content) p)) platforms in
        if (0 <? List.length invalidPlatforms)%nat then
          (RegInvalidPlatforms
             ("Platforms not in original target: " ++ join_names invalidPlatforms), st)
        else
          let st1 := platformOutput_deleteMany contentId platforms st in
          let st2 := contentQueue_update contentId (set_status processing) st1 in
          (RegOk contentId platforms processing, st2)
    end.

(* ================================================================== *)
(** ** Edit: PATCH /api/content/:id/outputs/:outputId *)
(* ================================================================== *)

(** A body accepted by [updateOutputSchema]. *)
Record UpdateOutputBody : Set := mkEdit {
  new_editedCopy : option string;
  new_editedHashtags : option (list string)
}.

Inductive PatchResponse : Set :=
  | PatchUnauthorized
  | PatchOutputNotFound
  | PatchCharLimitExceeded (limit : Z)
  | PatchInternalError
  | PatchOk (output_id : nat) (user_edited : bool)
            (edited_copy : option string) (edited_hashtags : list string).

(** [platformConfig?.charLimit || 10000]. *)
Definition charLimit_or_default (cfg : option PlatformConfig) : Z :=
  match cfg with
  | Some c => if Z.eqb (charLimit c) 0 then 10000%Z else charLimit c
  | None => 10000%Z
  end.

(** [platformConfigs.find((c) => c.platform === p)] behind the optional chain. *)
Definition config_for (cfgs : option (list PlatformConfig)) (p : Platform)
    : option PlatformConfig :=
  match cfgs with
  | Some l => find (fun c => Platform_eqb (cfgPlatform c) p) l
  | None => None
  end.

(** [data] of the edit: the flag, and the two edited columns, each falling
    back on the value read from [found]. *)
Definition edit_update (b : UpdateOutputBody) (found o : PlatformOutput) : PlatformOutput :=
  mkOutput (outputId o) (contentId o) (platform o)
           (optimizedImageUrl o) (rewrittenCopy o) (hashtags o)
           true
           (set_if_defined (new_editedCopy b) (editedCopy found))
           (nullish (new_editedHashtags b) (editedHashtags found))
           (scheduledFor o) (tokensUsed o) (processingTimeMs o) (modelUsed o).

Definition PATCH_output (session : bool) (cid : string) (oid : nat) (b : UpdateOutputBody)
    (st : Store) : PatchResponse * Store :=
  if negb session then (PatchUnauthorized, st)
  else
    match find (fun o => Nat.eqb (outputId o) oid && String.eqb (contentId o) cid)
               (platformOutput st) with
    | None => (PatchOutputNotFound, st)
    | Some found =>
        let updated := edit_update b found found in
        let accepted :=
          (PatchOk (outputId updated) (userEdited updated)
                   (editedCopy updated) (editedHashtags updated),
           platformOutput_update oid (edit_update b found) st) in
        if truthy (new_editedCopy b) then
          (* [output.content] is the owning row, which the foreign key makes
             exist; reading through a missing one throws *)
          match contentQueue_findUnique (contentId found) st with
          | None => (PatchInternalError, st)
          | Some content =>
              let charLimit :=
                charLimit_or_default
                  (config_for (platformConfigs_of content st) (platform found)) in
              if (charLimit <? Z.of_nat (String.length (nullish (new_editedCopy b) EmptyString)))%Z
              then (PatchCharLimitExceeded charLimit, st)
              else accepted
          end
        else accepted
    end.

(* ================================================================== *)
(** ** Schedule: POST /api/content/:id/schedule *)
(* ================================================================== *)

(** *** Dates.  A [Date] is its time value in milliseconds; [None] is an
    invalid date.  The server's local time is UTC plus a fixed offset [tz]. *)

Definition msPerDay : Z := 86400000.
Definition LocalTime (tz t : Z) : Z := (t + tz)%Z.
Definition UTC (tz t : Z) : Z := (t - tz)%Z.
Definition Day (t : Z) : Z := (t / msPerDay)%Z.
Definition TimeWithinDay (t : Z) : Z := (t mod msPerDay)%Z.
Definition MakeTime (h m s ms : Z) : Z := (h * 3600000 + m * 60000 + s * 1000 + ms)%Z.
Definition MakeDate (day time : Z) : Z := (day * msPerDay + time)%Z.

(** [d.setHours(h, m, s, ms)]. *)
Definition setHours (tz t h m s ms : Z) : Z :=
  UTC tz (MakeDate (Day (LocalTime tz t)) (MakeTime h m s ms)).

(** [d.setDate(d.getDate() + 1)]: the same local time on the next day. *)
Definition setDate_next (tz t : Z) : Z :=
  UTC tz (MakeDate (Day (LocalTime tz t) + 1) (TimeWithinDay (LocalTime tz t))).

(** [s.split(":")]. *)
Fixpoint split_colon (s : string) : list string :=
  match s with
  | EmptyString => [EmptyString]
  | String c r =>
      if Ascii.eqb c ":" then EmptyString :: split_colon r
      else match split_colon r with
           | h :: t => String c h :: t
           | [] => [String c EmptyString]
           end
  end.

Definition digit_value (c : ascii) : option Z :=
  let n := nat_of_ascii c in
  if (48 <=? n)%nat && (n <=? 57)%nat then Some (Z.of_nat (n - 48)) else None.

Fixpoint digits_value (acc : Z) (s : string) : option Z :=
  match s with
  | EmptyString => Some acc
  | String c r =>
      match digit_value c with
      | Some d => digits_value (acc * 10 + d)%Z r
      | None => None
      end
  end.

(** [Number(s)] on a string of decimal digits (and on the empty string, 0),
    which is what the pattern of [bestPostingTime] lets through; [None] is
    NaN, returned for every other string. *)
Definition Number_of (s : string) : option Z := digits_value 0 s.

(** [const [hours, minutes, seconds] = bestTime.split(":").map(Number)]. *)
Definition parse_bestTime (bestTime : string) : option (Z * Z * Z) :=
  match map Number_of (split_colon bestTime) with
  | Some h :: Some m :: Some s :: _ => Some (h, m, s)
  | _ => None
  end.

(** Lines 95-101: today's occurrence of the time of day, or tomorrow's when
    that is not after [now]. *)
Definition best_time_schedule (tz now : Z) (hms : Z * Z * Z) : Z :=
  let '(hours, minutes, seconds) := hms in
  let scheduledTime := setHours tz now hours minutes seconds 0 in
  if (scheduledTime <=? now)%Z then setDate_next tz scheduledTime else scheduledTime.

Inductive SchedulingMode : Set := best_times | custom.

(** A body accepted by [scheduleSchema]; a custom schedule is the time value
    of the datetime string supplied for the platform. *)
Record ScheduleBody : Set := mkSchedule {
  schedulingMode : SchedulingMode;
  customSchedules : option (Platform -> option Z)
}.

Inductive ScheduleResponse : Set :=
  | SchUnauthorized
  | SchContentNotFound
  | SchContentNotReady
  | SchMissingSchedule (message : string)
  | SchInvalidSchedule (message : string)
  | SchInternalError
  | SchOk (cid : string) (scheduled_platforms : list (Platform * Z)).

Definition set_scheduledFor (t : Z) (o : PlatformOutput) : PlatformOutput :=
  mkOutput (outputId o) (contentId o) (platform o)
           (optimizedImageUrl o) (rewrittenCopy o) (hashtags o)
           (userEdited o) (editedCopy o) (editedHashtags o)
           (Some t) (tokensUsed o) (processingTimeMs o) (modelUsed o).

(** [config?.bestPostingTime || "14:00:00"] for the platform's configuration. *)
Definition bestTime_for (cfgs : option (list PlatformConfig)) (p : Platform) : string :=
  let config := config_for cfgs p in
  or_default (match config with Some c => bestPostingTime c | None => None end) "14:00:00".

(** The value of [scheduledTime] at line 104: an error response, an invalid
    date, or a date. *)
Definition scheduledTime_for (b : ScheduleBody) (cfgs : option (list PlatformConfig))
    (tz now : Z) (o : PlatformOutput) : ScheduleResponse + option Z :=
  match schedulingMode b with
  | custom =>
      match match customSchedules b with Some m => m (platform o) | None => None end with
      | None =>
          inl (SchMissingSchedule
                 ("Custom schedule time required for " ++ platform_name (platform o)))
      | Some customTime => inr (Some customTime)
      end
  | best_times =>
      inr (option_map (best_time_schedule tz now)
                      (parse_bestTime (bestTime_for cfgs (platform o))))
  end.

(** What the loop of the schedule route requires of a stored row to take it:
    [!output.rewrittenCopy] is false. *)
Definition eligible (o : PlatformOutput) : bool := truthy (rewrittenCopy o).

(** The [for (const output of content.platformOutputs)] loop, lines 67-128:
    [inl] is an early return. *)
Fixpoint schedule_loop (b : ScheduleBody) (cfgs : option (list PlatformConfig))
    (tz now : Z) (outputs : list PlatformOutput)
    (scheduledPlatforms : list (Platform * Z)) (st : Store)
    : (ScheduleResponse + list (Platform * Z)) * Store :=
  match outputs with
  | [] => (inr scheduledPlatforms, st)
  | o :: rest =>
      if negb (eligible o)
      then schedule_loop b cfgs tz now rest scheduledPlatforms st
      else
        match scheduledTime_for b cfgs tz now o with
        | inl response => (inl response, st)
        | inr None => (inl SchInternalError, st)
        | inr (Some scheduledTime) =>
            if (scheduledTime <=? now)%Z then
              (inl (SchInvalidSchedule
                      ("Scheduled time for " ++ platform_name (platform o)
                       ++ " must be in the future")), st)
            else
              schedule_loop b cfgs tz now rest
                (scheduledPlatforms ++ [(platform o, scheduledTime)])%list
                (platformOutput_update (outputId o) (set_scheduledFor scheduledTime) st)
        end
  end.

(** [tz] is the local offset and [now] the value of [new Date()] at line 65. *)
Definition POST_schedule (session : bool) (tz now : Z) (cid : string) (b : ScheduleBody)
    (st : Store) : ScheduleResponse * Store :=
  if negb session then (SchUnauthorized, st)
  else
    match contentQueue_findUnique cid st with
    | None => (SchContentNotFound, st)
    | Some content =>
        if negb (Status_eqb (status content) complete) &&
           negb (Status_eqb (status content) partial)
        then (SchContentNotReady, st)
        else
          match schedule_loop b (platformConfigs_of content st) tz now
                              (platformOutputs_of (cqId content) st) [] st with
          | (inl response, st') => (response, st')
          | (inr scheduledPlatforms, st') => (SchOk cid scheduledPlatforms, st')
          end
    end.

(* ================================================================== *)
(** ** Prompt building *)
(* ================================================================== *)

(** *** [String.prototype.replace] with a string pattern *)

Fixpoint strip_prefix (p s : string) : option string :=
  match p, s with
  | EmptyString, _ => Some s
  | String a p', String b s' => if Ascii.eqb a b then strip_prefix p' s' else None
  | String _ _, EmptyString => None
  end.

(** The first occurrence of [needle]: the text before it and the text after. *)
Fixpoint split_at_first (needle s : string) : option (string * string) :=
  match strip_prefix needle s with
  | Some following => Some (EmptyString, following)
  | None =>
      match s with
      | EmptyString => None
      | String c s' =>
          match split_at_first needle s' with
          | Some (preceding, following) => Some (String c preceding, following)
          | None => None
          end
      end
  end.

(** GetSubstitution for a match without capture groups: [$$], [$&], [$`] and
    [$'] are expanded, every other character is copied. *)
Fixpoint GetSubstitution (matched preceding following template : string) : string :=
  match template with
  | EmptyString => EmptyString
  | String c r =>
      if Ascii.eqb c "$" then
        match r with
        | String d r' =>
            if Ascii.eqb d "$" then
              String "$" (GetSubstitution matched preceding following r')
            else if Ascii.eqb d "&" then
              matched ++ GetSubstitution matched preceding following r'
            else if Ascii.eqb d "`" then
              preceding ++ GetSubstitution matched preceding following r'
            else if Ascii.eqb d "'" then
              following ++ GetSubstitution matched preceding following r'
            else String c (GetSubstitution matched preceding following r)
        | EmptyString => String c EmptyString
        end
      else String c (GetSubstitution matched preceding following r)
  end.

(** [s.replace(searchValue, replaceValue)]: only the first occurrence. *)
Definition replace (s searchValue replaceValue : string) : string :=
  match split_at_first searchValue s with
  | None => s
  | Some (preceding, following) =>
      preceding ++ GetSubstitution searchValue preceding following replaceValue ++ following
  end.

(** [buildUserPrompt] of the test route. *)
Definition buildUserPrompt (userPromptTemplate : option string) (title body : string) : string :=
  if truthy userPromptTemplate then
    replace (replace (nullish userPromptTemplate EmptyString) "{{title}}" title) "{{body}}" body
  else
    "Transform this content for social media:" ++ String "010" (String "010" "Title: ")
      ++ title ++ String "010" (String "010" "Body: ") ++ body.

(** *** The "Build AI Prompt" function node *)

(** The values a field of the node's JSON input can hold. *)
Inductive JsValue : Set :=
  | JsUndefined
  | JsNull
  | JsString (s : string)
  | JsNumber (n : Z).

(** ToString, applied by [replace] to its second argument and by template
    literals. *)
Definition ToString (v : JsValue) : string :=
  match v with
  | JsUndefined => "undefined"
  | JsNull => "null"
  | JsString s => s
  | JsNumber n => NilZero.string_of_int (Z.to_int n)
  end.

Definition js_truthy (v : JsValue) : bool :=
  match v with
  | JsUndefined | JsNull => false
  | JsString s => negb (String.eqb s EmptyString)
  | JsNumber n => negb (Z.eqb n 0)
  end.

Record NodeContent : Set := mkNodeContent { nc_title : JsValue; nc_body : JsValue }.

Record NodeBrandProfile : Set := mkNodeProfile {
  global_tone : JsValue;
  target_audience : JsValue;
  bp_example_input_1 : JsValue;
  bp_example_output_1 : JsValue
}.

Record NodePlatformConfig : Set := mkNodeConfig {
  system_prompt : JsValue;
  user_prompt_template : JsValue;
  tone_override : JsValue;
  custom_instructions : JsValue;
  char_limit : JsValue;
  pc_example_input_1 : JsValue;
  pc_example_output_1 : JsValue
}.

Definition nl : string := String "010" EmptyString.

(** The node's code; [None] is the TypeError of calling [replace] on a
    template that is not a string. *)
Definition BuildAIPrompt (content : NodeContent) (brandProfile : NodeBrandProfile)
    (platformConfig : NodePlatformConfig) : option (string * string) :=
  let systemPrompt :=
    if js_truthy (system_prompt platformConfig)
    then ToString (system_prompt platformConfig) else "Default system prompt..." in
  match user_prompt_template platformConfig with
  | JsString template =>
      let userPrompt := template in
      let userPrompt := replace userPrompt "{{title}}" (ToString (nc_title content)) in
      let userPrompt := replace userPrompt "{{body}}" (ToString (nc_body content)) in
      let userPrompt := replace userPrompt "{{global_tone}}" (ToString (global_tone brandProfile)) in
      let userPrompt := replace userPrompt "{{platform_tone}}" (ToString (tone_override platformConfig)) in
      let userPrompt := replace userPrompt "{{custom_instructions}}" (ToString (custom_instructions platformConfig)) in
      let userPrompt := replace userPrompt "{{char_limit}}" (ToString (char_limit platformConfig)) in
      let userPrompt := replace userPrompt "{{target_audience}}" (ToString (target_audience brandProfile)) in
      let fewShotPrompt := EmptyString in
      let fewShotPrompt :=
        if js_truthy (bp_example_input_1 brandProfile) && js_truthy (bp_example_output_1 brandProfile)
        then fewShotPrompt ++ "Example 1:" ++ nl ++ "Input: " ++ ToString (bp_example_input_1 brandProfile)
             ++ nl ++ "Output: " ++ ToString (bp_example_output_1 brandProfile) ++ nl ++ nl
        else fewShotPrompt in
      let fewShotPrompt :=
        if js_truthy (pc_example_input_1 platformConfig) && js_truthy (pc_example_output_1 platformConfig)
        then fewShotPrompt ++ "Platform Example:" ++ nl ++ "Input: " ++ ToString (pc_example_input_1 platformConfig)
             ++ nl ++ "Output: " ++ ToString (pc_example_output_1 platformConfig) ++ nl ++ nl
        else fewShotPrompt in
      Some (systemPrompt, fewShotPrompt ++ userPrompt)
  | _ => None
  end.

(** The documented placeholder variables ("Prompt Template Variables"). *)
Definition documented_placeholders : list string :=
  [ "{{title}}"; "{{body}}"; "{{global_tone}}"; "{{platform_tone}}";
    "{{custom_instructions}}"; "{{char_limit}}"; "{{target_audience}}";
    "{{brand_keywords}}"; "{{global_dos}}"; "{{global_donts}}" ].

(** Whether [needle] occurs in [s]. *)
Definition occurs_in (needle s : string) : bool := isSome (split_at_first needle s).

(* ================================================================== *)
(** ** Store invariants and the view used for the ordering argument *)
(* ================================================================== *)

(** At most one stored row for every (content, platform) pair. *)
Definition at_most_one_per_pair (st : Store) : Prop :=
  forall c p, (List.length (filter (same_pair c p) (platformOutput st)) <= 1)%nat.

(** The primary key: distinct rows have distinct keys, all already issued. *)
Definition keys_issued (st : Store) : Prop :=
  NoDup (map outputId (platformOutput st)) /\
  Forall (fun o => (outputId o < nextId st)%nat) (platformOutput st).

Definition consistent (st : Store) : Prop :=
  at_most_one_per_pair st /\ keys_issued st.

(** What the aggregation reads of a row: its pair and its copy. *)
Definition Entry : Set := (string * Platform * option string)%type.

Definition entry_of (o : PlatformOutput) : Entry :=
  (contentId o, platform o, rewrittenCopy o).

Definition entries (st : Store) : list Entry := map entry_of (platformOutput st).

Definition entry_is (c : string) (p : Platform) (e : Entry) : bool :=
  String.eqb (fst (fst e)) c && Platform_eqb (snd (fst e)) p.

Definition entry_set_copy (c : string) (p : Platform)
    (f : option string -> option string) (e : Entry) : Entry :=
  if entry_is c p e then (fst e, f (snd e)) else e.

(** Update the entry of the pair when there is one, else add one. *)
Definition upsert (c : string) (p : Platform) (f : option string -> option string)
    (v : option string) (P : list Entry) : list Entry :=
  if existsb (entry_is c p) P
  then map (entry_set_copy c p f) P
  else (P ++ [(c, p, v)])%list.

(** The effect of [record_result] on the entries of a store that holds the
    content of the callback. *)
Definition entries_record (b : CallbackBody) (P : list Entry) : list Entry :=
  match cb_status b, output b with
  | success, Some out =>
      upsert (content_id b) (cb_platform b)
             (set_if_defined (rewritten_copy out)) (rewritten_copy out) P
  | success, None => P
  | job_failed, _ => upsert (content_id b) (cb_platform b) (fun _ => None) None P
  end.

(** The pair a callback reports on. *)
Definition pair_of_request (r : CallbackRequest) : string * Platform :=
  (content_id (body r), cb_platform (body r)).

Definition entries_of_content (c : string) (P : list Entry) : list Entry :=
  filter (fun e => String.eqb (fst (fst e)) c) P.

Definition entries_outputCount (c : string) (P : list Entry) : nat :=
  List.length (entries_of_content c P).

Definition entries_successCount (c : string) (P : list Entry) : nat :=
  List.length (filter (fun e => isSome (snd e)) (entries_of_content c P)).

(** One callback on the pair (entries, status of the unit [c] with
    [targetCount] targets). *)
Definition view_callback (secret : option string) (c : string) (targetCount : nat)
    (req : CallbackRequest) (v : list Entry * Status) : list Entry * Status :=
  if secret_rejected secret (x_n8n_secret req) then v
  else
    let P := entries_record (body req) (fst v) in
    (P, if (targetCount <=? entries_outputCount c P)%nat
        then derive_status targetCount (entries_outputCount c P) (entries_successCount c P)
        else snd v).

Definition view_all (secret : option string) (c : string) (targetCount : nat)
    (reqs : list CallbackRequest) (v : list Entry * Status) : list Entry * Status :=
  fold_left (fun v r => view_callback secret c targetCount r v) reqs v.

Definition view_equiv (v w : list Entry * Status) : Prop :=
  Permutation (fst v) (fst w) /\ snd v = snd w.

(* ================================================================== *)
(** ** Example stores *)
(* ================================================================== *)

Definition unit1 : string := "c1".

(** A unit as the create route leaves it, and a store holding only it. *)
Definition fresh_unit (ps : list Platform) : ContentQueue :=
  mkContent unit1 (Some "profile1") ps pending None None.

Definition fresh_store (ps : list Platform) : Store :=
  mkStore [fresh_unit ps] [] [] 0.

Definition ok_output (copy : string) : CallbackOutput :=
  mkCbOutput None (Some copy) (Some ["#a"; "#b"]) (Some 120%Z) (Some 900%Z) (Some "model").

Definition ok_callback (p : Platform) (copy : string) : CallbackRequest :=
  mkCbRequest None (mkCallback unit1 p success (Some (ok_output copy)) None) 1000.

Definition failed_callback (p : Platform) : CallbackRequest :=
  mkCbRequest None (mkCallback unit1 p job_failed None (Some "image transform error")) 1000.

Definition dropped_callback (p : Platform) : CallbackRequest :=
  mkCbRequest None (mkCallback unit1 p success None None) 1000.

(** Both platforms of a two-target unit failed, then both are regenerated. *)
Definition all_failed_store : Store :=
  record_all None [failed_callback instagram; failed_callback twitter]
             (fresh_store [instagram; twitter]).

Definition regenerating_store : Store :=
  snd (POST_regenerate true unit1 [instagram; twitter] all_failed_store).

(** Two of three platforms succeeded; the third is still out. *)
Definition two_ok_store : Store :=
  record_all None [ok_callback instagram "Hello alpha"; ok_callback linkedin "Hello beta"]
             (fresh_store [instagram; linkedin; twitter]).

(** All three platforms of a three-target unit succeeded. *)
Definition all_ok_store : Store :=
  record_all None
    [ok_callback instagram "Hello alpha"; ok_callback linkedin "Hello beta";
     ok_callback twitter "Hello gamma"]
    (fresh_store [instagram; linkedin; twitter]).

Definition all_ok_unit : ContentQueue :=
  mkContent unit1 (Some "profile1") [instagram; linkedin; twitter]
            complete None (Some 1000%Z).

(** The stored results of [all_ok_store] with a configuration row giving
    twitter a 280 character limit and a posting time. *)
Definition configured_store : Store :=
  mkStore (contentQueue all_ok_store) (platformOutput all_ok_store)
          [mkConfig "profile1" twitter 280 (Some "11:00:00") None;
           mkConfig "profile1" linkedin 3000 (Some "09:00:00") None]
          (nextId all_ok_store).

(** The condition under which the edit route accepts the body: the new copy
    is absent or empty, or the owning unit is stored and the copy fits the
    platform's character limit. *)
Definition edit_within_limit (b : UpdateOutputBody) (found : PlatformOutput) (st : Store) : Prop :=
  truthy (new_editedCopy b) = true ->
  exists content,
    contentQueue_findUnique (contentId found) st = Some content /\
    (Z.of_nat (String.length (nullish (new_editedCopy b) EmptyString))
     <= charLimit_or_default (config_for (platformConfigs_of content st) (platform found)))%Z.

(** A schedule body in custom mode: instagram one hour ahead of [now],
    linkedin one hour behind, twitter one hour ahead. *)
Definition mixed_custom_schedule (now : Z) : ScheduleBody :=
  mkSchedule custom
    (Some (fun p => match p with
                    | linkedin => Some (now - 3600000)%Z
                    | _ => Some (now + 3600000)%Z
                    end)).



(* ================================================================== *)
(** ** Status poll: GET /api/content/:id/status *)
(* ================================================================== *)

(** The [data] object of the answer (the two processing timestamps are
    copied from the row; only the completion one is a column here). *)
Record StatusData : Set := mkStatusData {
  sd_content_id : string;
  sd_status : Status;
  sd_processing_completed_at : option Z;
  platforms_complete : list Platform;
  platforms_pending : list Platform;
  platforms_failed : list Platform;
  sd_error_message : option string
}.

Inductive StatusResponse : Set :=
  | StUnauthorized
  | StContentNotFound
  | StOk (data : StatusData).

Definition GET_status (session : bool) (cid : string) (st : Store) : StatusResponse :=
  if negb session then StUnauthorized
  else
    match contentQueue_findUnique cid st with
    | None => StContentNotFound
    | Some content =>
        let platformOutputs := platformOutputs_of (cqId content) st in
        let completedPlatforms :=
          map platform (filter (fun o => isSome (rewrittenCopy o)) platformOutputs) in
        let failedPlatforms :=
          map platform (filter (fun o => negb (isSome (rewrittenCopy o))) platformOutputs) in
        let pendingPlatforms :=
          filter (fun p => negb (includes completedPlatforms p) &&
                           negb (includes failedPlatforms p))
                 (targetPlatforms content) in
        StOk (mkStatusData (cqId content) (status content) (processingCompletedAt content)
                           completedPlatforms pendingPlatforms failedPlatforms
                           (errorMessage content))
    end.


(** The results of [all_ok_store] with a ten character limit on twitter. *)
Definition tight_limit_store : Store :=
  mkStore (contentQueue all_ok_store) (platformOutput all_ok_store)
          [mkConfig "profile1" twitter 10 None None] (nextId all_ok_store).

Definition long_edit : UpdateOutputBody :=
  mkEdit (Some "An edited copy of more than ten characters") (Some ["#x"]).


(** A stored row after a schedule call that was handled at [now]: the row as
    it was, or the row with a new scheduled time later than [now]. *)
Definition rescheduled (now : Z) (o o' : PlatformOutput) : Prop :=
  o' = o \/ exists t, (now < t)%Z /\ o' = set_scheduledFor t o.


(* ================================================================== *)
(** ** The pattern of [bestPostingTime] (lib/validations/platform) *)
(* ================================================================== *)

(** A character class [[lo-hi]]. *)
Definition in_class (lo hi c : ascii) : bool :=
  (nat_of_ascii lo <=? nat_of_ascii c)%nat && (nat_of_ascii c <=? nat_of_ascii hi)%nat.

(** [:[0-5][0-9]:[0-5][0-9]$], after the colon that ends the hours. *)
Definition matches_minutes_seconds (s : string) : bool :=
  match s with
  | String m1 (String m2 (String c (String s1 (String s2 EmptyString)))) =>
      in_class "0" "5" m1 && in_class "0" "9" m2 && Ascii.eqb c ":" &&
      in_class "0" "5" s1 && in_class "0" "9" s2
  | _ => false
  end.

(** [/^([01]?[0-9]|2[0-3]):[0-5][0-9]:[0-5][0-9]$/.test(s)]: the hours are
    one digit, or two characters that are [[01][0-9]] or [2[0-3]]. *)
Definition matches_bestPostingTime (s : string) : bool :=
  match s with
  | String a (String b r) =>
      if Ascii.eqb b ":" then in_class "0" "9" a && matches_minutes_seconds r
      else
        match r with
        | String c r' =>
            Ascii.eqb c ":" &&
            ((in_class "0" "1" a && in_class "0" "9" b) ||
             (Ascii.eqb a "2" && in_class "0" "3" b)) &&
            matches_minutes_seconds r'
        | EmptyString => false
        end
  | _ => false
  end.


(** A replacement text without [$]: none of the patterns of GetSubstitution
    can occur in it. *)
Fixpoint dollar_free (s : string) : bool :=
  match s with
  | EmptyString => true
  | String c r => negb (Ascii.eqb c "$") && dollar_free r
  end.

(* ================================================================== *)
(** ** The mock output of the configuration test route *)
(* ================================================================== *)

(** [hooks[config.platform] || ""]. *)
Definition hook_of (p : Platform) : string :=
  match p with
  | instagram => "Ready to level up? "
  | linkedin => "Here's what I learned: "
  | twitter => EmptyString
  | facebook => "Check this out! "
  | pinterest => EmptyString
  | tiktok => "POV: "
  end.

(** [s.substring(0, end)] for a numeric [end]: a negative end counts as 0,
    an end past the string as its length. *)
Definition substring_to (s : string) (e : Z) : string :=
  String.substring 0 (Z.to_nat (Z.max 0 e)) s.

(** [generateMockCopy(config, title, body)]. *)
Definition generateMockCopy (p : Platform) (limit : Z) (title body : string) : string :=
  let hook := hook_of p in
  let summary :=
    substring_to body
      (Z.min (Z.of_nat (String.length body))
             (limit - Z.of_nat (String.length hook) - 50)) in
  hook ++ title ++ nl ++ nl ++ summary ++ "...".


(* ================================================================== *)
(** ** Brands, voice profiles and platform configurations *)
(* ================================================================== *)

(** [platformEnum.options]. *)
Definition platform_options : list Platform :=
  [instagram; linkedin; twitter; facebook; pinterest; tiktok].

(** [platformEnum.safeParse(name)]. *)
Definition platform_of_name (name : string) : option Platform :=
  find (fun p => String.eqb name (platform_name p)) platform_options.

(** An entry of [platformDefaults]. *)
Record PlatformDefaults : Set := mkDefaults {
  pd_imageWidth : Z;
  pd_imageHeight : Z;
  pd_charLimit : Z;
  pd_hashtagCountMin : Z;
  pd_hashtagCountMax : Z;
  pd_bestPostingTime : string
}.

Definition platformDefaults (p : Platform) : PlatformDefaults :=
  match p with
  | instagram => mkDefaults 1080 1080 2200 10 15 "14:00:00"
  | linkedin => mkDefaults 1200 627 3000 3 5 "09:00:00"
  | twitter => mkDefaults 1600 900 280 2 3 "11:00:00"
  | facebook => mkDefaults 1200 630 63206 2 3 "13:00:00"
  | pinterest => mkDefaults 1000 1500 500 5 10 "20:00:00"
  | tiktok => mkDefaults 1080 1920 2200 3 5 "19:00:00"
  end.

(** A row of [platform_configs] with the columns of
    [updatePlatformConfigSchema]. *)
Record ConfigRow : Set := mkConfigRow {
  cr_id : nat;
  cr_profileId : string;
  cr_platform : Platform;
  cr_toneOverride : option string;
  cr_customInstructions : option string;
  cr_imageWidth : Z;
  cr_imageHeight : Z;
  cr_charLimit : Z;
  cr_hashtagCountMin : Z;
  cr_hashtagCountMax : Z;
  cr_systemPrompt : option string;
  cr_userPromptTemplate : option string;
  cr_exampleInput1 : option string;
  cr_exampleOutput1 : option string;
  cr_exampleInput2 : option string;
  cr_exampleOutput2 : option string;
  cr_bestPostingTime : option string;
  cr_postingFrequency : option string;
  cr_enabled : bool
}.

Record Brand : Set := mkBrand { brand_id : string; brand_name : string }.

(** A row of [brand_voice_profiles], with its key and the two columns of
    its unique index. *)
Record Profile : Set := mkProfile {
  profile_id : string;
  profile_brandId : string;
  profile_name : string
}.

Record Catalog : Set := mkCatalog {
  brand : list Brand;
  brandVoiceProfile : list Profile;
  configRow : list ConfigRow;
  nextConfigId : nat
}.

(** [prisma.brand.findUnique({ where: { id } })]. *)
Definition brand_findUnique (bid : string) (cat : Catalog) : option Brand :=
  find (fun b => String.eqb (brand_id b) bid) (brand cat).

(** [prisma.platformConfig.findUnique({ where: { brandVoiceProfileId_platform } })]. *)
Definition configRow_findUnique (pid : string) (p : Platform) (cat : Catalog)
    : option ConfigRow :=
  find (fun r => String.eqb (cr_profileId r) pid && Platform_eqb (cr_platform r) p)
       (configRow cat).

(** *** PUT /api/profiles/:id/platforms/:platform *)

(** A body accepted by [updatePlatformConfigSchema]: [None] is an absent
    key; for the nullable columns [Some None] is an explicit null. *)
Record UpdatePlatformConfigBody : Set := mkUpdate {
  up_toneOverride : option (option string);
  up_customInstructions : option (option string);
  up_imageWidth : option Z;
  up_imageHeight : option Z;
  up_charLimit : option Z;
  up_hashtagCountMin : option Z;
  up_hashtagCountMax : option Z;
  up_systemPrompt : option (option string);
  up_userPromptTemplate : option (option string);
  up_exampleInput1 : option (option string);
  up_exampleOutput1 : option (option string);
  up_exampleInput2 : option (option string);
  up_exampleOutput2 : option (option string);
  up_bestPostingTime : option (option string);
  up_postingFrequency : option (option string);
  up_enabled : option bool
}.

(** [data: validatedData]: the keys present overwrite the columns. *)
Definition apply_update (b : UpdatePlatformConfigBody) (r : ConfigRow) : ConfigRow :=
  mkConfigRow (cr_id r) (cr_profileId r) (cr_platform r)
    (nullish (up_toneOverride b) (cr_toneOverride r))
    (nullish (up_customInstructions b) (cr_customInstructions r))
    (nullish (up_imageWidth b) (cr_imageWidth r))
    (nullish (up_imageHeight b) (cr_imageHeight r))
    (nullish (up_charLimit b) (cr_charLimit r))
    (nullish (up_hashtagCountMin b) (cr_hashtagCountMin r))
    (nullish (up_hashtagCountMax b) (cr_hashtagCountMax r))
    (nullish (up_systemPrompt b) (cr_systemPrompt r))
    (nullish (up_userPromptTemplate b) (cr_userPromptTemplate r))
    (nullish (up_exampleInput1 b) (cr_exampleInput1 r))
    (nullish (up_exampleOutput1 b) (cr_exampleOutput1 r))
    (nullish (up_exampleInput2 b) (cr_exampleInput2 r))
    (nullish (up_exampleOutput2 b) (cr_exampleOutput2 r))
    (nullish (up_bestPostingTime b) (cr_bestPostingTime r))
    (nullish (up_postingFrequency b) (cr_postingFrequency r))
    (nullish (up_enabled b) (cr_enabled r)).

Definition key_if {A : Type} (name : string) (v : option A) : list string :=
  match v with Some _ => [name] | None => [] end.

(** [Object.keys(validatedData)]. *)
Definition updated_fields_of (b : UpdatePlatformConfigBody) : list string :=
  (key_if "toneOverride" (up_toneOverride b)
   ++ key_if "customInstructions" (up_customInstructions b)
   ++ key_if "imageWidth" (up_imageWidth b)
   ++ key_if "imageHeight" (up_imageHeight b)
   ++ key_if "charLimit" (up_charLimit b)
   ++ key_if "hashtagCountMin" (up_hashtagCountMin b)
   ++ key_if "hashtagCountMax" (up_hashtagCountMax b)
   ++ key_if "systemPrompt" (up_systemPrompt b)
   ++ key_if "userPromptTemplate" (up_userPromptTemplate b)
   ++ key_if "exampleInput1" (up_exampleInput1 b)
   ++ key_if "exampleOutput1" (up_exampleOutput1 b)
   ++ key_if "exampleInput2" (up_exampleInput2 b)
   ++ key_if "exampleOutput2" (up_exampleOutput2 b)
   ++ key_if "bestPostingTime" (up_bestPostingTime b)
   ++ key_if "postingFrequency" (up_postingFrequency b)
   ++ key_if "enabled" (up_enabled b))%list.

Inductive PutResponse : Set :=
  | PutUnauthorized
  | PutInvalidPlatform
  | PutValidationError (message : string)
  | PutConfigNotFound
  | PutOk (p : Platform) (updated_fields : list string).

(** The hashtag range check: both bounds present and min above max. *)
Definition range_rejected (b : UpdatePlatformConfigBody) : bool :=
  match up_hashtagCountMin b, up_hashtagCountMax b with
  | Some lo, Some hi => (hi <? lo)%Z
  | _, _ => false
  end.

Definition PUT_platform (session : bool) (profileId name : string)
    (b : UpdatePlatformConfigBody) (cat : Catalog) : PutResponse * Catalog :=
  if negb session then (PutUnauthorized, cat)
  else
    match platform_of_name name with
    | None => (PutInvalidPlatform, cat)
    | Some p =>
        if range_rejected b then
          (PutValidationError "Minimum hashtag count cannot be greater than maximum", cat)
        else
          match configRow_findUnique profileId p cat with
          | None => (PutConfigNotFound, cat)
          | Some existingConfig =>
              (PutOk (cr_platform (apply_update b existingConfig)) (updated_fields_of b),
               mkCatalog (brand cat) (brandVoiceProfile cat)
                 (map (fun r => if Nat.eqb (cr_id r) (cr_id existingConfig)
                                then apply_update b r else r) (configRow cat))
                 (nextConfigId cat))
          end
    end.

(** *** POST /api/brands/:id/profiles *)

Inductive ProfileResponse : Set :=
  | PrUnauthorized
  | PrInvalidBrand
  | PrProfileExists
  | PrCreated (profile_id : string) (profile_name : string).

(** An element of the nested create: the defaults of the platform, enabled,
    every other column null. *)
Definition default_config (pid : string) (i : nat) (p : Platform) : ConfigRow :=
  let d := platformDefaults p in
  mkConfigRow i pid p None None
              (pd_imageWidth d) (pd_imageHeight d) (pd_charLimit d)
              (pd_hashtagCountMin d) (pd_hashtagCountMax d)
              None None None None None None
              (Some (pd_bestPostingTime d)) None true.

(** [newId] is the key the store gives the created profile; the six
    configurations take the next six keys. *)
Definition POST_profile (session : bool) (brandId profileName newId : string)
    (cat : Catalog) : ProfileResponse * Catalog :=
  if negb session then (PrUnauthorized, cat)
  else
    match brand_findUnique brandId cat with
    | None => (PrInvalidBrand, cat)
    | Some _ =>
        match find (fun pr => String.eqb (profile_brandId pr) brandId &&
                              String.eqb (profile_name pr) profileName)
                   (brandVoiceProfile cat) with
        | Some _ => (PrProfileExists, cat)
        | None =>
            (PrCreated newId profileName,
             mkCatalog (brand cat)
               (brandVoiceProfile cat ++ [mkProfile newId brandId profileName])
               (configRow cat ++
                map (fun ip => default_config newId (fst ip) (snd ip))
                    (combine (seq (nextConfigId cat) 6) platform_options))
               (nextConfigId cat + 6))
        end
    end.

(** *** POST /api/content *)

(** What the call to the orchestrator webhook did. *)
Inductive Trigger : Set :=
  | NoWebhookUrl      (* N8N_WEBHOOK_URL is not set: no call *)
  | FetchReturned     (* the call returned a response *)
  | FetchThrew.       (* the call threw *)

Inductive CreateResponse : Set :=
  | CrUnauthorized
  | CrInvalidBrand
  | CrInvalidProfile
  | CrMissingPlatformConfig (message : string)
  | CrTriggerFailed
  | CrCreated (content_id : string) (st : Status).

Definition mark_trigger_failed (c : ContentQueue) : ContentQueue :=
  mkContent (cqId c) (cqProfileId c) (targetPlatforms c) failed
            (Some "Failed to trigger processing workflow") (processingCompletedAt c).

(** The platforms of the profile's configurations that are enabled and
    among the targets: [profile.platformConfigs.map((c) => c.platform)]
    under the [where] of the include. *)
Definition enabledPlatforms_of (pid : string) (targets : list Platform) (cat : Catalog)
    : list Platform :=
  map cr_platform
      (filter (fun r => String.eqb (cr_profileId r) pid && cr_enabled r &&
                        includes targets (cr_platform r))
              (configRow cat)).

(** [newId] is the key the store gives the created unit; title, body and
    image references are stored but read by no handler modelled here. *)
Definition POST_content (session : bool) (brandId profileId : string)
    (targets : list Platform) (newId : string) (trigger : Trigger)
    (cat : Catalog) (st : Store) : CreateResponse * Store :=
  if negb session then (CrUnauthorized, st)
  else
    match brand_findUnique brandId cat with
    | None => (CrInvalidBrand, st)
    | Some _ =>
        match find (fun pr => String.eqb (profile_id pr) profileId &&
                              String.eqb (profile_brandId pr) brandId)
                   (brandVoiceProfile cat) with
        | None => (CrInvalidProfile, st)
        | Some _ =>
            let enabledPlatforms := enabledPlatforms_of profileId targets cat in
            let missingPlatforms :=
              filter (fun p => negb (includes enabledPlatforms p)) targets in
            if (0 <? List.length missingPlatforms)%nat then
              (CrMissingPlatformConfig
                 ("The following platforms are not enabled: " ++ join_names missingPlatforms),
               st)
            else
              let st1 :=
                mkStore (contentQueue st ++
                         [mkContent newId (Some profileId) targets pending None None])
                        (platformOutput st) (platformConfig st) (nextId st) in
              match trigger with
              | FetchThrew =>
                  (CrTriggerFailed, contentQueue_update newId mark_trigger_failed st1)
              | _ => (CrCreated newId pending, st1)
              end
        end
    end.


(** A catalog with one brand, and the same after a first profile is
    created for it. *)
Definition brand_only_catalog : Catalog :=
  mkCatalog [mkBrand "b1" "Acme"] [] [] 0.

Definition one_profile_catalog : Catalog :=
  snd (POST_profile true "b1" "Default voice" "profile1" brand_only_catalog).

Definition empty_update : UpdatePlatformConfigBody :=
  mkUpdate None None None None None None None None None None None None None None None None.

(** Only [hashtagCountMax], set to [hi]. *)
Definition max_only_update (hi : Z) : UpdatePlatformConfigBody :=
  mkUpdate None None None None None None (Some hi) None None None None None None None None None.

(** Both hashtag bounds. *)
Definition range_update (lo hi : Z) : UpdatePlatformConfigBody :=
  mkUpdate None None None None None (Some lo) (Some hi) None None None None None None None
           None None.

(* ================================================================== *)
(** ** The scheduling heuristic in the specification's words *)
(* ================================================================== *)

(** The definitions of this part are not taken from the schedule route:
    they say, on the store's tables and in calendar arithmetic, what the
    specification means by an eligible platform, by a platform's configured
    best time of day and by today's and tomorrow's occurrence of a time of
    day.  The route is compared with them. *)








(* ================================================================== *)
(** * Properties *)
(* ================================================================== *)

(** ** Basic facts *)

Lemma Platform_eqb_eq (p q : Platform) : Platform_eqb p q = true <-> p = q.
Proof. destruct p, q; simpl; split; intro H; try reflexivity; discriminate H. Qed.

Lemma Platform_eqb_refl (p : Platform) : Platform_eqb p p = true.
Proof. destruct p; reflexivity. Qed.

Lemma includes_In (l : list Platform) (p : Platform) : includes l p = true <-> In p l.
Proof.
  unfold includes. rewrite existsb_exists. split.
  - intros [x [Hx E]]. apply Platform_eqb_eq in E. subst. exact Hx.
  - intro H. exists p. split; [exact H | apply Platform_eqb_refl].
Qed.

Lemma same_pair_spec (c : string) (p : Platform) (o : PlatformOutput) :
  same_pair c p o = true <-> contentId o = c /\ platform o = p.
Proof.
  unfold same_pair. rewrite andb_true_iff, String.eqb_eq, Platform_eqb_eq. tauto.
Qed.

(** A filter that the update does not see through keeps its rows' count. *)
Lemma filter_map_stable {A : Type} (g : A -> bool) (h : A -> A) (l : list A) :
  (forall x, g (h x) = g x) ->
  filter g (map h l) = map h (filter g l).
Proof.
  intro H. induction l as [|x l IH]; simpl; [reflexivity|].
  rewrite H. destruct (g x); simpl; rewrite IH; reflexivity.
Qed.

Lemma filter_le1_unique {A : Type} (g : A -> bool) (l : list A) (x y : A) :
  (List.length (filter g l) <= 1)%nat ->
  In x l -> In y l -> g x = true -> g y = true -> x = y.
Proof.
  intros Hlen Hx Hy Gx Gy.
  assert (Fx : In x (filter g l)) by (apply filter_In; split; assumption).
  assert (Fy : In y (filter g l)) by (apply filter_In; split; assumption).
  destruct (filter g l) as [|a [|b r]]; simpl in *.
  - contradiction.
  - destruct Fx as [<-|[]]. destruct Fy as [<-|[]]. reflexivity.
  - lia.
Qed.

Lemma NoDup_map_unique {A B : Type} (f : A -> B) (l : list A) (x y : A) :
  NoDup (map f l) -> In x l -> In y l -> f x = f y -> x = y.
Proof.
  induction l as [|a l IH]; simpl; intros ND Hx Hy E; [contradiction|].
  inversion ND as [|? ? Hnot ND']; subst.
  destruct Hx as [<-|Hx], Hy as [<-|Hy].
  - reflexivity.
  - exfalso. apply Hnot. rewrite E. apply in_map. exact Hy.
  - exfalso. apply Hnot. rewrite <- E. apply in_map. exact Hx.
  - apply IH; assumption.
Qed.

(** ** The tables each call leaves alone *)

Lemma update_pairs (i : nat) (f : PlatformOutput -> PlatformOutput) (st : Store)
    (c : string) (p : Platform) :
  (forall o, contentId (f o) = contentId o /\ platform (f o) = platform o) ->
  filter (same_pair c p) (platformOutput (platformOutput_update i f st))
  = map (fun o => if Nat.eqb (outputId o) i then f o else o)
        (filter (same_pair c p) (platformOutput st)).
Proof.
  intro Hf. unfold platformOutput_update; simpl.
  apply filter_map_stable. intro o.
  destruct (Nat.eqb (outputId o) i); [|reflexivity].
  unfold same_pair. destruct (Hf o) as [-> ->]. reflexivity.
Qed.

Lemma aggregate_status_outputs (req : CallbackRequest) (st : Store) :
  platformOutput (aggregate_status req st) = platformOutput st /\
  nextId (aggregate_status req st) = nextId st /\
  platformConfig (aggregate_status req st) = platformConfig st.
Proof.
  unfold aggregate_status.
  destruct (contentQueue_findUnique _ st); [|auto].
  destruct (_ <=? _)%nat; auto.
Qed.

Lemma create_inv (mk : nat -> PlatformOutput) (st st' : Store) :
  platformOutput_create mk st = Some st' ->
  platformOutput st' = (platformOutput st ++ [mk (nextId st)])%list /\
  nextId st' = S (nextId st) /\
  contentQueue st' = contentQueue st /\
  platformConfig st' = platformConfig st.
Proof.
  unfold platformOutput_create.
  destruct (isSome _); [|discriminate].
  intro H. injection H as <-. simpl. auto.
Qed.

(** What [record_result] does to the table, case by case. *)
Lemma record_result_cases (b : CallbackBody) (st st' : Store) :
  record_result b st = Some st' ->
  contentQueue st' = contentQueue st /\
  ((cb_status b = success /\ output b = None /\ st' = st)
   \/ (exists e f,
         platformOutput_findUnique (content_id b) (cb_platform b) st = Some e /\
         (forall o, contentId (f o) = contentId o /\ platform (f o) = platform o) /\
         (forall o, outputId (f o) = outputId o) /\
         st' = platformOutput_update (outputId e) f st)
   \/ (exists o,
         platformOutput_findUnique (content_id b) (cb_platform b) st = None /\
         contentId o = content_id b /\ platform o = cb_platform b /\
         outputId o = nextId st /\
         platformOutput st' = (platformOutput st ++ [o])%list /\
         nextId st' = S (nextId st))).
Proof.
  unfold record_result.
  destruct (cb_status b) eqn:Es; [destruct (output b) as [out|] eqn:Eo|];
    destruct (platformOutput_findUnique _ _ st) as [e|] eqn:Ef; intro H.
  - injection H as <-. split; [reflexivity|]. right; left.
    exists e, (success_update out). repeat split; reflexivity.
  - apply create_inv in H. destruct H as (Hp & Hn & Hc & _).
    split; [exact Hc|]. right; right.
    exists (success_create b out (nextId st)). repeat split; assumption.
  - injection H as <-. split; [reflexivity|]. left. auto.
  - injection H as <-. split; [reflexivity|]. left. auto.
  - injection H as <-. split; [reflexivity|]. right; left.
    exists e, failed_update. repeat split; reflexivity.
  - apply create_inv in H. destruct H as (Hp & Hn & Hc & _).
    split; [exact Hc|]. right; right.
    exists (failed_create b (nextId st)). repeat split; assumption.
Qed.

Lemma find_none_filter_nil {A : Type} (g : A -> bool) (l : list A) :
  find g l = None -> filter g l = [].
Proof.
  induction l as [|x l IH]; simpl; [reflexivity|].
  destruct (g x); [discriminate | exact IH].
Qed.

Lemma record_result_at_most_one (b : CallbackBody) (st st' : Store) :
  at_most_one_per_pair st -> record_result b st = Some st' -> at_most_one_per_pair st'.
Proof.
  intros Inv H. apply record_result_cases in H.
  destruct H as [_ [(_ & _ & ->)|[(e & f & _ & Hf & _ & ->)|(o & Hnone & Hc & Hp & _ & Hrows & _)]]].
  - exact Inv.
  - intros c p. rewrite (update_pairs _ _ _ _ _ Hf), length_map. apply Inv.
  - intros c p. rewrite Hrows, filter_app, length_app. simpl.
    destruct (same_pair c p o) eqn:E; simpl.
    + apply same_pair_spec in E. destruct E as [E1 E2].
      rewrite Hc in E1. rewrite Hp in E2. subst c p.
      unfold platformOutput_findUnique in Hnone.
      rewrite (find_none_filter_nil _ _ Hnone). simpl. lia.
    + specialize (Inv c p). lia.
Qed.

Lemma POST_callback_at_most_one (secret : option string) (req : CallbackRequest) (st : Store) :
  at_most_one_per_pair st -> at_most_one_per_pair (snd (POST_callback secret req st)).
Proof.
  intro Inv. unfold POST_callback.
  destruct (secret_rejected _ _); [exact Inv|].
  destruct (record_result (body req) st) as [st1|] eqn:E; [|exact Inv].
  simpl. intros c p.
  destruct (aggregate_status_outputs req st1) as [-> _].
  exact (record_result_at_most_one _ _ _ Inv E c p).
Qed.

Lemma record_all_at_most_one (secret : option string) (reqs : list CallbackRequest) (st : Store) :
  at_most_one_per_pair st -> at_most_one_per_pair (record_all secret reqs st).
Proof.
  revert st. induction reqs as [|r reqs IH]; intros st Inv; simpl; [exact Inv|].
  apply IH. apply POST_callback_at_most_one. exact Inv.
Qed.

(** ** The result recorder *)

(** C3: the callback keeps at most one stored result per (content, platform)
    pair.  Starting from a store with at most one row per pair, the store
    after the callback (and after any further sequence of callbacks) has at
    most one row per pair; when a row of the callback's pair exists the rows
    keep their keys and pairs, so the existing row is updated and none is
    added; when none exists the table is unchanged or grows by exactly one
    row, which is the row of that pair. *)
Theorem callback_one_result_per_pair
    (secret : option string) (req : CallbackRequest) (st : Store) :
  at_most_one_per_pair st ->
  at_most_one_per_pair (snd (POST_callback secret req st)) /\
  (forall reqs, at_most_one_per_pair (record_all secret (req :: reqs) st)) /\
  (forall e,
     platformOutput_findUnique (content_id (body req)) (cb_platform (body req)) st = Some e ->
     map (fun o => (outputId o, contentId o, platform o))
         (platformOutput (snd (POST_callback secret req st)))
     = map (fun o => (outputId o, contentId o, platform o)) (platformOutput st)) /\
  (platformOutput_findUnique (content_id (body req)) (cb_platform (body req)) st = None ->
     platformOutput (snd (POST_callback secret req st)) = platformOutput st \/
     exists o, platformOutput (snd (POST_callback secret req st))
               = (platformOutput st ++ [o])%list /\
               contentId o = content_id (body req) /\
               platform o = cb_platform (body req)).
Proof.
  intro Inv. split; [|split; [|split]].
  - apply POST_callback_at_most_one. exact Inv.
  - intro reqs. apply (record_all_at_most_one secret (req :: reqs)). exact Inv.
  - intros e He. unfold POST_callback.
    destruct (secret_rejected _ _); [reflexivity|].
    destruct (record_result (body req) st) as [st1|] eqn:E; [|reflexivity].
    simpl. destruct (aggregate_status_outputs req st1) as [-> _].
    apply record_result_cases in E.
    destruct E as [_ [(_ & _ & ->)|[(e' & f & _ & Hf & Hid & ->)|(o & Hnone & _)]]].
    + reflexivity.
    + unfold platformOutput_update; simpl. rewrite map_map.
      apply map_ext. intro o. destruct (Nat.eqb (outputId o) (outputId e')); [|reflexivity].
      rewrite Hid. destruct (Hf o) as [-> ->]. reflexivity.
    + rewrite Hnone in He. discriminate.
  - intro Hnone. unfold POST_callback.
    destruct (secret_rejected _ _); [left; reflexivity|].
    destruct (record_result (body req) st) as [st1|] eqn:E; [|left; reflexivity].
    simpl. destruct (aggregate_status_outputs req st1) as [-> _].
    apply record_result_cases in E.
    destruct E as [_ [(_ & _ & ->)|[(e' & f & He & _)|(o & _ & Hc & Hp & _ & Hrows & _)]]].
    + left; reflexivity.
    + rewrite Hnone in He. discriminate.
    + right. exists o. auto.
Qed.

Lemma callback_one_result_per_pair_witness :
  at_most_one_per_pair
    (snd (POST_callback None (ok_callback instagram "Hello alpha")
                        (fresh_store [instagram; twitter]))).
Proof.
  apply (callback_one_result_per_pair None (ok_callback instagram "Hello alpha")
                                      (fresh_store [instagram; twitter])).
  intros c p. simpl. lia.
Defined.

(** C10: a callback with status success and no output object records
    nothing.  When the secret is accepted, the call answers with the success
    acknowledgement and the table of stored results is exactly what it was. *)
Theorem success_without_output_dropped
    (secret : option string) (req : CallbackRequest) (st : Store) :
  secret_rejected secret (x_n8n_secret req) = false ->
  cb_status (body req) = success ->
  output (body req) = None ->
  fst (POST_callback secret req st) = CbAcknowledged /\
  platformOutput (snd (POST_callback secret req st)) = platformOutput st.
Proof.
  intros Hs Hst Ho. unfold POST_callback, record_result.
  rewrite Hs, Hst, Ho. simpl. split; [reflexivity|].
  apply aggregate_status_outputs.
Qed.

Lemma success_without_output_dropped_witness :
  fst (POST_callback (Some "s3cret")
         (mkCbRequest (Some "s3cret") (mkCallback unit1 instagram success None None) 1000)
         (fresh_store [instagram; twitter])) = CbAcknowledged /\
  platformOutput
    (snd (POST_callback (Some "s3cret")
            (mkCbRequest (Some "s3cret") (mkCallback unit1 instagram success None None) 1000)
            (fresh_store [instagram; twitter])))
  = platformOutput (fresh_store [instagram; twitter]).
Proof.
  apply (success_without_output_dropped (Some "s3cret")
           (mkCbRequest (Some "s3cret") (mkCallback unit1 instagram success None None) 1000)
           (fresh_store [instagram; twitter])); reflexivity.
Defined.

(** ** Status aggregation *)

Lemma contentQueue_findUnique_update (c : string) (f : ContentQueue -> ContentQueue) (st : Store) :
  (forall q, cqId (f q) = cqId q) ->
  contentQueue_findUnique c (contentQueue_update c f st)
  = option_map f (contentQueue_findUnique c st).
Proof.
  intro Hf. unfold contentQueue_findUnique, contentQueue_update; simpl.
  induction (contentQueue st) as [|q l IH]; simpl; [reflexivity|].
  destruct (String.eqb (cqId q) c) eqn:E.
  - rewrite Hf, E. reflexivity.
  - rewrite E. exact IH.
Qed.

Lemma contentQueue_findUnique_id (c : string) (st : Store) (q : ContentQueue) :
  contentQueue_findUnique c st = Some q -> cqId q = c.
Proof.
  intro H. apply find_some in H. destruct H as [_ H]. apply String.eqb_eq. exact H.
Qed.

Lemma contentQueue_findUnique_ext (c : string) (st st' : Store) :
  contentQueue st' = contentQueue st ->
  contentQueue_findUnique c st' = contentQueue_findUnique c st.
Proof. unfold contentQueue_findUnique. intros ->. reflexivity. Qed.

(** With the owning content in the store, recording never throws. *)
Lemma record_result_some (b : CallbackBody) (st : Store) (q : ContentQueue) :
  contentQueue_findUnique (content_id b) st = Some q ->
  exists st1, record_result b st = Some st1.
Proof.
  intro Hq. unfold record_result, platformOutput_create.
  destruct (cb_status b); [destruct (output b)|];
    destruct (platformOutput_findUnique (content_id b) (cb_platform b) st);
    simpl; try rewrite Hq; simpl; eauto.
Qed.

(** The unit's row after the aggregation step. *)
Lemma aggregate_status_unit (req : CallbackRequest) (st : Store) (q : ContentQueue) :
  contentQueue_findUnique (content_id (body req)) st = Some q ->
  let c := content_id (body req) in
  let T := List.length (targetPlatforms q) in
  let R := List.length (platformOutputs_of c st) in
  let S := successCount_of (platformOutputs_of c st) in
  contentQueue_findUnique c (aggregate_status req st)
  = Some (if (T <=? R)%nat
          then set_status_fields (derive_status T R S) (Some (handled_at req))
                 (if Status_eqb (derive_status T R S) failed
                  then Some (or_default (error_message (body req)) "All platforms failed")
                  else None) q
          else q).
Proof.
  intro Hq. simpl. unfold aggregate_status. rewrite Hq.
  rewrite (contentQueue_findUnique_id _ _ _ Hq).
  destruct (_ <=? _)%nat; [|exact Hq].
  rewrite contentQueue_findUnique_update by reflexivity.
  rewrite Hq. reflexivity.
Qed.

(** The callback, for an accepted secret and a stored unit: the response,
    and the unit's row in terms of the counts read after recording. *)
Lemma POST_callback_unit (secret : option string) (req : CallbackRequest) (st : Store)
    (q : ContentQueue) :
  secret_rejected secret (x_n8n_secret req) = false ->
  contentQueue_findUnique (content_id (body req)) st = Some q ->
  exists st1,
    record_result (body req) st = Some st1 /\
    POST_callback secret req st = (CbAcknowledged, aggregate_status req st1) /\
    contentQueue_findUnique (content_id (body req)) st1 = Some q.
Proof.
  intros Hs Hq.
  destruct (record_result_some _ _ _ Hq) as [st1 E].
  exists st1. split; [exact E|]. split.
  - unfold POST_callback. rewrite Hs, E. reflexivity.
  - destruct (record_result_cases _ _ _ E) as [Hc _].
    rewrite (contentQueue_findUnique_ext _ _ _ Hc). exact Hq.
Qed.

(** C1 (amended): each accepted callback for a stored unit re-reads
    T = number of target platforms, R = number of stored results of the unit
    and S = number of those with non-null copy.  If R < T the unit's row is
    left exactly as it was (status and error message included); if R >= T
    the status becomes complete when S = T, failed when S = 0 (and S <> T),
    partial otherwise, and the error message is non-null exactly when that
    status is failed. *)
Theorem callback_status_rule
    (secret : option string) (req : CallbackRequest) (st : Store) (q : ContentQueue) :
  secret_rejected secret (x_n8n_secret req) = false ->
  contentQueue_findUnique (content_id (body req)) st = Some q ->
  exists st' q',
    POST_callback secret req st = (CbAcknowledged, st') /\
    contentQueue_findUnique (content_id (body req)) st' = Some q' /\
    targetPlatforms q' = targetPlatforms q /\
    let T := List.length (targetPlatforms q) in
    let R := List.length (platformOutputs_of (content_id (body req)) st') in
    let S := successCount_of (platformOutputs_of (content_id (body req)) st') in
    ((R < T)%nat -> q' = q) /\
    ((T <= R)%nat ->
       (S = T -> status q' = complete) /\
       (S <> T -> S = 0%nat -> status q' = failed) /\
       (S <> T -> S <> 0%nat -> status q' = partial) /\
       (errorMessage q' <> None <-> status q' = failed)).
Proof.
  intros Hs Hq.
  destruct (POST_callback_unit _ _ _ _ Hs Hq) as (st1 & _ & Hpost & Hq1).
  pose proof (aggregate_status_unit req st1 q Hq1) as Hagg. simpl in Hagg.
  exists (aggregate_status req st1). eexists.
  split; [exact Hpost|]. split; [exact Hagg|].
  unfold platformOutputs_of.
  destruct (aggregate_status_outputs req st1) as [-> _].
  fold (platformOutputs_of (content_id (body req)) st1).
  set (T := List.length (targetPlatforms q)).
  set (R := List.length (platformOutputs_of (content_id (body req)) st1)).
  set (S := successCount_of (platformOutputs_of (content_id (body req)) st1)).
  destruct (T <=? R)%nat eqn:ETR.
  - apply Nat.leb_le in ETR. simpl. split; [reflexivity|].
    split; [intro; lia|]. intros _.
    unfold derive_status. replace (T <=? R)%nat with true by (symmetry; apply Nat.leb_le; lia).
    destruct (S =? T)%nat eqn:EST; [|destruct (S =? 0)%nat eqn:ES0]; simpl.
    + apply Nat.eqb_eq in EST. repeat split; try (intros; congruence).
    + apply Nat.eqb_neq in EST. apply Nat.eqb_eq in ES0.
      repeat split; try (intros; congruence).
    + apply Nat.eqb_neq in EST. apply Nat.eqb_neq in ES0.
      repeat split; try (intros; congruence).
  - apply Nat.leb_gt in ETR. split; [reflexivity|].
    split; [intros _; reflexivity|]. intro; lia.
Qed.

Lemma callback_status_rule_witness :
  exists st' q',
    POST_callback None (failed_callback twitter) two_ok_store = (CbAcknowledged, st') /\
    contentQueue_findUnique unit1 st' = Some q' /\
    status q' = partial /\ errorMessage q' = None.
Proof.
  destruct (callback_status_rule None (failed_callback twitter) two_ok_store
              (mkContent unit1 (Some "profile1") [instagram; linkedin; twitter]
                         pending None None)
              eq_refl eq_refl)
    as (st' & q' & Hpost & Hq' & _ & _ & Hfull).
  exists st', q'. split; [exact Hpost|]. split; [exact Hq'|].
  vm_compute in Hpost. injection Hpost as <-.
  vm_compute in Hq'. injection Hq' as <-.
  split; reflexivity.
Defined.

(** The statement of C1 as written fails in two ways.  (a) On a unit as the
    create route leaves it (status pending), recording the first of two
    results gives R = 1 < T = 2 and the status is still pending, not
    processing.  (b) On a unit whose two platforms failed and were both sent
    to regeneration, recording the first new result gives R = 1 < T = 2, the
    derived status is processing, and the error message is still populated. *)
Lemma callback_status_rule_counterexample :
  (option_map targetPlatforms (contentQueue_findUnique unit1 (fresh_store [instagram; twitter]))
     = Some [instagram; twitter] /\
   List.length
     (platformOutputs_of unit1
        (snd (POST_callback None (ok_callback instagram "Hello alpha")
                            (fresh_store [instagram; twitter])))) = 1%nat /\
   status_of unit1
     (snd (POST_callback None (ok_callback instagram "Hello alpha")
                         (fresh_store [instagram; twitter]))) = Some pending) /\
  (option_map targetPlatforms (contentQueue_findUnique unit1 regenerating_store)
     = Some [instagram; twitter] /\
   List.length
     (platformOutputs_of unit1
        (snd (POST_callback None (ok_callback instagram "Hello alpha") regenerating_store)))
     = 1%nat /\
   derive_status 2 1
     (successCount_of
        (platformOutputs_of unit1
           (snd (POST_callback None (ok_callback instagram "Hello alpha") regenerating_store))))
     = processing /\
   option_map errorMessage
     (contentQueue_findUnique unit1
        (snd (POST_callback None (ok_callback instagram "Hello alpha") regenerating_store)))
     = Some (Some "image transform error")).
Proof. vm_compute. repeat split. Qed.

(** ** Regeneration *)

Lemma filter_filter_keep {A : Type} (g h : A -> bool) (l : list A) :
  (forall x, g x = true -> h x = true) ->
  filter g (filter h l) = filter g l.
Proof.
  intro H. induction l as [|x l IH]; simpl; [reflexivity|].
  destruct (h x) eqn:Eh; simpl.
  - destruct (g x); rewrite IH; reflexivity.
  - destruct (g x) eqn:Eg; [|exact IH].
    apply H in Eg. congruence.
Qed.

Lemma filter_filter_drop {A : Type} (g h : A -> bool) (l : list A) :
  (forall x, g x = true -> h x = false) ->
  filter g (filter h l) = [].
Proof.
  intro H. induction l as [|x l IH]; simpl; [reflexivity|].
  destruct (h x) eqn:Eh; simpl; [|exact IH].
  destruct (g x) eqn:Eg; [|exact IH].
  apply H in Eg. congruence.
Qed.

Lemma contentQueue_findUnique_update_other (c c' : string)
    (f : ContentQueue -> ContentQueue) (st : Store) :
  (forall q, cqId (f q) = cqId q) -> c' <> c ->
  contentQueue_findUnique c' (contentQueue_update c f st) = contentQueue_findUnique c' st.
Proof.
  intros Hf Hne. unfold contentQueue_findUnique, contentQueue_update; simpl.
  induction (contentQueue st) as [|q l IH]; simpl; [reflexivity|].
  destruct (String.eqb (cqId q) c) eqn:E.
  - rewrite Hf. apply String.eqb_eq in E.
    destruct (String.eqb (cqId q) c') eqn:E'.
    + apply String.eqb_eq in E'. congruence.
    + exact IH.
  - destruct (String.eqb (cqId q) c'); [reflexivity | exact IH].
Qed.

Lemma no_invalid_platforms (targets platforms : list Platform) :
  (forall p, In p platforms -> In p targets) ->
  filter (fun p => negb (includes targets p)) platforms = [].
Proof.
  intro H. induction platforms as [|p l IH]; simpl; [reflexivity|].
  assert (Hp : includes targets p = true) by (apply includes_In, H; left; reflexivity).
  rewrite Hp. simpl. apply IH. intros x Hx. apply H. right. exact Hx.
Qed.

(** C5: a regenerate call naming a subset of the unit's target platforms
    is accepted; the stored results of the unit for the named platforms are
    all deleted, the stored results of every other (content, platform) pair
    are left exactly as they were, the unit's status is processing, and no
    other unit's row changes. *)
Theorem regenerate_deletes_exactly_named
    (cid : string) (platforms : list Platform) (st : Store) (q : ContentQueue) :
  contentQueue_findUnique cid st = Some q ->
  (forall p, In p platforms -> In p (targetPlatforms q)) ->
  exists st',
    POST_regenerate true cid platforms st = (RegOk cid platforms processing, st') /\
    (forall p, In p platforms -> filter (same_pair cid p) (platformOutput st') = []) /\
    (forall c p, ~ (c = cid /\ In p platforms) ->
       filter (same_pair c p) (platformOutput st') = filter (same_pair c p) (platformOutput st)) /\
    (forall o, In o (platformOutput st') -> In o (platformOutput st)) /\
    status_of cid st' = Some processing /\
    (forall c, c <> cid -> contentQueue_findUnique c st' = contentQueue_findUnique c st).
Proof.
  intros Hq Hsub. unfold POST_regenerate. simpl. rewrite Hq.
  rewrite (no_invalid_platforms _ _ Hsub). simpl.
  eexists. split; [reflexivity|].
  split; [|split; [|split; [|split]]]; simpl.
  - intros p Hp. apply filter_filter_drop. intros o Ho.
    apply same_pair_spec in Ho. destruct Ho as [-> ->].
    rewrite String.eqb_refl. simpl.
    apply includes_In in Hp. rewrite Hp. reflexivity.
  - intros c p Hn. apply filter_filter_keep. intros o Ho.
    apply same_pair_spec in Ho. destruct Ho as [<- <-].
    destruct (String.eqb (contentId o) cid) eqn:Ec; [|reflexivity].
    destruct (includes platforms (platform o)) eqn:Ei; [|reflexivity].
    exfalso. apply Hn. split; [apply String.eqb_eq; exact Ec | apply includes_In; exact Ei].
  - intros o Ho. apply filter_In in Ho. tauto.
  - unfold status_of. rewrite contentQueue_findUnique_update by reflexivity.
    unfold contentQueue_findUnique in *. simpl. rewrite Hq. reflexivity.
  - intros c Hc. rewrite contentQueue_findUnique_update_other by (try reflexivity; assumption).
    reflexivity.
Qed.

Lemma regenerate_deletes_exactly_named_witness :
  exists st',
    POST_regenerate true unit1 [linkedin] all_ok_store = (RegOk unit1 [linkedin] processing, st') /\
    filter (same_pair unit1 linkedin) (platformOutput st') = [] /\
    filter (same_pair unit1 instagram) (platformOutput st')
    = filter (same_pair unit1 instagram) (platformOutput all_ok_store) /\
    status_of unit1 st' = Some processing.
Proof.
  destruct (regenerate_deletes_exactly_named unit1 [linkedin] all_ok_store all_ok_unit)
    as (st' & Hpost & Hdel & Hkeep & _ & Hst & _).
  - reflexivity.
  - intros p [<-|[]]. simpl. tauto.
  - exists st'. split; [exact Hpost|]. split; [|split; [|exact Hst]].
    + apply Hdel. left. reflexivity.
    + apply Hkeep. intros [_ [H|[]]]. discriminate H.
Defined.

Lemma invalid_platforms_spec (targets platforms : list Platform) (p : Platform) :
  In p (filter (fun p => negb (includes targets p)) platforms)
  <-> In p platforms /\ ~ In p targets.
Proof.
  rewrite filter_In, negb_true_iff. split; intros [H1 H2]; split; try exact H1.
  - intro Hin. apply includes_In in Hin. congruence.
  - destruct (includes targets p) eqn:E; [|reflexivity].
    apply includes_In in E. contradiction.
Qed.

(** C6: a regenerate call that names a platform outside the unit's target
    platforms is rejected with INVALID_PLATFORMS; the message lists, comma
    separated, exactly the named platforms that are not targets; the store is
    returned as it was, so no stored result is deleted and the unit's status
    is unchanged. *)
Theorem regenerate_rejects_foreign_platforms
    (cid : string) (platforms : list Platform) (st : Store) (q : ContentQueue) :
  contentQueue_findUnique cid st = Some q ->
  (exists p, In p platforms /\ ~ In p (targetPlatforms q)) ->
  exists offenders,
    POST_regenerate true cid platforms st
    = (RegInvalidPlatforms ("Platforms not in original target: " ++ join_names offenders), st) /\
    (forall p, In p offenders <-> In p platforms /\ ~ In p (targetPlatforms q)) /\
    platformOutput (snd (POST_regenerate true cid platforms st)) = platformOutput st /\
    status_of cid (snd (POST_regenerate true cid platforms st)) = status_of cid st.
Proof.
  intros Hq (p & Hp & Hnot).
  exists (filter (fun p => negb (includes (targetPlatforms q) p)) platforms).
  assert (Hin : In p (filter (fun p => negb (includes (targetPlatforms q) p)) platforms))
    by (apply invalid_platforms_spec; split; assumption).
  assert (E : POST_regenerate true cid platforms st
              = (RegInvalidPlatforms
                   ("Platforms not in original target: "
                    ++ join_names (filter (fun p => negb (includes (targetPlatforms q) p))
                                          platforms)), st)).
  { unfold POST_regenerate. simpl. rewrite Hq.
    destruct (filter (fun p => negb (includes (targetPlatforms q) p)) platforms);
      [contradiction | reflexivity]. }
  rewrite E. simpl. repeat split; try apply invalid_platforms_spec; auto.
  - apply invalid_platforms_spec in H. tauto.
  - apply invalid_platforms_spec in H. tauto.
Qed.

Lemma regenerate_rejects_foreign_platforms_witness :
  POST_regenerate true unit1 [linkedin; pinterest; tiktok] all_ok_store
  = (RegInvalidPlatforms "Platforms not in original target: pinterest, tiktok", all_ok_store).
Proof.
  destruct (regenerate_rejects_foreign_platforms unit1 [linkedin; pinterest; tiktok]
              all_ok_store all_ok_unit) as (offenders & Hpost & _).
  - reflexivity.
  - exists pinterest. split; [simpl; tauto|].
    simpl. intros [H|[H|[H|[]]]]; discriminate H.
  - rewrite Hpost. vm_compute in Hpost. injection Hpost as Hmsg.
    vm_compute. rewrite Hmsg. reflexivity.
Defined.

(** ** User edits *)

(** C8: an accepted edit of a stored result answers with the updated
    projection and changes nothing but the three override columns of the rows
    carrying the result's key: there the flag is set and the edited copy and
    hashtags take the supplied values (or keep the stored ones where none is
    supplied); every row keeps its generated copy and generated hashtags and
    every other column; rows with another key are untouched; the content
    table, with the unit's status, is unchanged. *)
Theorem edit_sets_flag_keeps_generated
    (cid : string) (oid : nat) (b : UpdateOutputBody) (st : Store) (found : PlatformOutput) :
  find (fun o => Nat.eqb (outputId o) oid && String.eqb (contentId o) cid) (platformOutput st)
  = Some found ->
  edit_within_limit b found st ->
  exists st',
    PATCH_output true cid oid b st
    = (PatchOk oid true
               (set_if_defined (new_editedCopy b) (editedCopy found))
               (nullish (new_editedHashtags b) (editedHashtags found)), st') /\
    contentQueue st' = contentQueue st /\
    List.length (platformOutput st') = List.length (platformOutput st) /\
    (forall n o, nth_error (platformOutput st) n = Some o ->
       exists o',
         nth_error (platformOutput st') n = Some o' /\
         rewrittenCopy o' = rewrittenCopy o /\ hashtags o' = hashtags o /\
         outputId o' = outputId o /\ contentId o' = contentId o /\ platform o' = platform o /\
         optimizedImageUrl o' = optimizedImageUrl o /\ scheduledFor o' = scheduledFor o /\
         tokensUsed o' = tokensUsed o /\ processingTimeMs o' = processingTimeMs o /\
         modelUsed o' = modelUsed o /\
         (outputId o <> oid -> o' = o) /\
         (outputId o = oid ->
            userEdited o' = true /\
            editedCopy o' = set_if_defined (new_editedCopy b) (editedCopy found) /\
            editedHashtags o' = nullish (new_editedHashtags b) (editedHashtags found))).
Proof.
  intros Hfind Hlim.
  assert (Hid : outputId found = oid).
  { apply find_some in Hfind. destruct Hfind as [_ H].
    apply andb_true_iff in H. destruct H as [H _]. apply Nat.eqb_eq. exact H. }
  exists (platformOutput_update oid (edit_update b found) st).
  split; [|split; [reflexivity|split; [apply length_map|]]].
  - unfold PATCH_output. simpl. rewrite Hfind. simpl. rewrite Hid.
    destruct (truthy (new_editedCopy b)) eqn:Et; [|reflexivity].
    destruct (Hlim Et) as (content & -> & Hle).
    replace (_ <? _)%Z with false by (symmetry; apply Z.ltb_ge; exact Hle).
    reflexivity.
  - intros n o Hn. unfold platformOutput_update; simpl.
    rewrite nth_error_map, Hn. simpl.
    destruct (Nat.eqb (outputId o) oid) eqn:E.
    + apply Nat.eqb_eq in E. eexists. split; [reflexivity|].
      simpl. repeat split; try reflexivity; try contradiction.
    + apply Nat.eqb_neq in E. exists o. split; [reflexivity|].
      repeat split; try reflexivity; try contradiction.
Qed.

Lemma edit_sets_flag_keeps_generated_witness :
  exists st',
    PATCH_output true unit1 2 (mkEdit (Some "Edited gamma") None) configured_store
    = (PatchOk 2 true (Some "Edited gamma") [], st') /\
    contentQueue st' = contentQueue configured_store.
Proof.
  destruct (edit_sets_flag_keeps_generated unit1 2 (mkEdit (Some "Edited gamma") None)
              configured_store
              (mkOutput 2 unit1 twitter None (Some "Hello gamma") ["#a"; "#b"] false None []
                        None (Some 120%Z) (Some 900%Z) (Some "model")))
    as (st' & Hpost & Hcq & _).
  - reflexivity.
  - intros _. exists all_ok_unit. split; [reflexivity|]. vm_compute. discriminate.
  - exists st'. split; [exact Hpost | exact Hcq].
Defined.

(** ** Scheduling *)

Lemma digit_value_nonneg (c : ascii) (d : Z) : digit_value c = Some d -> (0 <= d)%Z.
Proof.
  unfold digit_value. destruct (_ && _); [|discriminate].
  intro H. injection H as <-. lia.
Qed.

Lemma digits_value_nonneg (s : string) (acc v : Z) :
  (0 <= acc)%Z -> digits_value acc s = Some v -> (0 <= v)%Z.
Proof.
  revert acc. induction s as [|c s IH]; simpl; intros acc Hacc H.
  - injection H as <-. exact Hacc.
  - destruct (digit_value c) as [d|] eqn:Ed; [|discriminate].
    apply digit_value_nonneg in Ed. apply (IH (acc * 10 + d)%Z); [lia | exact H].
Qed.

Lemma parse_bestTime_nonneg (t : string) (h m s : Z) :
  parse_bestTime t = Some (h, m, s) -> (0 <= h /\ 0 <= m /\ 0 <= s)%Z.
Proof.
  unfold parse_bestTime.
  destruct (split_colon t) as [|a [|b [|c r]]]; simpl; try discriminate.
  - destruct (Number_of a); discriminate.
  - destruct (Number_of a); [destruct (Number_of b)|]; discriminate.
  - destruct (Number_of a) as [x|] eqn:Ea; [|discriminate].
    destruct (Number_of b) as [y|] eqn:Eb; [|discriminate].
    destruct (Number_of c) as [z|] eqn:Ec; [|discriminate].
    intro H. injection H as <- <- <-.
    unfold Number_of in *.
    apply digits_value_nonneg in Ea, Eb, Ec; lia.
Qed.

(** Today's occurrence when it is still ahead, tomorrow's otherwise, and in
    both cases after [now]. *)
Lemma best_time_schedule_spec (tz now h m s : Z) :
  (0 <= h /\ 0 <= m /\ 0 <= s)%Z ->
  let today := setHours tz now h m s 0 in
  let tomorrow := setHours tz (now + msPerDay) h m s 0 in
  ((now < today)%Z -> best_time_schedule tz now (h, m, s) = today) /\
  ((today <= now)%Z -> best_time_schedule tz now (h, m, s) = tomorrow) /\
  (now < best_time_schedule tz now (h, m, s))%Z.
Proof.
  intros (Hh & Hm & Hs). simpl.
  unfold best_time_schedule, setDate_next, setHours, UTC, MakeDate, Day, TimeWithinDay,
    LocalTime, MakeTime, msPerDay.
  set (tod := (h * 3600000 + m * 60000 + s * 1000 + 0)%Z).
  assert (Htod : (0 <= tod)%Z) by (unfold tod; lia).
  set (d := ((now + tz) / 86400000)%Z).
  replace ((now + 86400000 + tz) / 86400000)%Z with (d + 1)%Z.
  2:{ unfold d. replace (now + 86400000 + tz)%Z with (now + tz + 1 * 86400000)%Z by lia.
      rewrite Z.div_add by lia. reflexivity. }
  replace (d * 86400000 + tod - tz + tz)%Z with (tod + d * 86400000)%Z by lia.
  rewrite Z.div_add by lia. rewrite Z.mod_add by lia.
  pose proof (Z.div_mod tod 86400000 ltac:(lia)) as Hdm.
  pose proof (Z.div_mod (now + tz) 86400000 ltac:(lia)) as Hnow.
  pose proof (Z.mod_pos_bound (now + tz) 86400000 ltac:(lia)) as Hb.
  fold d in Hnow.
  destruct (d * 86400000 + tod - tz <=? now)%Z eqn:E.
  - apply Z.leb_le in E. split; [intro; lia|]. split; [intros _; lia | lia].
  - apply Z.leb_gt in E. split; [intros _; reflexivity|]. split; [intro; lia | lia].
Qed.














(** The schedule computed for [configured_store] at 10:00 of day 10 (UTC):
    instagram has no configuration row and gets 14:00 today, linkedin's 09:00
    has passed and moves to tomorrow, twitter gets 11:00 today. *)
Example heuristic_schedule_example :
  fst (POST_schedule true 0 900000000 unit1 (mkSchedule best_times None) configured_store)
  = SchOk unit1 [(instagram, 914400000%Z); (linkedin, 982800000%Z); (twitter, 903600000%Z)].
Proof. vm_compute. reflexivity. Qed.

(** C4: the all-or-nothing rejection does not hold of the schedule route.
    On a complete unit with stored results for instagram, linkedin and
    twitter (in that order), a custom schedule whose linkedin time is one
    hour in the past is rejected with INVALID_SCHEDULE naming linkedin, but
    the instagram result, handled earlier in the loop, already carries its
    new timestamp in the returned store. *)
Theorem custom_schedule_partial_write :
  fst (POST_schedule true 0 900000000 unit1 (mixed_custom_schedule 900000000) all_ok_store)
  = SchInvalidSchedule "Scheduled time for linkedin must be in the future" /\
  map (fun o => (platform o, scheduledFor o)) (platformOutput all_ok_store)
  = [(instagram, None); (linkedin, None); (twitter, None)] /\
  map (fun o => (platform o, scheduledFor o))
      (platformOutput
         (snd (POST_schedule true 0 900000000 unit1 (mixed_custom_schedule 900000000)
                             all_ok_store)))
  = [(instagram, Some 903600000%Z); (linkedin, None); (twitter, None)].
Proof. vm_compute. repeat split. Qed.

(** ** Prompt building *)

(** C7: placeholders without a value are not replaced by the empty string.
    The test route's [buildUserPrompt] substitutes only the title and the
    body, and only their first occurrence, so every other documented
    placeholder stays in the prompt; the workflow node replaces an absent
    value by the text "null" or "undefined", replaces only the first
    occurrence, leaves the keyword and do/don't placeholders alone, and
    throws on a template that is null. *)
Theorem absent_placeholders_not_blanked :
  buildUserPrompt (Some "Tone {{global_tone}}: {{title}} / {{title}}") "T" "B"
  = "Tone {{global_tone}}: T / {{title}}" /\
  existsb (fun v => occurs_in v
             (buildUserPrompt (Some "Tone {{global_tone}}: {{title}} / {{title}}") "T" "B"))
          documented_placeholders = true /\
  BuildAIPrompt (mkNodeContent (JsString "T") (JsString "B"))
                (mkNodeProfile JsUndefined JsNull JsNull JsNull)
                (mkNodeConfig JsNull
                   (JsString "{{platform_tone}}|{{global_tone}}|{{global_tone}}|{{brand_keywords}}")
                   JsNull JsNull (JsNumber 280) JsNull JsNull)
  = Some ("Default system prompt...", "null|undefined|{{global_tone}}|{{brand_keywords}}") /\
  BuildAIPrompt (mkNodeContent (JsString "T") (JsString "B"))
                (mkNodeProfile JsUndefined JsNull JsNull JsNull)
                (mkNodeConfig JsNull JsNull JsNull JsNull (JsNumber 280) JsNull JsNull)
  = None.
Proof. vm_compute. repeat split. Qed.

(** ** Order independence of the aggregate status *)

(** *** The entries of a store under the callback *)

Lemma existsb_find {A : Type} (g : A -> bool) (l : list A) :
  existsb g l = isSome (find g l).
Proof.
  induction l as [|x l IH]; simpl; [reflexivity|].
  destruct (g x); [reflexivity | exact IH].
Qed.

Lemma existsb_map_entry (c : string) (p : Platform) (l : list PlatformOutput) :
  existsb (entry_is c p) (map entry_of l) = existsb (same_pair c p) l.
Proof.
  induction l as [|o l IH]; simpl; [reflexivity|].
  rewrite IH. reflexivity.
Qed.

Lemma filter_map_comm {A B : Type} (f : A -> B) (g : B -> bool) (l : list A) :
  filter g (map f l) = map f (filter (fun x => g (f x)) l).
Proof.
  induction l as [|x l IH]; simpl; [reflexivity|].
  destruct (g (f x)); simpl; rewrite IH; reflexivity.
Qed.

Lemma entries_counts (c : string) (st : Store) :
  entries_outputCount c (entries st) = List.length (platformOutputs_of c st) /\
  entries_successCount c (entries st) = successCount_of (platformOutputs_of c st).
Proof.
  unfold entries_outputCount, entries_successCount, entries_of_content, entries,
    platformOutputs_of, successCount_of.
  rewrite filter_map_comm. simpl. rewrite filter_map_comm, !length_map. simpl.
  split; reflexivity.
Qed.

(** In a consistent store the row found for a pair is the only row with its
    key and the only row of the pair. *)
Lemma found_row_key (c : string) (p : Platform) (st : Store) (e o : PlatformOutput) :
  consistent st ->
  platformOutput_findUnique c p st = Some e ->
  In o (platformOutput st) ->
  Nat.eqb (outputId o) (outputId e) = same_pair c p o.
Proof.
  intros [Hone [Hnd _]] Hfind Hin.
  apply find_some in Hfind. destruct Hfind as [He Hpe].
  destruct (Nat.eqb (outputId o) (outputId e)) eqn:E.
  - apply Nat.eqb_eq in E.
    rewrite (NoDup_map_unique outputId _ o e Hnd Hin He E). symmetry. exact Hpe.
  - destruct (same_pair c p o) eqn:Ep; [|reflexivity].
    rewrite (filter_le1_unique _ _ o e (Hone c p) Hin He Ep Hpe) in E.
    rewrite Nat.eqb_refl in E. discriminate.
Qed.

Lemma update_entries (c : string) (p : Platform) (st : Store) (e : PlatformOutput)
    (f : PlatformOutput -> PlatformOutput) (g : option string -> option string) :
  consistent st ->
  platformOutput_findUnique c p st = Some e ->
  (forall o, entry_of (f o) = (contentId o, platform o, g (rewrittenCopy o))) ->
  entries (platformOutput_update (outputId e) f st) = upsert c p g (g None) (entries st).
Proof.
  intros Hc Hfind Hf. unfold upsert, entries.
  rewrite existsb_map_entry, existsb_find.
  unfold platformOutput_findUnique in Hfind. rewrite Hfind. simpl.
  rewrite !map_map. apply map_ext_in. intros o Hin.
  rewrite (found_row_key c p st e o Hc Hfind Hin).
  unfold entry_set_copy, entry_is. simpl. fold (same_pair c p o).
  destruct (same_pair c p o); [apply Hf | reflexivity].
Qed.

Lemma create_entries (c : string) (p : Platform) (st : Store) (rows : list PlatformOutput)
    (o : PlatformOutput) (g : option string -> option string) :
  platformOutput_findUnique c p st = None ->
  rows = (platformOutput st ++ [o])%list ->
  entry_of o = (c, p, rewrittenCopy o) ->
  map entry_of rows = upsert c p g (rewrittenCopy o) (entries st).
Proof.
  intros Hfind -> Ho. unfold upsert, entries.
  rewrite existsb_map_entry, existsb_find.
  unfold platformOutput_findUnique in Hfind. rewrite Hfind. simpl.
  rewrite map_app. simpl. rewrite Ho. reflexivity.
Qed.

Lemma record_result_entries (b : CallbackBody) (st st' : Store) :
  consistent st ->
  record_result b st = Some st' ->
  entries st' = entries_record b (entries st).
Proof.
  intros Hc. unfold record_result, entries_record.
  destruct (cb_status b); [destruct (output b) as [out|]|];
    destruct (platformOutput_findUnique (content_id b) (cb_platform b) st) as [e|] eqn:Ef;
    intro H; try (injection H as <-; try reflexivity).
  - rewrite (update_entries _ _ _ _ _ (set_if_defined (rewritten_copy out)) Hc Ef)
      by reflexivity.
    destruct (rewritten_copy out); reflexivity.
  - apply create_inv in H. destruct H as (Hrows & _).
    apply (create_entries _ _ _ _ _ _ Ef Hrows). reflexivity.
  - rewrite (update_entries _ _ _ _ _ (fun _ => None) Hc Ef) by reflexivity.
    reflexivity.
  - apply create_inv in H. destruct H as (Hrows & _).
    apply (create_entries _ _ _ _ _ _ Ef Hrows). reflexivity.
Qed.

Lemma record_result_keys_issued (b : CallbackBody) (st st' : Store) :
  keys_issued st -> record_result b st = Some st' -> keys_issued st'.
Proof.
  intros [Hnd Hlt] H. apply record_result_cases in H.
  destruct H as [_ [(_ & _ & ->)|[(e & f & _ & _ & Hid & ->)|(o & _ & _ & _ & Ho & Hrows & Hnext)]]].
  - split; assumption.
  - unfold keys_issued, platformOutput_update; simpl.
    assert (Hids : map outputId
                     (map (fun o => if Nat.eqb (outputId o) (outputId e) then f o else o)
                          (platformOutput st))
                   = map outputId (platformOutput st)).
    { rewrite map_map. apply map_ext. intro o.
      destruct (Nat.eqb (outputId o) (outputId e)); [apply Hid | reflexivity]. }
    split; [rewrite Hids; exact Hnd|].
    apply Forall_forall. intros x Hx. apply in_map_iff in Hx.
    destruct Hx as (o & <- & Ho).
    rewrite Forall_forall in Hlt. specialize (Hlt o Ho).
    destruct (Nat.eqb (outputId o) (outputId e)); [rewrite Hid|]; exact Hlt.
  - unfold keys_issued. rewrite Hrows, Hnext, map_app. simpl.
    rewrite Forall_forall in Hlt. split.
    + apply NoDup_app; [exact Hnd | repeat constructor; simpl; tauto |].
      intros i Hi [<-|[]]. apply in_map_iff in Hi.
      destruct Hi as (x & Hx & Hin). specialize (Hlt x Hin). lia.
    + apply Forall_forall. intros x Hx. apply in_app_or in Hx.
      destruct Hx as [Hx|[<-|[]]]; [specialize (Hlt x Hx)|]; lia.
Qed.

Lemma POST_callback_consistent (secret : option string) (req : CallbackRequest) (st : Store) :
  consistent st -> consistent (snd (POST_callback secret req st)).
Proof.
  intros [Hone Hkeys]. split; [apply POST_callback_at_most_one; exact Hone|].
  unfold POST_callback.
  destruct (secret_rejected _ _); [exact Hkeys|].
  destruct (record_result (body req) st) as [st1|] eqn:E; [|exact Hkeys].
  simpl. unfold keys_issued.
  destruct (aggregate_status_outputs req st1) as (-> & -> & _).
  exact (record_result_keys_issued _ _ _ Hkeys E).
Qed.

(** *** One callback, seen on the entries and the status *)

Lemma POST_callback_view (secret : option string) (req : CallbackRequest) (st : Store)
    (q : ContentQueue) :
  consistent st ->
  contentQueue_findUnique (content_id (body req)) st = Some q ->
  exists q',
    contentQueue_findUnique (content_id (body req)) (snd (POST_callback secret req st))
    = Some q' /\
    targetPlatforms q' = targetPlatforms q /\
    (entries (snd (POST_callback secret req st)), status q')
    = view_callback secret (content_id (body req)) (List.length (targetPlatforms q)) req
                    (entries st, status q).
Proof.
  intros Hc Hq. unfold view_callback.
  destruct (secret_rejected secret (x_n8n_secret req)) eqn:Hs.
  - unfold POST_callback. rewrite Hs. simpl. exists q. auto.
  - destruct (POST_callback_unit _ _ _ _ Hs Hq) as (st1 & Hrec & Hpost & Hq1).
    rewrite Hpost. simpl.
    pose proof (aggregate_status_unit req st1 q Hq1) as Hagg. simpl in Hagg.
    rewrite Hagg.
    assert (He : entries (aggregate_status req st1) = entries_record (body req) (entries st)).
    { unfold entries at 1. destruct (aggregate_status_outputs req st1) as [-> _].
      apply record_result_entries; assumption. }
    rewrite He, <- (record_result_entries _ _ _ Hc Hrec).
    destruct (entries_counts (content_id (body req)) st1) as [-> ->].
    eexists. split; [reflexivity|].
    destruct (_ <=? _)%nat; split; reflexivity.
Qed.

(** *** Entries up to reordering *)

Lemma filter_Permutation {A : Type} (g : A -> bool) (l l' : list A) :
  Permutation l l' -> Permutation (filter g l) (filter g l').
Proof.
  induction 1 as [|x l l' _ IH|x y l|l l' l'' _ IH1 _ IH2]; simpl.
  - constructor.
  - destruct (g x); [constructor|]; exact IH.
  - destruct (g x), (g y); try apply Permutation_refl. apply perm_swap.
  - exact (Permutation_trans IH1 IH2).
Qed.

Lemma existsb_Permutation {A : Type} (g : A -> bool) (l l' : list A) :
  Permutation l l' -> existsb g l = existsb g l'.
Proof.
  induction 1 as [|x l l' _ IH|x y l|l l' l'' _ IH1 _ IH2]; simpl.
  - reflexivity.
  - rewrite IH. reflexivity.
  - destruct (g x), (g y); reflexivity.
  - rewrite IH1. exact IH2.
Qed.

Lemma upsert_Permutation (c : string) (p : Platform) (f : option string -> option string)
    (v : option string) (P Q : list Entry) :
  Permutation P Q -> Permutation (upsert c p f v P) (upsert c p f v Q).
Proof.
  intro H. unfold upsert. rewrite (existsb_Permutation _ _ _ H).
  destruct (existsb (entry_is c p) Q).
  - apply Permutation_map. exact H.
  - apply Permutation_app_tail. exact H.
Qed.

Lemma entries_record_Permutation (b : CallbackBody) (P Q : list Entry) :
  Permutation P Q -> Permutation (entries_record b P) (entries_record b Q).
Proof.
  intro H. unfold entries_record.
  destruct (cb_status b); [destruct (output b)|];
    try apply upsert_Permutation; exact H.
Qed.

Lemma counts_Permutation (c : string) (P Q : list Entry) :
  Permutation P Q ->
  entries_outputCount c P = entries_outputCount c Q /\
  entries_successCount c P = entries_successCount c Q.
Proof.
  intro H. unfold entries_outputCount, entries_successCount, entries_of_content.
  split; apply Permutation_length; repeat apply filter_Permutation; exact H.
Qed.

Lemma entry_set_copy_pair (c : string) (p : Platform) (f : option string -> option string)
    (e : Entry) :
  fst (entry_set_copy c p f e) = fst e.
Proof. unfold entry_set_copy. destruct (entry_is c p e); reflexivity. Qed.

Lemma upsert_outputCount_le (c' c : string) (p : Platform)
    (f : option string -> option string) (v : option string) (P : list Entry) :
  (entries_outputCount c' P <= entries_outputCount c' (upsert c p f v P))%nat.
Proof.
  unfold entries_outputCount, entries_of_content, upsert.
  destruct (existsb (entry_is c p) P).
  - rewrite filter_map_stable.
    + rewrite length_map. apply le_n.
    + intro e. rewrite entry_set_copy_pair. reflexivity.
  - rewrite filter_app, length_app. apply Nat.le_add_r.
Qed.

Lemma entries_record_outputCount_le (c : string) (b : CallbackBody) (P : list Entry) :
  (entries_outputCount c P <= entries_outputCount c (entries_record b P))%nat.
Proof.
  unfold entries_record.
  destruct (cb_status b); [destruct (output b)|];
    try apply upsert_outputCount_le. lia.
Qed.

Lemma entry_is_exclusive (c1 c2 : string) (p1 p2 : Platform) (e : Entry) :
  (c1, p1) <> (c2, p2) -> entry_is c1 p1 e = true -> entry_is c2 p2 e = false.
Proof.
  intros Hne H1. destruct (entry_is c2 p2 e) eqn:H2; [|reflexivity].
  unfold entry_is in *. apply andb_true_iff in H1, H2.
  destruct H1 as [A1 B1], H2 as [A2 B2].
  apply String.eqb_eq in A1, A2. apply Platform_eqb_eq in B1, B2.
  exfalso. apply Hne. congruence.
Qed.

Lemma entry_is_new (c : string) (p : Platform) (v : option string) :
  entry_is c p (c, p, v) = true.
Proof. unfold entry_is. simpl. rewrite String.eqb_refl, Platform_eqb_refl. reflexivity. Qed.

(** An upsert on one pair leaves the presence of another pair as it was. *)
Lemma upsert_other_exists (c1 c2 : string) (p1 p2 : Platform)
    (f : option string -> option string) (v : option string) (P : list Entry) :
  (c1, p1) <> (c2, p2) ->
  existsb (entry_is c2 p2) (upsert c1 p1 f v P) = existsb (entry_is c2 p2) P.
Proof.
  intro Hne. unfold upsert. destruct (existsb (entry_is c1 p1) P).
  - induction P as [|e P IH]; simpl; [reflexivity|].
    rewrite IH. f_equal. unfold entry_is. rewrite entry_set_copy_pair. reflexivity.
  - rewrite existsb_app. simpl.
    rewrite (entry_is_exclusive c1 c2 p1 p2 _ Hne (entry_is_new c1 p1 v)).
    rewrite !orb_false_r. reflexivity.
Qed.

Lemma entry_set_copy_comm (c1 c2 : string) (p1 p2 : Platform)
    (f1 f2 : option string -> option string) (e : Entry) :
  (c1, p1) <> (c2, p2) ->
  entry_set_copy c2 p2 f2 (entry_set_copy c1 p1 f1 e)
  = entry_set_copy c1 p1 f1 (entry_set_copy c2 p2 f2 e).
Proof.
  intro Hne. unfold entry_set_copy.
  destruct (entry_is c1 p1 e) eqn:E1.
  - pose proof (entry_is_exclusive _ _ _ _ e Hne E1) as E2. rewrite E2, E1.
    replace (entry_is c2 p2 (fst e, f1 (snd e))) with (entry_is c2 p2 e) by reflexivity.
    rewrite E2. reflexivity.
  - destruct (entry_is c2 p2 e) eqn:E2.
    + replace (entry_is c1 p1 (fst e, f2 (snd e))) with (entry_is c1 p1 e) by reflexivity.
      rewrite E1. reflexivity.
    + rewrite E1. reflexivity.
Qed.

Lemma entry_set_copy_other (c1 c2 : string) (p1 p2 : Platform)
    (f : option string -> option string) (v : option string) :
  (c1, p1) <> (c2, p2) -> entry_set_copy c1 p1 f (c2, p2, v) = (c2, p2, v).
Proof.
  intro Hne. unfold entry_set_copy.
  assert (Hne' : (c2, p2) <> (c1, p1)) by congruence.
  rewrite (entry_is_exclusive c2 c1 p2 p1 _ Hne' (entry_is_new c2 p2 v)). reflexivity.
Qed.

Lemma upsert_swap (c1 c2 : string) (p1 p2 : Platform)
    (f1 f2 : option string -> option string) (v1 v2 : option string) (P : list Entry) :
  (c1, p1) <> (c2, p2) ->
  Permutation (upsert c2 p2 f2 v2 (upsert c1 p1 f1 v1 P))
              (upsert c1 p1 f1 v1 (upsert c2 p2 f2 v2 P)).
Proof.
  intro Hne. assert (Hne' : (c2, p2) <> (c1, p1)) by congruence.
  unfold upsert at 1 3.
  rewrite (upsert_other_exists c1 c2 p1 p2 f1 v1 P Hne).
  rewrite (upsert_other_exists c2 c1 p2 p1 f2 v2 P Hne').
  unfold upsert.
  destruct (existsb (entry_is c1 p1) P), (existsb (entry_is c2 p2) P).
  - rewrite !map_map. apply Permutation_refl'. apply map_ext.
    intro e. apply entry_set_copy_comm. exact Hne.
  - rewrite map_app. simpl. rewrite (entry_set_copy_other c1 c2 p1 p2 f1 v2 Hne).
    apply Permutation_refl.
  - rewrite map_app. simpl. rewrite (entry_set_copy_other c2 c1 p2 p1 f2 v1 Hne').
    apply Permutation_refl.
  - rewrite <- !app_assoc. apply Permutation_app_head. simpl. apply perm_swap.
Qed.

Lemma entries_record_swap (b1 b2 : CallbackBody) (P : list Entry) :
  (content_id b1, cb_platform b1) <> (content_id b2, cb_platform b2) ->
  Permutation (entries_record b2 (entries_record b1 P))
              (entries_record b1 (entries_record b2 P)).
Proof.
  intro Hne. unfold entries_record.
  destruct (cb_status b1); [destruct (output b1)|];
    (destruct (cb_status b2); [destruct (output b2)|]);
    try apply Permutation_refl; apply upsert_swap; exact Hne.
Qed.

(** *** Callbacks on the view commute up to reordering *)

Section View.

Variable secret : option string.
Variable c : string.
Variable targetCount : nat.

Let step := view_callback secret c targetCount.
Let run := view_all secret c targetCount.

Lemma view_equiv_refl (v : list Entry * Status) : view_equiv v v.
Proof. split; [apply Permutation_refl | reflexivity]. Qed.

Lemma view_equiv_trans (u v w : list Entry * Status) :
  view_equiv u v -> view_equiv v w -> view_equiv u w.
Proof.
  intros [P1 S1] [P2 S2]. split; [exact (Permutation_trans P1 P2) | congruence].
Qed.

Lemma view_callback_congr (r : CallbackRequest) (v w : list Entry * Status) :
  view_equiv v w -> view_equiv (step r v) (step r w).
Proof.
  intros [HP HS]. unfold step, view_callback.
  destruct (secret_rejected secret (x_n8n_secret r)); [split; assumption|].
  pose proof (entries_record_Permutation (body r) _ _ HP) as HP'.
  destruct (counts_Permutation c _ _ HP') as [HR HSc].
  split; simpl; [exact HP'|]. rewrite HR, HSc, HS. reflexivity.
Qed.

Lemma view_all_congr (l : list CallbackRequest) (v w : list Entry * Status) :
  view_equiv v w -> view_equiv (run l v) (run l w).
Proof.
  revert v w. induction l as [|r l IH]; intros v w H; simpl; [exact H|].
  apply IH. apply view_callback_congr. exact H.
Qed.

(** Two callbacks on different pairs, in either order: the same entries up
    to reordering and the same status.  The count of the unit's entries
    never goes down, so when the second callback finds it below the target
    count, so did the first, and neither wrote a status. *)
Lemma view_callback_swap (r1 r2 : CallbackRequest) (v : list Entry * Status) :
  pair_of_request r1 <> pair_of_request r2 ->
  view_equiv (step r2 (step r1 v)) (step r1 (step r2 v)).
Proof.
  intro Hne. unfold step, view_callback.
  destruct (secret_rejected secret (x_n8n_secret r1));
    destruct (secret_rejected secret (x_n8n_secret r2)); try apply view_equiv_refl.
  simpl.
  pose proof (entries_record_swap (body r1) (body r2) (fst v) Hne) as HP.
  destruct (counts_Permutation c _ _ HP) as [HR HS].
  pose proof (entries_record_outputCount_le c (body r2) (entries_record (body r1) (fst v)))
    as Hm1.
  pose proof (entries_record_outputCount_le c (body r1) (entries_record (body r2) (fst v)))
    as Hm2.
  split; simpl; [exact HP|].
  rewrite HR, HS.
  destruct (targetCount <=?
            entries_outputCount c (entries_record (body r1) (entries_record (body r2) (fst v))))%nat
    eqn:E; [reflexivity|].
  apply Nat.leb_gt in E.
  replace (targetCount <=? entries_outputCount c (entries_record (body r1) (fst v)))%nat
    with false by (symmetry; apply Nat.leb_gt; lia).
  replace (targetCount <=? entries_outputCount c (entries_record (body r2) (fst v)))%nat
    with false by (symmetry; apply Nat.leb_gt; lia).
  reflexivity.
Qed.

Lemma view_all_Permutation (l l' : list CallbackRequest) :
  Permutation l l' ->
  NoDup (map pair_of_request l) ->
  forall v w, view_equiv v w -> view_equiv (run l v) (run l' w).
Proof.
  induction 1 as [|x l l' Hp IH|x y l|l l' l'' Hp1 IH1 Hp2 IH2]; intros Hnd v w Hvw.
  - exact Hvw.
  - simpl. inversion Hnd; subst. apply IH; [assumption|].
    apply view_callback_congr. exact Hvw.
  - simpl. fold step. fold (run l).
    apply view_all_congr.
    apply (view_equiv_trans _ (step x (step y w))).
    + apply view_callback_congr, view_callback_congr. exact Hvw.
    + apply view_callback_swap.
      inversion Hnd as [|? ? Hnot _]; subst. simpl in Hnot.
      intro E. apply Hnot. left. symmetry. exact E.
  - apply (view_equiv_trans _ (run l' w)).
    + apply IH1; assumption.
    + apply IH2; [|apply view_equiv_refl].
      apply (Permutation_NoDup (Permutation_map pair_of_request Hp1)). exact Hnd.
Qed.

End View.

(** *** The callbacks of a unit, recorded in sequence *)

Lemma contentQueue_update_missing (c c' : string) (f : ContentQueue -> ContentQueue)
    (st : Store) :
  (forall q, cqId (f q) = cqId q) ->
  contentQueue_findUnique c st = None ->
  contentQueue_findUnique c (contentQueue_update c' f st) = None.
Proof.
  intros Hf. unfold contentQueue_findUnique, contentQueue_update; simpl.
  induction (contentQueue st) as [|q l IH]; simpl; [reflexivity|].
  destruct (String.eqb (cqId q) c) eqn:E; [discriminate|]. intro H.
  destruct (String.eqb (cqId q) c'); [rewrite Hf|]; rewrite E; apply IH; exact H.
Qed.

Lemma POST_callback_missing (secret : option string) (req : CallbackRequest) (st : Store)
    (c : string) :
  contentQueue_findUnique c st = None ->
  contentQueue_findUnique c (snd (POST_callback secret req st)) = None.
Proof.
  intro Hnone. unfold POST_callback.
  destruct (secret_rejected _ _); [exact Hnone|].
  destruct (record_result (body req) st) as [st1|] eqn:E; [|exact Hnone].
  simpl. destruct (record_result_cases _ _ _ E) as [Hcq _].
  assert (H1 : contentQueue_findUnique c st1 = None)
    by (rewrite (contentQueue_findUnique_ext _ _ _ Hcq); exact Hnone).
  unfold aggregate_status.
  destruct (contentQueue_findUnique (content_id (body req)) st1); [|exact H1].
  destruct (_ <=? _)%nat; [|exact H1].
  apply contentQueue_update_missing; [reflexivity | exact H1].
Qed.

Lemma record_all_missing (secret : option string) (reqs : list CallbackRequest) (st : Store)
    (c : string) :
  contentQueue_findUnique c st = None ->
  contentQueue_findUnique c (record_all secret reqs st) = None.
Proof.
  revert st. induction reqs as [|r reqs IH]; intros st H; simpl; [exact H|].
  apply IH. apply POST_callback_missing. exact H.
Qed.

Lemma record_all_view (secret : option string) (c : string) (reqs : list CallbackRequest) :
  Forall (fun r => content_id (body r) = c) reqs ->
  forall st q,
    consistent st ->
    contentQueue_findUnique c st = Some q ->
    exists q',
      contentQueue_findUnique c (record_all secret reqs st) = Some q' /\
      (entries (record_all secret reqs st), status q')
      = view_all secret c (List.length (targetPlatforms q)) reqs (entries st, status q).
Proof.
  induction 1 as [|r reqs Hr _ IH]; intros st q Hc Hq.
  - exists q. split; [exact Hq | reflexivity].
  - simpl. subst c.
    destruct (POST_callback_view secret r st q Hc Hq) as (q1 & Hq1 & HT & Hview).
    destruct (IH _ q1 (POST_callback_consistent secret r st Hc) Hq1) as (q' & Hq' & Hall).
    exists q'. split; [exact Hq'|].
    rewrite Hall, HT, Hview. reflexivity.
Qed.

Lemma distinct_platforms_distinct_pairs (c : string) (reqs : list CallbackRequest) :
  Forall (fun r => content_id (body r) = c) reqs ->
  NoDup (map (fun r => cb_platform (body r)) reqs) ->
  NoDup (map pair_of_request reqs).
Proof.
  induction 1 as [|r reqs Hr _ IH]; simpl; intro Hnd; [constructor|].
  inversion Hnd as [|? ? Hnot Hnd']; subst. constructor; [|apply IH; exact Hnd'].
  intro Hin. apply Hnot. apply in_map_iff in Hin. destruct Hin as (x & Hx & Hin).
  apply in_map_iff. exists x. split; [|exact Hin].
  unfold pair_of_request in Hx. congruence.
Qed.

(** C2: for a store that is consistent (at most one row per pair, distinct
    issued keys) and callbacks for one unit that report on pairwise distinct
    platforms, the unit's stored status after recording them one at a time is
    the same for every arrival order. *)
Theorem callback_order_independent
    (secret : option string) (c : string) (reqs reqs' : list CallbackRequest) (st : Store) :
  consistent st ->
  Forall (fun r => content_id (body r) = c) reqs ->
  NoDup (map (fun r => cb_platform (body r)) reqs) ->
  Permutation reqs reqs' ->
  status_of c (record_all secret reqs st) = status_of c (record_all secret reqs' st).
Proof.
  intros Hc Hall Hnd Hperm. unfold status_of.
  destruct (contentQueue_findUnique c st) as [q|] eqn:Hq.
  - assert (Hall' : Forall (fun r => content_id (body r) = c) reqs')
      by (exact (Permutation_Forall Hperm Hall)).
    destruct (record_all_view secret c reqs Hall st q Hc Hq) as (q1 & -> & H1).
    destruct (record_all_view secret c reqs' Hall' st q Hc Hq) as (q2 & -> & H2).
    pose proof (view_all_Permutation secret c (List.length (targetPlatforms q)) reqs reqs'
                  Hperm (distinct_platforms_distinct_pairs c reqs Hall Hnd)
                  (entries st, status q) (entries st, status q)
                  (view_equiv_refl _)) as [_ Hs].
    rewrite <- H1, <- H2 in Hs. simpl in Hs. simpl. rewrite Hs. reflexivity.
  - rewrite !record_all_missing by exact Hq. reflexivity.
Qed.

Lemma callback_order_independent_witness :
  status_of unit1
    (record_all None [ok_callback instagram "Hello alpha"; failed_callback linkedin;
                      ok_callback twitter "Hello gamma"]
                (fresh_store [instagram; linkedin; twitter]))
  = status_of unit1
      (record_all None [ok_callback twitter "Hello gamma"; ok_callback instagram "Hello alpha";
                        failed_callback linkedin]
                  (fresh_store [instagram; linkedin; twitter])).
Proof.
  apply (callback_order_independent None unit1).
  - split; [intros c p; simpl; lia|]. split; [constructor | constructor].
  - repeat constructor.
  - simpl. repeat constructor; simpl; intuition discriminate.
  - apply Permutation_sym.
    exact (Permutation_cons_append
             [ok_callback instagram "Hello alpha"; failed_callback linkedin]
             (ok_callback twitter "Hello gamma")).
Defined.

(** The three completions of a unit with targets instagram, linkedin and
    twitter (two successes, one failure) in all six arrival orders: the
    status ends as partial every time. *)
Example three_completions_all_orders :
  let a := ok_callback instagram "Hello alpha" in
  let b := failed_callback linkedin in
  let g := ok_callback twitter "Hello gamma" in
  map (fun reqs => status_of unit1
                     (record_all None reqs (fresh_store [instagram; linkedin; twitter])))
      [[a; b; g]; [a; g; b]; [b; a; g]; [b; g; a]; [g; a; b]; [g; b; a]]
  = [Some partial; Some partial; Some partial; Some partial; Some partial; Some partial].
Proof. vm_compute. reflexivity. Qed.

(** Two reports on the same platform do not commute: the later one decides
    the stored copy, hence the restriction to distinct platforms above. *)
Example same_platform_reports_do_not_commute :
  status_of unit1
    (record_all None [ok_callback instagram "Hello alpha"; failed_callback instagram;
                      ok_callback twitter "Hello gamma"]
                (fresh_store [instagram; twitter])) = Some partial /\
  status_of unit1
    (record_all None [failed_callback instagram; ok_callback instagram "Hello alpha";
                      ok_callback twitter "Hello gamma"]
                (fresh_store [instagram; twitter])) = Some complete.
Proof. vm_compute. split; reflexivity. Qed.

(** The end-to-end scenario: alpha succeeds and beta fails (partial);
    regenerating beta deletes its row and sets processing; a new successful
    completion of beta moves the unit to complete. *)
Example end_to_end_scenario :
  let st1 := record_all None [ok_callback instagram "Hello alpha"; failed_callback twitter]
                        (fresh_store [instagram; twitter]) in
  let st2 := snd (POST_regenerate true unit1 [twitter] st1) in
  let st3 := snd (POST_callback None (ok_callback twitter "Hello beta") st2) in
  status_of unit1 st1 = Some partial /\
  map (fun o => (platform o, rewrittenCopy o)) (platformOutput st1)
  = [(instagram, Some "Hello alpha"); (twitter, None)] /\
  status_of unit1 st2 = Some processing /\
  map platform (platformOutput st2) = [instagram] /\
  status_of unit1 st3 = Some complete.
Proof. vm_compute. repeat split. Qed.

(** A success report without output leaves its platform without a row: the
    unit keeps waiting although every job has reported. *)
Example dropped_completion_leaves_unit_waiting :
  let st := record_all None [ok_callback instagram "Hello alpha"; dropped_callback twitter]
                       (fresh_store [instagram; twitter]) in
  map platform (platformOutput st) = [instagram] /\ status_of unit1 st = Some pending.
Proof. vm_compute. split; reflexivity. Qed.

(* ================================================================== *)
(** * Further properties of the handlers *)
(* ================================================================== *)

(** ** The status poll *)

Lemma platforms_of_unit (g : PlatformOutput -> bool) (c : string) (st : Store) (p : Platform) :
  In p (map platform (filter g (platformOutputs_of c st)))
  <-> exists o, In o (platformOutput st) /\ contentId o = c /\ platform o = p /\ g o = true.
Proof.
  unfold platformOutputs_of. rewrite in_map_iff. split.
  - intros (o & Hp & Hin). apply filter_In in Hin. destruct Hin as [Hin Hg].
    apply filter_In in Hin. destruct Hin as [Hin Hc]. apply String.eqb_eq in Hc.
    exists o. auto.
  - intros (o & Hin & Hc & Hp & Hg). exists o. split; [exact Hp|].
    apply filter_In. split; [|exact Hg].
    apply filter_In. split; [exact Hin | apply String.eqb_eq; exact Hc].
Qed.

Lemma GET_status_stored (cid : string) (st : Store) (q : ContentQueue) :
  contentQueue_findUnique cid st = Some q ->
  GET_status true cid st
  = StOk (mkStatusData cid (status q) (processingCompletedAt q)
            (map platform (filter (fun o => isSome (rewrittenCopy o)) (platformOutputs_of cid st)))
            (filter (fun p =>
                       negb (includes (map platform
                                         (filter (fun o => isSome (rewrittenCopy o))
                                                 (platformOutputs_of cid st))) p) &&
                       negb (includes (map platform
                                         (filter (fun o => negb (isSome (rewrittenCopy o)))
                                                 (platformOutputs_of cid st))) p))
                    (targetPlatforms q))
            (map platform (filter (fun o => negb (isSome (rewrittenCopy o)))
                                  (platformOutputs_of cid st)))
            (errorMessage q)).
Proof.
  intro Hq. unfold GET_status. simpl. rewrite Hq.
  rewrite (contentQueue_findUnique_id _ _ _ Hq). reflexivity.
Qed.

(** X1: for a stored unit in a store with at most one result per pair, the
    poll lists a platform as complete exactly when the unit has a stored
    result for it whose copy is not null, as failed exactly when it has one
    whose copy is null, and as pending exactly when it is a target without
    any stored result; so every target platform is in exactly one of the
    three lists. *)
Theorem status_poll_partitions_targets (cid : string) (st : Store) (q : ContentQueue) :
  at_most_one_per_pair st ->
  contentQueue_findUnique cid st = Some q ->
  exists d,
    GET_status true cid st = StOk d /\
    sd_status d = status q /\
    (forall p, In p (platforms_complete d) <->
       exists o, In o (platformOutput st) /\ contentId o = cid /\ platform o = p /\
                 rewrittenCopy o <> None) /\
    (forall p, In p (platforms_failed d) <->
       exists o, In o (platformOutput st) /\ contentId o = cid /\ platform o = p /\
                 rewrittenCopy o = None) /\
    (forall p, In p (platforms_pending d) <->
       In p (targetPlatforms q) /\
       forall o, In o (platformOutput st) -> contentId o = cid -> platform o <> p) /\
    forall p, In p (targetPlatforms q) ->
      (In p (platforms_pending d) <-> filter (same_pair cid p) (platformOutput st) = []) /\
      ((In p (platforms_complete d) /\ ~ In p (platforms_failed d) /\ ~ In p (platforms_pending d))
       \/ (~ In p (platforms_complete d) /\ In p (platforms_failed d) /\ ~ In p (platforms_pending d))
       \/ (~ In p (platforms_complete d) /\ ~ In p (platforms_failed d) /\ In p (platforms_pending d))).
Proof.
  intros Hone Hq. eexists. split; [apply (GET_status_stored _ _ _ Hq)|].
  split; [reflexivity|]. simpl.
  set (done := map platform (filter (fun o => isSome (rewrittenCopy o)) (platformOutputs_of cid st))).
  set (bad := map platform (filter (fun o => negb (isSome (rewrittenCopy o)))
                                   (platformOutputs_of cid st))).
  assert (Hdone : forall p, In p done <->
            exists o, In o (platformOutput st) /\ contentId o = cid /\ platform o = p /\
                      rewrittenCopy o <> None).
  { intro p. unfold done. rewrite platforms_of_unit. split.
    - intros (o & Hin & Hc & Hp & Hg). exists o. repeat split; try assumption.
      intro E. rewrite E in Hg. discriminate.
    - intros (o & Hin & Hc & Hp & Hg). exists o. repeat split; try assumption.
      destruct (rewrittenCopy o); [reflexivity | contradiction]. }
  assert (Hbad : forall p, In p bad <->
            exists o, In o (platformOutput st) /\ contentId o = cid /\ platform o = p /\
                      rewrittenCopy o = None).
  { intro p. unfold bad. rewrite platforms_of_unit. split.
    - intros (o & Hin & Hc & Hp & Hg). exists o. repeat split; try assumption.
      destruct (rewrittenCopy o); [discriminate | reflexivity].
    - intros (o & Hin & Hc & Hp & Hg). exists o. repeat split; try assumption.
      rewrite Hg. reflexivity. }
  assert (Hpend : forall p,
            In p (filter (fun p => negb (includes done p) && negb (includes bad p))
                         (targetPlatforms q))
            <-> In p (targetPlatforms q) /\ ~ In p done /\ ~ In p bad).
  { intro p. rewrite filter_In, andb_true_iff, !negb_true_iff. split.
    - intros (Hp & D & B). split; [exact Hp|].
      split; intro H; apply includes_In in H; congruence.
    - intros (Hp & D & B). split; [exact Hp|].
      split; [destruct (includes done p) eqn:E | destruct (includes bad p) eqn:E];
        try reflexivity; apply includes_In in E; contradiction. }
  split; [exact Hdone|]. split; [exact Hbad|]. split.
  { intro p. rewrite Hpend, Hdone, Hbad. split.
    - intros (Hp & D & B). split; [exact Hp|]. intros o Hin Hc Hpl.
      destruct (rewrittenCopy o) eqn:Ec.
      + apply D. exists o. repeat split; try assumption. rewrite Ec. discriminate.
      + apply B. exists o. auto.
    - intros (Hp & Hno). split; [exact Hp|].
      split; intros (o & Hin & Hc & Hpl & _); exact (Hno o Hin Hc Hpl). }
  intros p Hp.
  assert (Hexcl : ~ (In p done /\ In p bad)).
  { intros [H1 H2]. apply platforms_of_unit in H1, H2.
    destruct H1 as (o1 & I1 & C1 & P1 & G1), H2 as (o2 & I2 & C2 & P2 & G2).
    assert (E : o1 = o2).
    { apply (filter_le1_unique (same_pair cid p) (platformOutput st)); try assumption.
      - apply Hone.
      - apply same_pair_spec. auto.
      - apply same_pair_spec. auto. }
    subst o2. rewrite G1 in G2. discriminate. }
  split.
  - rewrite Hpend. split.
    + intros (_ & D & B).
      destruct (filter (same_pair cid p) (platformOutput st)) as [|o r] eqn:Ef; [reflexivity|].
      assert (Ho : In o (filter (same_pair cid p) (platformOutput st)))
        by (rewrite Ef; left; reflexivity).
      apply filter_In in Ho. destruct Ho as [Hin Hsp]. apply same_pair_spec in Hsp.
      destruct Hsp as [Hc Hpl].
      destruct (isSome (rewrittenCopy o)) eqn:Ec.
      * exfalso. apply D. apply platforms_of_unit. exists o. auto.
      * exfalso. apply B. apply platforms_of_unit. exists o. rewrite Ec. auto.
    + intro Hnil. split; [exact Hp|]. split; intro H; apply platforms_of_unit in H;
        destruct H as (o & Hin & Hc & Hpl & _);
        assert (Ho : In o (filter (same_pair cid p) (platformOutput st)))
          by (apply filter_In; split; [exact Hin | apply same_pair_spec; auto]);
        rewrite Hnil in Ho; contradiction.
  - destruct (includes done p) eqn:Ed; [|destruct (includes bad p) eqn:Eb].
    + apply includes_In in Ed. left. split; [exact Ed|]. split.
      * intro B. apply Hexcl. auto.
      * rewrite Hpend. tauto.
    + apply includes_In in Eb. right; left.
      assert (D : ~ In p done) by (intro D; apply includes_In in D; congruence).
      split; [exact D|]. split; [exact Eb|]. rewrite Hpend. tauto.
    + right; right.
      assert (D : ~ In p done) by (intro D; apply includes_In in D; congruence).
      assert (B : ~ In p bad) by (intro B; apply includes_In in B; congruence).
      split; [exact D|]. split; [exact B|]. apply Hpend. auto.
Qed.

Lemma status_poll_partitions_targets_witness :
  exists d,
    GET_status true unit1
      (record_all None [ok_callback instagram "Hello alpha"; failed_callback linkedin]
                  (fresh_store [instagram; linkedin; twitter])) = StOk d /\
    platforms_complete d = [instagram] /\
    platforms_pending d = [twitter] /\
    platforms_failed d = [linkedin].
Proof.
  destruct (status_poll_partitions_targets unit1
              (record_all None [ok_callback instagram "Hello alpha"; failed_callback linkedin]
                          (fresh_store [instagram; linkedin; twitter]))
              (mkContent unit1 (Some "profile1") [instagram; linkedin; twitter]
                         pending None None)) as (d & Hget & _).
  - apply record_all_at_most_one. intros c p. simpl. lia.
  - reflexivity.
  - exists d. split; [exact Hget|].
    vm_compute in Hget. injection Hget as <-. repeat split.
Defined.

Lemma filter_nonempty_length {A : Type} (g : A -> bool) (l : list A) (x : A) :
  In x l -> g x = true -> (1 <= List.length (filter g l))%nat.
Proof.
  intros Hin Hg.
  assert (H : In x (filter g l)) by (apply filter_In; split; assumption).
  destruct (filter g l); [contradiction | simpl; lia].
Qed.

Lemma unit_platforms_NoDup (c : string) (st : Store) :
  at_most_one_per_pair st -> NoDup (map platform (platformOutputs_of c st)).
Proof.
  unfold at_most_one_per_pair, platformOutputs_of.
  induction (platformOutput st) as [|o rows IH]; intro Hone; simpl; [constructor|].
  assert (Htail : forall c' p, (List.length (filter (same_pair c' p) rows) <= 1)%nat).
  { intros c' p. specialize (Hone c' p). simpl in Hone.
    destruct (same_pair c' p o); simpl in Hone; lia. }
  destruct (String.eqb (contentId o) c) eqn:Ec; [|apply IH; exact Htail].
  simpl. constructor; [|apply IH; exact Htail].
  intro Hin. apply in_map_iff in Hin. destruct Hin as (o' & Hp & Hin').
  apply filter_In in Hin'. destruct Hin' as [Hin' Hc'].
  specialize (Hone c (platform o)). simpl in Hone.
  assert (Ho : same_pair c (platform o) o = true)
    by (unfold same_pair; rewrite Ec, Platform_eqb_refl; reflexivity).
  assert (Ho' : same_pair c (platform o) o' = true)
    by (unfold same_pair; rewrite Hc', Hp, Platform_eqb_refl; reflexivity).
  rewrite Ho in Hone. simpl in Hone.
  pose proof (filter_nonempty_length _ _ _ Hin' Ho'). lia.
Qed.

Lemma filter_length_all {A : Type} (g : A -> bool) (l : list A) :
  List.length (filter g l) = List.length l -> forall x, In x l -> g x = true.
Proof.
  induction l as [|a l IH]; simpl; intros Hlen x Hx; [contradiction|].
  pose proof (filter_length_le g l) as Hle.
  destruct (g a) eqn:Ea; simpl in Hlen; [|lia].
  destruct Hx as [<-|Hx]; [exact Ea|]. apply IH; [lia | exact Hx].
Qed.

(** The rows of a unit after recording: each is a row that was there, with
    its platform, or the row created for the callback's platform. *)
Lemma record_result_unit_platforms (b : CallbackBody) (st st' : Store) (ps : list Platform) :
  record_result b st = Some st' ->
  In (cb_platform b) ps ->
  (forall o, In o (platformOutputs_of (content_id b) st) -> In (platform o) ps) ->
  forall o, In o (platformOutputs_of (content_id b) st') -> In (platform o) ps.
Proof.
  intros H Hp Hrows o Ho. unfold platformOutputs_of in *.
  apply filter_In in Ho. destruct Ho as [Hin Hc].
  apply record_result_cases in H.
  destruct H as [_ [(_ & _ & ->)|[(e & f & _ & Hf & _ & ->)|(o' & _ & _ & Hp' & _ & Hr & _)]]].
  - apply Hrows. apply filter_In. auto.
  - unfold platformOutput_update in Hin; simpl in Hin.
    apply in_map_iff in Hin. destruct Hin as (x & Hx & Hin).
    assert (Hsame : contentId o = contentId x /\ platform o = platform x).
    { destruct (Nat.eqb (outputId x) (outputId e)); subst o; [apply Hf | auto]. }
    destruct Hsame as [Ec Epl]. rewrite Epl. apply Hrows.
    apply filter_In. split; [exact Hin | rewrite <- Ec; exact Hc].
  - rewrite Hr in Hin. apply in_app_or in Hin. destruct Hin as [Hin|[<-|[]]].
    + apply Hrows. apply filter_In. auto.
    + rewrite Hp'. exact Hp.
Qed.

(** X2: when an accepted callback moves a stored unit to complete, the poll
    shows no pending and no failed platform and lists every target as
    complete, provided the targets are distinct, the reported platform is a
    target, and so is the platform of every result the unit already had. *)
Theorem complete_unit_has_every_target
    (secret : option string) (req : CallbackRequest) (st : Store) (q : ContentQueue) :
  secret_rejected secret (x_n8n_secret req) = false ->
  contentQueue_findUnique (content_id (body req)) st = Some q ->
  at_most_one_per_pair st ->
  NoDup (targetPlatforms q) ->
  In (cb_platform (body req)) (targetPlatforms q) ->
  (forall o, In o (platformOutputs_of (content_id (body req)) st) ->
             In (platform o) (targetPlatforms q)) ->
  status q <> complete ->
  status_of (content_id (body req)) (snd (POST_callback secret req st)) = Some complete ->
  exists d,
    GET_status true (content_id (body req)) (snd (POST_callback secret req st)) = StOk d /\
    sd_status d = complete /\
    platforms_pending d = [] /\
    platforms_failed d = [] /\
    (forall p, In p (platforms_complete d) <-> In p (targetPlatforms q)).
Proof.
  intros Hs Hq Hone Hnd Hp Hrows Hnot Hdone.
  destruct (POST_callback_unit _ _ _ _ Hs Hq) as (st1 & Hrec & Hpost & Hq1).
  rewrite Hpost in *. simpl in *.
  set (c := content_id (body req)) in *.
  pose proof (aggregate_status_unit req st1 q Hq1) as Hagg. simpl in Hagg. fold c in Hagg.
  assert (Hout : platformOutputs_of c (aggregate_status req st1) = platformOutputs_of c st1).
  { unfold platformOutputs_of. destruct (aggregate_status_outputs req st1) as [-> _]. reflexivity. }
  set (rows := platformOutputs_of c st1) in *.
  set (T := List.length (targetPlatforms q)) in *.
  (* the callback wrote the status, from counts with S = T <= R *)
  unfold status_of in Hdone. rewrite Hagg in Hdone. simpl in Hdone.
  destruct (T <=? List.length rows)%nat eqn:ETR;
    [|injection Hdone as Hdone; contradiction].
  apply Nat.leb_le in ETR. simpl in Hdone. injection Hdone as Hdone.
  unfold derive_status in Hdone.
  replace (T <=? List.length rows)%nat with true in Hdone by (symmetry; apply Nat.leb_le; lia).
  destruct (successCount_of rows =? T)%nat eqn:EST;
    [|destruct (successCount_of rows =? 0)%nat; discriminate].
  apply Nat.eqb_eq in EST.
  (* the rows' platforms are exactly the targets, and all rows have copy *)
  assert (Hin : forall o, In o rows -> In (platform o) (targetPlatforms q))
    by exact (record_result_unit_platforms _ _ _ _ Hrec Hp Hrows).
  assert (Hndr : NoDup (map platform rows))
    by (apply unit_platforms_NoDup; exact (record_result_at_most_one _ _ _ Hone Hrec)).
  assert (Hincl : incl (map platform rows) (targetPlatforms q)).
  { intros p Hp'. apply in_map_iff in Hp'. destruct Hp' as (o & <- & Ho). apply Hin. exact Ho. }
  pose proof (NoDup_incl_length Hndr Hincl) as Hle. rewrite length_map in Hle. fold T in Hle.
  assert (Hback : incl (targetPlatforms q) (map platform rows)).
  { apply (NoDup_length_incl Hndr); [rewrite length_map; fold T; lia | exact Hincl]. }
  assert (Hall : forall o, In o rows -> isSome (rewrittenCopy o) = true).
  { apply filter_length_all. unfold successCount_of in EST. lia. }
  assert (Hgood : filter (fun o => isSome (rewrittenCopy o)) rows = rows).
  { clear - Hall. induction rows as [|o r IH]; simpl; [reflexivity|].
    rewrite (Hall o (or_introl eq_refl)). f_equal. apply IH.
    intros x Hx. apply Hall. right. exact Hx. }
  assert (Hbad : filter (fun o => negb (isSome (rewrittenCopy o))) rows = []).
  { clear - Hall. induction rows as [|o r IH]; simpl; [reflexivity|].
    rewrite (Hall o (or_introl eq_refl)). simpl. apply IH.
    intros x Hx. apply Hall. right. exact Hx. }
  eexists. split; [apply (GET_status_stored _ _ _ Hagg)|].
  rewrite Hout. fold rows. rewrite Hgood, Hbad.
  replace (T <=? List.length rows)%nat with true by (symmetry; apply Nat.leb_le; lia).
  simpl. unfold derive_status.
  replace (T <=? List.length rows)%nat with true by (symmetry; apply Nat.leb_le; lia).
  replace (successCount_of rows =? T)%nat with true by (symmetry; apply Nat.eqb_eq; exact EST).
  split; [reflexivity|]. split; [|split; [reflexivity|]].
  - clear - Hback. induction (targetPlatforms q) as [|p l IH]; simpl; [reflexivity|].
    assert (Hp : includes (map platform rows) p = true)
      by (apply includes_In, Hback; left; reflexivity).
    rewrite Hp. simpl. apply IH. intros x Hx. apply Hback. right. exact Hx.
  - intro p. split; [apply Hincl | apply Hback].
Qed.

Lemma complete_unit_has_every_target_witness :
  exists d,
    GET_status true unit1
      (snd (POST_callback None (ok_callback twitter "Hello gamma") two_ok_store)) = StOk d /\
    sd_status d = complete /\ platforms_pending d = [] /\ platforms_failed d = [].
Proof.
  destruct (complete_unit_has_every_target None (ok_callback twitter "Hello gamma") two_ok_store
              (mkContent unit1 (Some "profile1") [instagram; linkedin; twitter]
                         pending None None))
    as (d & Hget & Hst & Hpend & Hfail & _).
  - reflexivity.
  - reflexivity.
  - unfold two_ok_store. apply record_all_at_most_one. intros c p. simpl. lia.
  - simpl. repeat constructor; simpl; intuition discriminate.
  - simpl. tauto.
  - intros o Ho. vm_compute in Ho. destruct Ho as [<-|[<-|[]]]; simpl; tauto.
  - discriminate.
  - reflexivity.
  - exists d. auto.
Defined.

(** X3: after an accepted regenerate call the poll reports the unit as
    processing and lists every named platform as pending, and none of them
    as complete or failed. *)
Theorem regenerated_platforms_are_pending
    (cid : string) (platforms : list Platform) (st : Store) (q : ContentQueue) :
  contentQueue_findUnique cid st = Some q ->
  (forall p, In p platforms -> In p (targetPlatforms q)) ->
  exists d,
    GET_status true cid (snd (POST_regenerate true cid platforms st)) = StOk d /\
    sd_status d = processing /\
    forall p, In p platforms ->
      In p (platforms_pending d) /\ ~ In p (platforms_complete d) /\ ~ In p (platforms_failed d).
Proof.
  intros Hq Hsub.
  assert (Hpost : snd (POST_regenerate true cid platforms st)
                  = contentQueue_update cid (set_status processing)
                      (platformOutput_deleteMany cid platforms st)).
  { unfold POST_regenerate. simpl. rewrite Hq.
    rewrite (no_invalid_platforms _ _ Hsub). reflexivity. }
  rewrite Hpost.
  assert (Hq' : contentQueue_findUnique cid
                  (contentQueue_update cid (set_status processing)
                     (platformOutput_deleteMany cid platforms st))
                = Some (set_status processing q)).
  { rewrite contentQueue_findUnique_update by reflexivity.
    unfold contentQueue_findUnique in *. simpl. rewrite Hq. reflexivity. }
  eexists. split; [apply (GET_status_stored _ _ _ Hq')|].
  split; [reflexivity|]. simpl. intros p Hp.
  assert (Hgone : forall g, ~ In p (map platform
                    (filter g (platformOutputs_of cid
                       (contentQueue_update cid (set_status processing)
                          (platformOutput_deleteMany cid platforms st)))))).
  { intros g H. apply platforms_of_unit in H. destruct H as (o & Hin & Hc & Hpl & _).
    simpl in Hin. apply filter_In in Hin. destruct Hin as [_ Hkeep].
    rewrite Hc, String.eqb_refl, Hpl in Hkeep. simpl in Hkeep.
    apply includes_In in Hp. rewrite Hp in Hkeep. discriminate. }
  split; [|split; apply Hgone].
  apply filter_In. split; [apply Hsub; exact Hp|].
  apply andb_true_iff. split; apply negb_true_iff.
  - destruct (includes _ p) eqn:E; [|reflexivity].
    apply includes_In in E. exfalso. exact (Hgone _ E).
  - destruct (includes _ p) eqn:E; [|reflexivity].
    apply includes_In in E. exfalso. exact (Hgone _ E).
Qed.

Lemma regenerated_platforms_are_pending_witness :
  exists d,
    GET_status true unit1 (snd (POST_regenerate true unit1 [linkedin] all_ok_store)) = StOk d /\
    sd_status d = processing /\ In linkedin (platforms_pending d).
Proof.
  destruct (regenerated_platforms_are_pending unit1 [linkedin] all_ok_store all_ok_unit)
    as (d & Hget & Hst & Hall).
  - reflexivity.
  - intros p [<-|[]]. simpl. tauto.
  - exists d. split; [exact Hget|]. split; [exact Hst|].
    apply Hall. left. reflexivity.
Defined.

(** X4: a success report whose output carries no rewritten copy, for a pair
    without a stored result, is acknowledged and stored as a result with
    null copy: the poll then lists the platform as failed, not as complete. *)
Theorem success_without_copy_counts_as_failed
    (secret : option string) (req : CallbackRequest) (st : Store) (q : ContentQueue)
    (out : CallbackOutput) :
  secret_rejected secret (x_n8n_secret req) = false ->
  contentQueue_findUnique (content_id (body req)) st = Some q ->
  platformOutput_findUnique (content_id (body req)) (cb_platform (body req)) st = None ->
  cb_status (body req) = success ->
  output (body req) = Some out ->
  rewritten_copy out = None ->
  fst (POST_callback secret req st) = CbAcknowledged /\
  exists d,
    GET_status true (content_id (body req)) (snd (POST_callback secret req st)) = StOk d /\
    In (cb_platform (body req)) (platforms_failed d) /\
    ~ In (cb_platform (body req)) (platforms_complete d).
Proof.
  intros Hs Hq Hnone Hst Hout Hcopy.
  destruct (POST_callback_unit _ _ _ _ Hs Hq) as (st1 & Hrec & Hpost & Hq1).
  rewrite Hpost. simpl. split; [reflexivity|].
  pose proof (aggregate_status_unit req st1 q Hq1) as Hagg. simpl in Hagg.
  assert (Hrows : platformOutput st1
                  = (platformOutput st ++ [success_create (body req) out (nextId st)])%list).
  { unfold record_result in Hrec. rewrite Hst, Hout, Hnone in Hrec.
    apply create_inv in Hrec. tauto. }
  eexists. split; [apply (GET_status_stored _ _ _ Hagg)|]. simpl.
  unfold platformOutputs_of. destruct (aggregate_status_outputs req st1) as [-> _].
  fold (platformOutputs_of (content_id (body req)) st1). split.
  - apply platforms_of_unit. exists (success_create (body req) out (nextId st)).
    rewrite Hrows. split; [apply in_or_app; right; left; reflexivity|].
    simpl. rewrite Hcopy. auto.
  - intro H. apply platforms_of_unit in H. destruct H as (o & Hin & Hc & Hp & Hg).
    rewrite Hrows in Hin. apply in_app_or in Hin. destruct Hin as [Hin|[<-|[]]].
    + unfold platformOutput_findUnique in Hnone.
      apply (find_none _ _ Hnone) in Hin.
      unfold same_pair in Hin. rewrite Hc, Hp, String.eqb_refl, Platform_eqb_refl in Hin.
      discriminate.
    + simpl in Hg. rewrite Hcopy in Hg. discriminate.
Qed.

Lemma success_without_copy_counts_as_failed_witness :
  exists d,
    GET_status true unit1
      (snd (POST_callback None
              (mkCbRequest None
                 (mkCallback unit1 twitter success
                    (Some (mkCbOutput None None (Some ["#a"]) None None None)) None) 1000)
              two_ok_store)) = StOk d /\
    In twitter (platforms_failed d).
Proof.
  destruct (success_without_copy_counts_as_failed None
              (mkCbRequest None
                 (mkCallback unit1 twitter success
                    (Some (mkCbOutput None None (Some ["#a"]) None None None)) None) 1000)
              two_ok_store
              (mkContent unit1 (Some "profile1") [instagram; linkedin; twitter]
                         pending None None)
              (mkCbOutput None None (Some ["#a"]) None None None))
    as (_ & d & Hget & Hin & _); try reflexivity.
  exists d. split; [exact Hget | exact Hin].
Defined.

(** ** Retried and repeated callbacks *)

Lemma find_map_stable {A : Type} (g : A -> bool) (h : A -> A) (l : list A) :
  (forall x, g (h x) = g x) -> find g (map h l) = option_map h (find g l).
Proof.
  intro H. induction l as [|x l IH]; simpl; [reflexivity|].
  rewrite H. destruct (g x); [reflexivity | exact IH].
Qed.

Lemma find_app_first {A : Type} (g : A -> bool) (l l' : list A) :
  find g (l ++ l') = match find g l with Some x => Some x | None => find g l' end.
Proof.
  induction l as [|x l IH]; simpl; [reflexivity|].
  destruct (g x); [reflexivity | exact IH].
Qed.

Lemma map_twice_if {A : Type} (t : A -> bool) (f : A -> A) (l : list A) :
  (forall x, t (f x) = t x) -> (forall x, f (f x) = f x) ->
  map (fun x => if t x then f x else x) (map (fun x => if t x then f x else x) l)
  = map (fun x => if t x then f x else x) l.
Proof.
  intros Ht Hf. rewrite map_map. apply map_ext. intro x.
  destruct (t x) eqn:E; [rewrite Ht, E, Hf | rewrite E]; reflexivity.
Qed.

Lemma success_update_twice (out : CallbackOutput) (o : PlatformOutput) :
  success_update out (success_update out o) = success_update out o.
Proof.
  unfold success_update; simpl.
  destruct (optimized_image_url out), (rewritten_copy out), (tokens_used out),
    (processing_time_ms out), (model_used out); reflexivity.
Qed.

Lemma success_update_create (b : CallbackBody) (out : CallbackOutput) (i : nat) :
  success_update out (success_create b out i) = success_create b out i.
Proof.
  unfold success_update, success_create; simpl.
  destruct (optimized_image_url out), (rewritten_copy out), (tokens_used out),
    (processing_time_ms out), (model_used out); reflexivity.
Qed.

(** Recording the same body again changes nothing. *)
Lemma record_result_again (b : CallbackBody) (st st1 : Store) :
  keys_issued st -> record_result b st = Some st1 -> record_result b st1 = Some st1.
Proof.
  intros [_ Hlt] H. unfold record_result in *.
  destruct (cb_status b) eqn:Es; [destruct (output b) as [out|] eqn:Eo|];
    destruct (platformOutput_findUnique (content_id b) (cb_platform b) st) as [e|] eqn:Ef;
    try (injection H as <-).
  - (* success, update *)
    unfold platformOutput_findUnique, platformOutput_update in *; simpl.
    rewrite find_map_stable, Ef.
    2:{ intro x. destruct (Nat.eqb (outputId x) (outputId e)); reflexivity. }
    simpl. rewrite Nat.eqb_refl. simpl. f_equal. f_equal.
    apply map_twice_if; [reflexivity | apply success_update_twice].
  - (* success, create *)
    apply create_inv in H. destruct H as (Hrows & Hnext & Hcq & Hcfg).
    unfold platformOutput_findUnique in *. rewrite Hrows, find_app_first, Ef. simpl.
    unfold same_pair at 1. simpl. rewrite String.eqb_refl, Platform_eqb_refl. simpl.
    destruct st1 as [cq1 rows1 cfg1 n1]. simpl in *. subst.
    unfold platformOutput_update. simpl. f_equal. f_equal.
    rewrite map_app. simpl. rewrite Nat.eqb_refl, success_update_create. f_equal.
    rewrite <- (map_id (platformOutput st)) at 2. apply map_ext_in. intros o Ho.
    rewrite Forall_forall in Hlt. specialize (Hlt o Ho).
    replace (Nat.eqb (outputId o) (nextId st)) with false
      by (symmetry; apply Nat.eqb_neq; lia).
    reflexivity.
  - reflexivity.
  - reflexivity.
  - (* failed, update *)
    unfold platformOutput_findUnique, platformOutput_update in *; simpl.
    rewrite find_map_stable, Ef.
    2:{ intro x. destruct (Nat.eqb (outputId x) (outputId e)); reflexivity. }
    simpl. rewrite Nat.eqb_refl. simpl. f_equal. f_equal.
    apply map_twice_if; reflexivity.
  - (* failed, create *)
    apply create_inv in H. destruct H as (Hrows & Hnext & Hcq & Hcfg).
    unfold platformOutput_findUnique in *. rewrite Hrows, find_app_first, Ef. simpl.
    unfold same_pair at 1. simpl. rewrite String.eqb_refl, Platform_eqb_refl. simpl.
    destruct st1 as [cq1 rows1 cfg1 n1]. simpl in *. subst.
    unfold platformOutput_update. simpl. f_equal. f_equal.
    rewrite map_app. simpl. rewrite Nat.eqb_refl. unfold failed_update at 2. simpl. f_equal.
    rewrite <- (map_id (platformOutput st)) at 2. apply map_ext_in. intros o Ho.
    rewrite Forall_forall in Hlt. specialize (Hlt o Ho).
    replace (Nat.eqb (outputId o) (nextId st)) with false
      by (symmetry; apply Nat.eqb_neq; lia).
    reflexivity.
Qed.

Lemma contentQueue_update_twice (c : string) (f : ContentQueue -> ContentQueue) (st : Store) :
  (forall q, cqId (f q) = cqId q) -> (forall q, f (f q) = f q) ->
  contentQueue_update c f (contentQueue_update c f st) = contentQueue_update c f st.
Proof.
  intros Hid Hf. unfold contentQueue_update; simpl. f_equal.
  apply (map_twice_if (fun q => String.eqb (cqId q) c) f).
  - intro q. rewrite Hid. reflexivity.
  - exact Hf.
Qed.

Lemma aggregate_status_twice (req : CallbackRequest) (st : Store) :
  aggregate_status req (aggregate_status req st) = aggregate_status req st.
Proof.
  destruct (contentQueue_findUnique (content_id (body req)) st) as [q|] eqn:Hq.
  - pose proof (aggregate_status_unit req st q Hq) as Hagg. simpl in Hagg.
    unfold aggregate_status at 1. rewrite Hagg.
    assert (Hrows : platformOutputs_of (content_id (body req)) (aggregate_status req st)
                    = platformOutputs_of (content_id (body req)) st).
    { unfold platformOutputs_of. destruct (aggregate_status_outputs req st) as [-> _].
      reflexivity. }
    pose proof (contentQueue_findUnique_id _ _ _ Hq) as Hid.
    destruct (List.length (targetPlatforms q)
              <=? List.length (platformOutputs_of (content_id (body req)) st))%nat eqn:E.
    + simpl. rewrite Hid, Hrows, E.
      unfold aggregate_status. rewrite Hq, Hid, E.
      apply contentQueue_update_twice; reflexivity.
    + rewrite Hid, Hrows, E. reflexivity.
  - unfold aggregate_status. rewrite Hq. rewrite Hq. reflexivity.
Qed.

(** Recording reads the content table only to check that the owning unit
    exists. *)
Lemma record_result_with_queue (b : CallbackBody) (st : Store) (cq : list ContentQueue) :
  isSome (find (fun q => String.eqb (cqId q) (content_id b)) cq)
  = isSome (contentQueue_findUnique (content_id b) st) ->
  record_result b (mkStore cq (platformOutput st) (platformConfig st) (nextId st))
  = option_map (fun s => mkStore cq (platformOutput s) (platformConfig s) (nextId s))
               (record_result b st).
Proof.
  intro Hsame. unfold record_result, platformOutput_findUnique, platformOutput_create.
  simpl.
  destruct (cb_status b); [destruct (output b)|];
    destruct (find (same_pair (content_id b) (cb_platform b)) (platformOutput st));
    simpl; try reflexivity;
    unfold contentQueue_findUnique at 1; simpl; rewrite Hsame;
    destruct (isSome (contentQueue_findUnique (content_id b) st)); reflexivity.
Qed.

Lemma aggregate_status_as_queue (req : CallbackRequest) (st : Store) :
  aggregate_status req st
  = mkStore (contentQueue (aggregate_status req st)) (platformOutput st)
            (platformConfig st) (nextId st).
Proof.
  destruct (aggregate_status_outputs req st) as (H1 & H2 & H3).
  destruct (aggregate_status req st) as [cq rows cfg n]. simpl in *. subst. reflexivity.
Qed.

Lemma aggregate_status_keeps_unit (req : CallbackRequest) (st : Store) :
  isSome (contentQueue_findUnique (content_id (body req)) (aggregate_status req st))
  = isSome (contentQueue_findUnique (content_id (body req)) st).
Proof.
  destruct (contentQueue_findUnique (content_id (body req)) st) as [q|] eqn:Hq.
  - pose proof (aggregate_status_unit req st q Hq) as Hagg. simpl in Hagg.
    rewrite Hagg. reflexivity.
  - unfold aggregate_status. rewrite Hq, Hq. reflexivity.
Qed.

Lemma contentQueue_update_absorbs (c : string) (f g : ContentQueue -> ContentQueue)
    (st : Store) :
  (forall q, cqId (g q) = cqId q) -> (forall q, f (g q) = f q) ->
  contentQueue_update c f (contentQueue_update c g st) = contentQueue_update c f st.
Proof.
  intros Hid Hf. unfold contentQueue_update; simpl. f_equal.
  rewrite map_map. apply map_ext. intro q.
  destruct (String.eqb (cqId q) c) eqn:E; [rewrite Hid, E, Hf | rewrite E]; reflexivity.
Qed.

(** The status written for a body replaces the one written for the same
    body at an earlier time. *)
Lemma aggregate_status_absorbs (req retry : CallbackRequest) (st : Store) :
  body retry = body req ->
  aggregate_status retry (aggregate_status req st) = aggregate_status retry st.
Proof.
  intro Hb.
  destruct (contentQueue_findUnique (content_id (body req)) st) as [q|] eqn:Hq.
  - pose proof (aggregate_status_unit req st q Hq) as Hagg. simpl in Hagg.
    unfold aggregate_status at 1. rewrite Hb, Hagg.
    assert (Hrows : platformOutputs_of (content_id (body req)) (aggregate_status req st)
                    = platformOutputs_of (content_id (body req)) st).
    { unfold platformOutputs_of. destruct (aggregate_status_outputs req st) as [-> _].
      reflexivity. }
    pose proof (contentQueue_findUnique_id _ _ _ Hq) as Hid.
    destruct (List.length (targetPlatforms q)
              <=? List.length (platformOutputs_of (content_id (body req)) st))%nat eqn:E.
    + simpl. rewrite Hid, Hrows, E.
      unfold aggregate_status. rewrite Hb, Hq, Hid, E.
      apply contentQueue_update_absorbs; reflexivity.
    + rewrite Hid, Hrows, E.
      unfold aggregate_status. rewrite Hb, Hq, Hid, E. reflexivity.
  - unfold aggregate_status. rewrite Hb, Hq. rewrite Hq. reflexivity.
Qed.

(** The time at which a body is handled reaches the content table only
    through the completion timestamp. *)
Lemma aggregate_status_time (req retry : CallbackRequest) (st : Store) :
  body retry = body req ->
  map (fun q => (cqId q, cqProfileId q, targetPlatforms q, status q, errorMessage q))
      (contentQueue (aggregate_status retry st))
  = map (fun q => (cqId q, cqProfileId q, targetPlatforms q, status q, errorMessage q))
        (contentQueue (aggregate_status req st)).
Proof.
  intro Hb. unfold aggregate_status. rewrite Hb.
  destruct (contentQueue_findUnique (content_id (body req)) st) as [q|]; [|reflexivity].
  destruct (_ <=? _)%nat; [|reflexivity].
  unfold contentQueue_update. simpl. rewrite !map_map. apply map_ext. intro x.
  destruct (String.eqb (cqId x) (content_id (body req))); reflexivity.
Qed.

(** X5: a retried callback is harmless.  In a store whose keys are distinct
    and already issued, handling the same header and body again, at any
    time, gives the same answer and leaves the store as one handling at the
    time of the retry would: the stored results, the configurations, the key
    counter and every unit's status and error message are exactly as the
    first handling left them; only the completion timestamp written by the
    retry can differ. *)
Theorem callback_retry_idempotent
    (secret : option string) (req : CallbackRequest) (later : Z) (st : Store) :
  keys_issued st ->
  let retry := mkCbRequest (x_n8n_secret req) (body req) later in
  let first := POST_callback secret req st in
  let again := POST_callback secret retry (snd first) in
  again = (fst first, snd (POST_callback secret retry st)) /\
  platformOutput (snd again) = platformOutput (snd first) /\
  platformConfig (snd again) = platformConfig (snd first) /\
  nextId (snd again) = nextId (snd first) /\
  map (fun q => (cqId q, cqProfileId q, targetPlatforms q, status q, errorMessage q))
      (contentQueue (snd again))
  = map (fun q => (cqId q, cqProfileId q, targetPlatforms q, status q, errorMessage q))
        (contentQueue (snd first)).
Proof.
  intros Hkeys retry first again.
  assert (Habs : again = (fst first, snd (POST_callback secret retry st))).
  { unfold again, first. unfold POST_callback at 2 3 4.
    change (x_n8n_secret retry) with (x_n8n_secret req).
    change (body retry) with (body req).
    destruct (secret_rejected secret (x_n8n_secret req)) eqn:Hs.
    - simpl. unfold POST_callback.
      change (x_n8n_secret retry) with (x_n8n_secret req). rewrite Hs. reflexivity.
    - destruct (record_result (body req) st) as [st1|] eqn:Hrec.
      + simpl. unfold POST_callback.
        change (x_n8n_secret retry) with (x_n8n_secret req).
        change (body retry) with (body req). rewrite Hs.
        rewrite (aggregate_status_as_queue req st1) at 1.
        rewrite record_result_with_queue.
        2:{ pose proof (aggregate_status_keeps_unit req st1) as H.
            unfold contentQueue_findUnique at 1 in H. exact H. }
        rewrite (record_result_again _ _ _ Hkeys Hrec). simpl.
        rewrite <- (aggregate_status_as_queue req st1).
        rewrite (aggregate_status_absorbs req retry st1) by reflexivity. reflexivity.
      + simpl. unfold POST_callback.
        change (x_n8n_secret retry) with (x_n8n_secret req).
        change (body retry) with (body req). rewrite Hs, Hrec. reflexivity. }
  split; [exact Habs|]. rewrite Habs. simpl. unfold first, POST_callback.
  change (x_n8n_secret retry) with (x_n8n_secret req).
  change (body retry) with (body req).
  destruct (secret_rejected secret (x_n8n_secret req)); simpl; [auto|].
  destruct (record_result (body req) st) as [st1|]; simpl; [|auto].
  destruct (aggregate_status_outputs req st1) as (-> & -> & ->).
  destruct (aggregate_status_outputs retry st1) as (-> & -> & ->).
  repeat split. apply aggregate_status_time. reflexivity.
Qed.

Lemma callback_retry_idempotent_witness :
  POST_callback None (mkCbRequest None (body (failed_callback twitter)) 2000)
    (snd (POST_callback None (failed_callback twitter) two_ok_store))
  = (CbAcknowledged,
     snd (POST_callback None (mkCbRequest None (body (failed_callback twitter)) 2000)
                        two_ok_store)).
Proof.
  destruct (callback_retry_idempotent None (failed_callback twitter) 2000 two_ok_store)
    as [H _].
  - apply POST_callback_consistent, POST_callback_consistent.
    split; [intros c p; simpl; lia|]. split; constructor.
  - exact H.
Defined.

(** The retry of the callback that completes the unit, handled at 2000 after
    the first handling at 1000, moves the completion timestamp and nothing
    else. *)
Example callback_retry_moves_completion_time :
  option_map processingCompletedAt
    (contentQueue_findUnique unit1
       (snd (POST_callback None (failed_callback twitter) two_ok_store)))
  = Some (Some 1000%Z) /\
  option_map processingCompletedAt
    (contentQueue_findUnique unit1
       (snd (POST_callback None (mkCbRequest None (body (failed_callback twitter)) 2000)
               (snd (POST_callback None (failed_callback twitter) two_ok_store)))))
  = Some (Some 2000%Z).
Proof. vm_compute. split; reflexivity. Qed.

(** X6: whatever the callback reports, every stored result stays where it
    is with its key, its pair, its user-edited flag, its edited copy and
    hashtags and its scheduled time: recording never deletes a result and
    never overwrites a user's edit or a schedule. *)
Theorem callback_keeps_edits_and_schedule
    (secret : option string) (req : CallbackRequest) (st : Store) (n : nat) (o : PlatformOutput) :
  nth_error (platformOutput st) n = Some o ->
  exists o',
    nth_error (platformOutput (snd (POST_callback secret req st))) n = Some o' /\
    outputId o' = outputId o /\ contentId o' = contentId o /\ platform o' = platform o /\
    userEdited o' = userEdited o /\ editedCopy o' = editedCopy o /\
    editedHashtags o' = editedHashtags o /\ scheduledFor o' = scheduledFor o.
Proof.
  intro Hn. unfold POST_callback.
  destruct (secret_rejected _ _); [exists o; simpl; auto 10|].
  destruct (record_result (body req) st) as [st1|] eqn:Hrec; [|exists o; simpl; auto 10].
  simpl. destruct (aggregate_status_outputs req st1) as [-> _].
  unfold record_result in Hrec.
  destruct (cb_status (body req)); [destruct (output (body req)) as [out|]|];
    destruct (platformOutput_findUnique (content_id (body req)) (cb_platform (body req)) st)
      as [e|];
    try (injection Hrec as <-); try (exists o; simpl; auto 10; fail).
  - unfold platformOutput_update; simpl. rewrite nth_error_map, Hn. simpl.
    destruct (Nat.eqb (outputId o) (outputId e)); eexists; split; try reflexivity;
      simpl; auto 10.
  - apply create_inv in Hrec. destruct Hrec as (-> & _).
    exists o. split; [|auto 10].
    rewrite nth_error_app1; [exact Hn|]. apply nth_error_Some. congruence.
  - unfold platformOutput_update; simpl. rewrite nth_error_map, Hn. simpl.
    destruct (Nat.eqb (outputId o) (outputId e)); eexists; split; try reflexivity;
      simpl; auto 10.
  - apply create_inv in Hrec. destruct Hrec as (-> & _).
    exists o. split; [|auto 10].
    rewrite nth_error_app1; [exact Hn|]. apply nth_error_Some. congruence.
Qed.

Lemma callback_keeps_edits_and_schedule_witness :
  exists o',
    nth_error (platformOutput (snd (POST_callback None (failed_callback instagram) two_ok_store))) 0
    = Some o' /\
    outputId o' = 0%nat /\ userEdited o' = false /\ scheduledFor o' = None.
Proof.
  destruct (callback_keeps_edits_and_schedule None (failed_callback instagram) two_ok_store 0
              (mkOutput 0 unit1 instagram None (Some "Hello alpha") ["#a"; "#b"] false None []
                        None (Some 120%Z) (Some 900%Z) (Some "model")))
    as (o' & Hn & Hid & _ & _ & Hue & _ & _ & Hsch).
  - reflexivity.
  - exists o'. auto.
Defined.

(** ** Regeneration, repeated and followed by new results *)

Lemma filter_twice {A : Type} (g : A -> bool) (l : list A) :
  filter g (filter g l) = filter g l.
Proof. apply filter_filter_keep. intros x H. exact H. Qed.

(** X7: regeneration is idempotent.  Sending the same regenerate call a
    second time gives the same answer and the same store as sending it once,
    whether the call is accepted or rejected. *)
Theorem regenerate_idempotent
    (session : bool) (cid : string) (platforms : list Platform) (st : Store) :
  POST_regenerate session cid platforms (snd (POST_regenerate session cid platforms st))
  = POST_regenerate session cid platforms st.
Proof.
  unfold POST_regenerate at 2 3.
  destruct session; simpl; [|reflexivity].
  destruct (contentQueue_findUnique cid st) as [q|] eqn:Hq.
  2:{ simpl. unfold POST_regenerate. simpl. rewrite Hq. reflexivity. }
  destruct (0 <? List.length (filter (fun p => negb (includes (targetPlatforms q) p)) platforms))%nat
    eqn:Einv.
  - simpl. unfold POST_regenerate. simpl. rewrite Hq, Einv. reflexivity.
  - simpl. unfold POST_regenerate. simpl.
    rewrite contentQueue_findUnique_update by reflexivity.
    replace (contentQueue_findUnique cid (platformOutput_deleteMany cid platforms st))
      with (Some q) by (symmetry; exact Hq).
    simpl. rewrite Einv. f_equal.
    unfold contentQueue_update, platformOutput_deleteMany. simpl. f_equal.
    + apply (map_twice_if (fun q => String.eqb (cqId q) cid) (set_status processing));
        reflexivity.
    + apply filter_twice.
Qed.

Lemma filter_split_length {A : Type} (g : A -> bool) (l : list A) :
  (List.length (filter g l) + List.length (filter (fun x => negb (g x)) l))%nat
  = List.length l.
Proof.
  induction l as [|x l IH]; simpl; [reflexivity|].
  destruct (g x); simpl; lia.
Qed.

Lemma filter_and {A : Type} (g h : A -> bool) (l : list A) :
  filter g (filter h l) = filter (fun x => h x && g x) l.
Proof.
  induction l as [|x l IH]; simpl; [reflexivity|].
  destruct (h x); simpl; [destruct (g x)|]; rewrite IH; reflexivity.
Qed.

(** The rows of a unit after deleting those of one platform. *)
Lemma deleteMany_unit_rows (c : string) (p : Platform) (st : Store) :
  platformOutputs_of c (platformOutput_deleteMany c [p] st)
  = filter (fun o => negb (same_pair c p o)) (platformOutputs_of c st).
Proof.
  unfold platformOutputs_of, platformOutput_deleteMany. simpl.
  rewrite !filter_and. apply filter_ext. intro o.
  unfold same_pair, includes. simpl.
  destruct (String.eqb (contentId o) c); simpl; [|reflexivity].
  rewrite orb_false_r, andb_true_r.
  replace (Platform_eqb (platform o) p) with (Platform_eqb p (platform o)); [reflexivity|].
  destruct p, (platform o); reflexivity.
Qed.

Lemma all_true_filter_length {A : Type} (g h : A -> bool) (l : list A) :
  (forall x, In x l -> g x = true) ->
  List.length (filter g (filter h l)) = List.length (filter h l).
Proof.
  intro H. f_equal. induction l as [|x l IH]; simpl; [reflexivity|].
  assert (IH' : filter g (filter h l) = filter h l)
    by (apply IH; intros y Hy; apply H; right; exact Hy).
  destruct (h x); simpl; [rewrite (H x (or_introl eq_refl)), IH'; reflexivity | exact IH'].
Qed.

(** X8: regenerating one platform of a unit whose every target has a
    result with copy, and then recording the new result: a success with copy
    brings the unit to complete; a failure brings it to failed when that
    platform is the only target and to partial otherwise. *)
Theorem regenerate_then_record
    (secret : option string) (req : CallbackRequest) (st : Store) (q : ContentQueue)
    (e : PlatformOutput) :
  at_most_one_per_pair st ->
  secret_rejected secret (x_n8n_secret req) = false ->
  contentQueue_findUnique (content_id (body req)) st = Some q ->
  In (cb_platform (body req)) (targetPlatforms q) ->
  platformOutput_findUnique (content_id (body req)) (cb_platform (body req)) st = Some e ->
  List.length (platformOutputs_of (content_id (body req)) st)
  = List.length (targetPlatforms q) ->
  successCount_of (platformOutputs_of (content_id (body req)) st)
  = List.length (targetPlatforms q) ->
  let regenerated :=
    snd (POST_regenerate true (content_id (body req)) [cb_platform (body req)] st) in
  status_of (content_id (body req)) regenerated = Some processing /\
  (cb_status (body req) = job_failed ->
   status_of (content_id (body req)) (snd (POST_callback secret req regenerated))
   = Some (if (List.length (targetPlatforms q) =? 1)%nat then failed else partial)) /\
  (forall out copy,
     cb_status (body req) = success -> output (body req) = Some out ->
     rewritten_copy out = Some copy ->
     status_of (content_id (body req)) (snd (POST_callback secret req regenerated))
     = Some complete).
Proof.
  intros Hone Hs Hq Hp He HR HS. simpl.
  set (c := content_id (body req)) in *. set (p := cb_platform (body req)) in *.
  set (T := List.length (targetPlatforms q)) in *.
  (* the store after the regenerate call *)
  assert (Hpost : snd (POST_regenerate true c [p] st)
                  = contentQueue_update c (set_status processing)
                      (platformOutput_deleteMany c [p] st)).
  { unfold POST_regenerate. cbn [negb]. rewrite Hq.
    rewrite (no_invalid_platforms (targetPlatforms q) [p]); [reflexivity|].
    intros x [<-|[]]. exact Hp. }
  rewrite Hpost. set (st_r := contentQueue_update c (set_status processing)
                                (platformOutput_deleteMany c [p] st)).
  assert (Hq_r : contentQueue_findUnique c st_r = Some (set_status processing q)).
  { unfold st_r. rewrite contentQueue_findUnique_update by reflexivity.
    unfold contentQueue_findUnique in *. simpl. rewrite Hq. reflexivity. }
  split; [unfold status_of; rewrite Hq_r; reflexivity|].
  (* the unit's rows after it: all but the one of the platform, all with copy *)
  set (rest := filter (fun o => negb (same_pair c p o)) (platformOutputs_of c st)).
  assert (Hrows_r : platformOutputs_of c st_r = rest) by (apply deleteMany_unit_rows).
  assert (Hsucc : forall o, In o (platformOutputs_of c st) -> isSome (rewrittenCopy o) = true).
  { apply filter_length_all. unfold successCount_of in HS. lia. }
  assert (Hone_p : List.length (filter (same_pair c p) (platformOutputs_of c st)) = 1%nat).
  { unfold platformOutputs_of. rewrite filter_filter_keep.
    - apply find_some in He. destruct He as [Hin Hsp].
      pose proof (filter_nonempty_length _ _ _ Hin Hsp). specialize (Hone c p).
      unfold platformOutput_findUnique in *. lia.
    - intros o Ho. apply same_pair_spec in Ho. apply String.eqb_eq. tauto. }
  assert (Hrest : (List.length rest + 1)%nat = T).
  { pose proof (filter_split_length (same_pair c p) (platformOutputs_of c st)).
    unfold rest. lia. }
  assert (Hrest_ok : successCount_of rest = List.length rest).
  { unfold successCount_of, rest. apply all_true_filter_length. exact Hsucc. }
  assert (Hgone : platformOutput_findUnique c p st_r = None).
  { unfold platformOutput_findUnique.
    destruct (find (same_pair c p) (platformOutput st_r)) as [o|] eqn:Ef; [|reflexivity].
    apply find_some in Ef. destruct Ef as [Hin Hsp].
    assert (Ho : In o (platformOutputs_of c st_r)).
    { apply filter_In. split; [exact Hin|]. apply same_pair_spec in Hsp.
      apply String.eqb_eq. tauto. }
    rewrite Hrows_r in Ho. apply filter_In in Ho. destruct Ho as [_ Hneg].
    rewrite Hsp in Hneg. discriminate. }
  (* the callback on that store *)
  destruct (POST_callback_unit secret req st_r _ Hs Hq_r) as (st1 & Hrec & Hcb & Hq1).
  fold c in Hrec, Hcb, Hq1. rewrite Hcb. simpl.
  pose proof (aggregate_status_unit req st1 _ Hq1) as Hagg. simpl in Hagg. fold c T in Hagg.
  unfold status_of. rewrite Hagg.
  assert (Hcreated : forall o,
            platformOutput st1 = (platformOutput st_r ++ [o])%list -> contentId o = c ->
            platformOutputs_of c st1 = (rest ++ [o])%list).
  { intros o Hr Hc. unfold platformOutputs_of at 1. rewrite Hr, filter_app.
    fold (platformOutputs_of c st_r). rewrite Hrows_r. cbn [filter].
    rewrite Hc, String.eqb_refl. reflexivity. }
  unfold record_result in Hrec. fold c p in Hrec. rewrite Hgone in Hrec.
  split.
  - intro Hfail. rewrite Hfail in Hrec. apply create_inv in Hrec. destruct Hrec as (Hr & _).
    rewrite (Hcreated _ Hr eq_refl).
    rewrite length_app. simpl.
    replace (T <=? List.length rest + 1)%nat with true by (symmetry; apply Nat.leb_le; lia).
    simpl. unfold derive_status.
    replace (T <=? List.length rest + 1)%nat with true by (symmetry; apply Nat.leb_le; lia).
    unfold successCount_of. rewrite filter_app, length_app. simpl.
    fold (successCount_of rest). rewrite Hrest_ok.
    replace (List.length rest + 0 =? T)%nat with false by (symmetry; apply Nat.eqb_neq; lia).
    destruct (T =? 1)%nat eqn:ET.
    + apply Nat.eqb_eq in ET.
      replace (List.length rest + 0 =? 0)%nat with true by (symmetry; apply Nat.eqb_eq; lia).
      reflexivity.
    + apply Nat.eqb_neq in ET.
      replace (List.length rest + 0 =? 0)%nat with false by (symmetry; apply Nat.eqb_neq; lia).
      reflexivity.
  - intros out copy Hok Hout Hcopy. rewrite Hok, Hout in Hrec.
    apply create_inv in Hrec. destruct Hrec as (Hr & _).
    rewrite (Hcreated _ Hr eq_refl).
    rewrite length_app. simpl.
    replace (T <=? List.length rest + 1)%nat with true by (symmetry; apply Nat.leb_le; lia).
    simpl. unfold derive_status.
    replace (T <=? List.length rest + 1)%nat with true by (symmetry; apply Nat.leb_le; lia).
    unfold successCount_of. rewrite filter_app, length_app. simpl. rewrite Hcopy. simpl.
    fold (successCount_of rest). rewrite Hrest_ok.
    replace (List.length rest + 1 =? T)%nat with true by (symmetry; apply Nat.eqb_eq; lia).
    reflexivity.
Qed.

Lemma regenerate_then_record_witness :
  status_of unit1
    (snd (POST_callback None (failed_callback linkedin)
            (snd (POST_regenerate true unit1 [linkedin] all_ok_store))))
  = Some partial.
Proof.
  destruct (regenerate_then_record None (failed_callback linkedin) all_ok_store all_ok_unit
              (mkOutput 1 unit1 linkedin None (Some "Hello beta") ["#a"; "#b"] false None []
                        None (Some 120%Z) (Some 900%Z) (Some "model")))
    as (_ & Hfail & _).
  - unfold all_ok_store. apply record_all_at_most_one. intros c p. simpl. lia.
  - reflexivity.
  - reflexivity.
  - simpl. tauto.
  - reflexivity.
  - reflexivity.
  - reflexivity.
  - apply Hfail. reflexivity.
Defined.

(** ** The store invariant under the other handlers *)

Lemma NoDup_map_filter {A B : Type} (f : A -> B) (g : A -> bool) (l : list A) :
  NoDup (map f l) -> NoDup (map f (filter g l)).
Proof.
  induction l as [|x l IH]; simpl; intro H; [constructor|].
  inversion H as [|? ? Hnot Hnd]; subst.
  destruct (g x); simpl; [constructor|]; try (apply IH; exact Hnd).
  intro Hin. apply Hnot. apply in_map_iff in Hin. destruct Hin as (y & Hy & Hin).
  apply in_map_iff. exists y. split; [exact Hy|]. apply filter_In in Hin. tauto.
Qed.

Lemma platformOutput_update_consistent (i : nat) (f : PlatformOutput -> PlatformOutput)
    (st : Store) :
  (forall o, outputId (f o) = outputId o /\ contentId (f o) = contentId o /\
             platform (f o) = platform o) ->
  consistent st -> consistent (platformOutput_update i f st).
Proof.
  intros Hf [Hone [Hnd Hlt]]. split; [|split].
  - intros c p. rewrite update_pairs by (intro o; destruct (Hf o) as (_ & H1 & H2); auto).
    rewrite length_map. apply Hone.
  - unfold platformOutput_update; simpl. rewrite map_map.
    erewrite map_ext; [exact Hnd|]. intro o. simpl.
    destruct (Nat.eqb (outputId o) i); [apply Hf | reflexivity].
  - unfold platformOutput_update; simpl. apply Forall_forall. intros x Hx.
    apply in_map_iff in Hx. destruct Hx as (o & <- & Ho).
    rewrite Forall_forall in Hlt. specialize (Hlt o Ho).
    destruct (Nat.eqb (outputId o) i); [destruct (Hf o) as (-> & _)|]; exact Hlt.
Qed.

Lemma schedule_loop_consistent (b : ScheduleBody) (cfgs : option (list PlatformConfig))
    (tz now : Z) (outputs : list PlatformOutput) :
  forall acc st, consistent st -> consistent (snd (schedule_loop b cfgs tz now outputs acc st)).
Proof.
  induction outputs as [|o rest IH]; intros acc st Hc; cbn [schedule_loop]; [exact Hc|].
  destruct (negb (eligible o)); [apply IH; exact Hc|].
  destruct (scheduledTime_for b cfgs tz now o) as [r|[t|]]; try exact Hc.
  destruct (t <=? now)%Z; [exact Hc|].
  apply IH. apply platformOutput_update_consistent; [|exact Hc].
  intro x. repeat split.
Qed.

(** X9: the regenerate, edit and schedule handlers keep the store
    consistent: from a store with at most one result per pair and distinct
    issued keys, each of them returns such a store, whatever it answers. *)
Theorem handlers_keep_store_consistent (st : Store) :
  consistent st ->
  (forall session cid platforms,
     consistent (snd (POST_regenerate session cid platforms st))) /\
  (forall session cid oid b, consistent (snd (PATCH_output session cid oid b st))) /\
  (forall session tz now cid b, consistent (snd (POST_schedule session tz now cid b st))).
Proof.
  intros Hc. split; [|split].
  - intros session cid platforms. unfold POST_regenerate.
    destruct (negb session); [exact Hc|].
    destruct (contentQueue_findUnique cid st) as [q|]; [|exact Hc].
    destruct (0 <? _)%nat; [exact Hc|]. simpl.
    destruct Hc as [Hone [Hnd Hlt]]. split; [|split]; simpl.
    + intros c p. unfold contentQueue_update, platformOutput_deleteMany; simpl.
      rewrite filter_and.
      pose proof (filter_length_le
                    (fun o => negb (String.eqb (contentId o) cid && includes platforms (platform o)))
                    (filter (same_pair c p) (platformOutput st))) as Hle.
      rewrite filter_and in Hle.
      erewrite filter_ext; [|intro o; apply andb_comm].
      specialize (Hone c p). lia.
    + apply NoDup_map_filter. exact Hnd.
    + apply Forall_forall. intros o Ho. apply filter_In in Ho.
      rewrite Forall_forall in Hlt. apply Hlt. tauto.
  - intros session cid oid b. unfold PATCH_output.
    destruct (negb session); [exact Hc|].
    destruct (find _ (platformOutput st)) as [found|]; [|exact Hc].
    assert (Hacc : consistent (platformOutput_update oid (edit_update b found) st))
      by (apply platformOutput_update_consistent; [intro o; repeat split | exact Hc]).
    destruct (truthy (new_editedCopy b)); [|exact Hacc].
    destruct (contentQueue_findUnique (contentId found) st); [|exact Hc].
    destruct (_ <? _)%Z; [exact Hc | exact Hacc].
  - intros session tz now cid b. unfold POST_schedule.
    destruct (negb session); [exact Hc|].
    destruct (contentQueue_findUnique cid st) as [q|]; [|exact Hc].
    destruct (_ && _); [exact Hc|].
    pose proof (schedule_loop_consistent b (platformConfigs_of q st) tz now
                  (platformOutputs_of (cqId q) st) [] st Hc) as H.
    destruct (schedule_loop _ _ _ _ _ _ _) as [[r|s] st']; exact H.
Qed.

Lemma handlers_keep_store_consistent_witness :
  List.length (platformOutput all_ok_store) = 3%nat /\
  consistent all_ok_store /\
  (fst (POST_regenerate true unit1 [linkedin] all_ok_store) = RegOk unit1 [linkedin] processing /\
   consistent (snd (POST_regenerate true unit1 [linkedin] all_ok_store))) /\
  (fst (PATCH_output true unit1 2 (mkEdit (Some "Edited") None) all_ok_store)
   = PatchOk 2 true (Some "Edited") [] /\
   consistent (snd (PATCH_output true unit1 2 (mkEdit (Some "Edited") None) all_ok_store))) /\
  (fst (POST_schedule true 0 900000000 unit1 (mkSchedule best_times None) all_ok_store)
   = SchOk unit1 [(instagram, 914400000%Z); (linkedin, 914400000%Z); (twitter, 914400000%Z)] /\
   consistent (snd (POST_schedule true 0 900000000 unit1 (mkSchedule best_times None)
                                  all_ok_store))).
Proof.
  assert (H : consistent all_ok_store).
  { unfold all_ok_store, record_all. cbn [fold_left].
    do 3 apply POST_callback_consistent.
    split; [intros c p; simpl; lia|]. split; constructor. }
  destruct (handlers_keep_store_consistent all_ok_store H) as (Hr & He & Hs).
  split; [reflexivity|]. split; [exact H|].
  split; [split; [reflexivity | apply Hr]|].
  split; [split; [reflexivity | apply He]|].
  split; [reflexivity | apply Hs].
Defined.

(** ** Edits that are rejected, and edits without copy *)

(** X10: an edit whose new copy is non-empty and longer than the character
    limit resolved for the result's platform (the configured limit, or 10000
    when the unit has no profile, the profile has no configuration for the
    platform, or the configured limit is 0) is rejected with
    CHAR_LIMIT_EXCEEDED carrying that limit, and the store is left exactly
    as it was: the flag is not set and the hashtags sent along are dropped. *)
Theorem edit_over_limit_rejected
    (cid : string) (oid : nat) (b : UpdateOutputBody) (st : Store)
    (found : PlatformOutput) (content : ContentQueue) :
  find (fun o => Nat.eqb (outputId o) oid && String.eqb (contentId o) cid) (platformOutput st)
  = Some found ->
  contentQueue_findUnique (contentId found) st = Some content ->
  truthy (new_editedCopy b) = true ->
  (charLimit_or_default (config_for (platformConfigs_of content st) (platform found))
   < Z.of_nat (String.length (nullish (new_editedCopy b) EmptyString)))%Z ->
  PATCH_output true cid oid b st
  = (PatchCharLimitExceeded
       (charLimit_or_default (config_for (platformConfigs_of content st) (platform found))), st)
  /\ (cqProfileId content = None ->
      charLimit_or_default (config_for (platformConfigs_of content st) (platform found))
      = 10000%Z).
Proof.
  intros Hfind Hq Ht Hlong. split.
  - unfold PATCH_output. simpl. rewrite Hfind, Ht, Hq.
    replace (_ <? _)%Z with true by (symmetry; apply Z.ltb_lt; exact Hlong).
    reflexivity.
  - intro Hnone. unfold platformConfigs_of. rewrite Hnone. reflexivity.
Qed.

Lemma edit_over_limit_rejected_witness :
  PATCH_output true unit1 2 long_edit tight_limit_store
  = (PatchCharLimitExceeded 10, tight_limit_store).
Proof.
  destruct (edit_over_limit_rejected unit1 2 long_edit tight_limit_store
              (mkOutput 2 unit1 twitter None (Some "Hello gamma") ["#a"; "#b"] false None []
                        None (Some 120%Z) (Some 900%Z) (Some "model"))
              all_ok_unit) as [H _];
    [reflexivity | reflexivity | reflexivity | reflexivity | exact H].
Defined.

(** X11: an edit that supplies no copy, or the empty string as copy, is
    never checked against a limit: for any stored result of the unit it is
    accepted, the answer reports the result as user-edited, and every stored
    row with that key has the flag set, even when the body is empty. *)
Theorem edit_without_copy_sets_flag
    (cid : string) (oid : nat) (b : UpdateOutputBody) (st : Store) (found : PlatformOutput) :
  find (fun o => Nat.eqb (outputId o) oid && String.eqb (contentId o) cid) (platformOutput st)
  = Some found ->
  truthy (new_editedCopy b) = false ->
  exists st',
    PATCH_output true cid oid b st
    = (PatchOk oid true
         (match new_editedCopy b with Some _ => Some EmptyString | None => editedCopy found end)
         (nullish (new_editedHashtags b) (editedHashtags found)), st') /\
    (exists o, In o (platformOutput st') /\ outputId o = oid) /\
    (forall o, In o (platformOutput st') -> outputId o = oid -> userEdited o = true).
Proof.
  intros Hfind Ht.
  assert (Hid : outputId found = oid).
  { apply find_some in Hfind. destruct Hfind as [_ H].
    apply andb_true_iff in H. destruct H as [H _]. apply Nat.eqb_eq. exact H. }
  exists (platformOutput_update oid (edit_update b found) st). split; [|split].
  - unfold PATCH_output. simpl. rewrite Hfind, Ht. simpl. rewrite Hid.
    destruct (new_editedCopy b) as [[|a s]|]; try reflexivity. discriminate Ht.
  - exists (edit_update b found found). split; [|exact Hid].
    unfold platformOutput_update; simpl. apply in_map_iff. exists found.
    rewrite Hid, Nat.eqb_refl. split; [reflexivity|].
    apply find_some in Hfind. tauto.
  - intros o Hin Ho. unfold platformOutput_update in Hin; simpl in Hin.
    apply in_map_iff in Hin. destruct Hin as (x & Hx & _).
    destruct (Nat.eqb (outputId x) oid) eqn:E.
    + subst o. reflexivity.
    + subst o. apply Nat.eqb_neq in E. contradiction.
Qed.

Lemma edit_without_copy_sets_flag_witness :
  exists st',
    PATCH_output true unit1 2 (mkEdit None None) configured_store
    = (PatchOk 2 true None [], st').
Proof.
  destruct (edit_without_copy_sets_flag unit1 2 (mkEdit None None) configured_store
              (mkOutput 2 unit1 twitter None (Some "Hello gamma") ["#a"; "#b"] false None []
                        None (Some 120%Z) (Some 900%Z) (Some "model")))
    as (st' & Hpost & _); [reflexivity | reflexivity |].
  exists st'. exact Hpost.
Defined.

(** ** Scheduling: what a call can and cannot change *)

Lemma rescheduled_trans (now : Z) (a b c : PlatformOutput) :
  rescheduled now a b -> rescheduled now b c -> rescheduled now a c.
Proof.
  intros [->|(t & Ht & ->)] [->|(t' & Ht' & ->)].
  - left. reflexivity.
  - right. exists t'. auto.
  - right. exists t. auto.
  - right. exists t'. split; [exact Ht' | reflexivity].
Qed.

Lemma Forall2_rescheduled_refl (now : Z) (l : list PlatformOutput) :
  Forall2 (rescheduled now) l l.
Proof. induction l; constructor; [left; reflexivity | assumption]. Qed.

Lemma Forall2_rescheduled_trans (now : Z) (l1 l2 l3 : list PlatformOutput) :
  Forall2 (rescheduled now) l1 l2 -> Forall2 (rescheduled now) l2 l3 ->
  Forall2 (rescheduled now) l1 l3.
Proof.
  intro H. revert l3. induction H as [|a b l1 l2 Hab _ IH]; intros l3 H23.
  - inversion H23. constructor.
  - inversion H23 as [|? c ? l3' Hbc H23']; subst.
    constructor; [exact (rescheduled_trans _ _ _ _ Hab Hbc) | apply IH; exact H23'].
Qed.

Lemma schedule_loop_frame (b : ScheduleBody) (cfgs : option (list PlatformConfig))
    (tz now : Z) (outputs : list PlatformOutput) :
  forall acc st,
    contentQueue (snd (schedule_loop b cfgs tz now outputs acc st)) = contentQueue st /\
    platformConfig (snd (schedule_loop b cfgs tz now outputs acc st)) = platformConfig st /\
    nextId (snd (schedule_loop b cfgs tz now outputs acc st)) = nextId st /\
    Forall2 (rescheduled now) (platformOutput st)
            (platformOutput (snd (schedule_loop b cfgs tz now outputs acc st))).
Proof.
  induction outputs as [|o rest IH]; intros acc st; cbn [schedule_loop].
  - simpl. repeat split. apply Forall2_rescheduled_refl.
  - destruct (negb (eligible o)); [apply IH|].
    destruct (scheduledTime_for b cfgs tz now o) as [r|[t|]];
      try (simpl; repeat split; apply Forall2_rescheduled_refl).
    destruct (t <=? now)%Z eqn:E;
      [simpl; repeat split; apply Forall2_rescheduled_refl|].
    apply Z.leb_gt in E.
    destruct (IH (acc ++ [(platform o, t)])%list
                 (platformOutput_update (outputId o) (set_scheduledFor t) st))
      as (H1 & H2 & H3 & H4).
    repeat split; try assumption.
    apply (Forall2_rescheduled_trans now _
             (platformOutput (platformOutput_update (outputId o) (set_scheduledFor t) st)));
      [|exact H4].
    unfold platformOutput_update; simpl.
    clear - E. induction (platformOutput st) as [|x l IHl]; simpl; constructor; [|exact IHl].
    destruct (Nat.eqb (outputId x) (outputId o)); [right; exists t; auto | left; reflexivity].
Qed.

(** X12: a schedule call, in either mode and whatever it answers, leaves
    the content table (and so every status), the configurations and the key
    counter as they were, keeps every stored result in place, and changes a
    result in nothing but its scheduled time, which it only ever sets to a
    time later than the moment of the call. *)
Theorem schedule_changes_only_future_times
    (session : bool) (tz now : Z) (cid : string) (b : ScheduleBody) (st : Store) :
  contentQueue (snd (POST_schedule session tz now cid b st)) = contentQueue st /\
  platformConfig (snd (POST_schedule session tz now cid b st)) = platformConfig st /\
  nextId (snd (POST_schedule session tz now cid b st)) = nextId st /\
  Forall2 (rescheduled now) (platformOutput st)
          (platformOutput (snd (POST_schedule session tz now cid b st))).
Proof.
  unfold POST_schedule.
  destruct (negb session);
    [simpl; repeat split; apply Forall2_rescheduled_refl|].
  destruct (contentQueue_findUnique cid st) as [q|];
    [|simpl; repeat split; apply Forall2_rescheduled_refl].
  destruct (_ && _); [simpl; repeat split; apply Forall2_rescheduled_refl|].
  pose proof (schedule_loop_frame b (platformConfigs_of q st) tz now
                (platformOutputs_of (cqId q) st) [] st) as H.
  destruct (schedule_loop _ _ _ _ _ _ _) as [[r|s] st']; exact H.
Qed.

(** ** Scheduling: accepted calls and what they persist *)

(** When every eligible row gets a time after [now], the loop runs to its
    end, pushes one entry per eligible row and applies one update per
    eligible row, in order. *)
Lemma schedule_loop_accepts (b : ScheduleBody) (cfgs : option (list PlatformConfig))
    (tz now : Z) (time : PlatformOutput -> Z) (outputs : list PlatformOutput) :
  (forall o, In o outputs -> eligible o = true ->
             scheduledTime_for b cfgs tz now o = inr (Some (time o)) /\ (now < time o)%Z) ->
  forall acc st,
    schedule_loop b cfgs tz now outputs acc st
    = (inr (acc ++ map (fun o => (platform o, time o)) (filter eligible outputs))%list,
       fold_left (fun s o => platformOutput_update (outputId o) (set_scheduledFor (time o)) s)
                 (filter eligible outputs) st).
Proof.
  induction outputs as [|o rest IH]; intros Hok acc st; cbn [schedule_loop filter].
  - simpl. rewrite app_nil_r. reflexivity.
  - destruct (eligible o) eqn:El; cbn [negb].
    + destruct (Hok o (or_introl eq_refl) El) as [-> Hlt].
      replace (time o <=? now)%Z with false by (symmetry; apply Z.leb_gt; exact Hlt).
      rewrite IH by (intros x Hx; apply Hok; right; exact Hx).
      cbn [map fold_left]. rewrite <- app_assoc. reflexivity.
    + apply IH. intros x Hx. apply Hok. right. exact Hx.
Qed.

(** The rows after a run of updates keyed by distinct row keys: a row whose
    key is among them carries the time of that update, the others are as
    they were. *)
Lemma scheduled_rows (time : PlatformOutput -> Z) (us : list PlatformOutput) :
  NoDup (map outputId us) ->
  forall st,
    let st' := fold_left (fun s o => platformOutput_update (outputId o)
                                       (set_scheduledFor (time o)) s) us st in
    contentQueue st' = contentQueue st /\
    platformOutput st'
    = map (fun r => match find (fun o => Nat.eqb (outputId o) (outputId r)) us with
                    | Some o => set_scheduledFor (time o) r
                    | None => r
                    end) (platformOutput st).
Proof.
  induction us as [|o us IH]; intros Hnd st; simpl.
  - split; [reflexivity | symmetry; apply map_id].
  - inversion Hnd as [|? ? Hnot Hnd']; subst.
    destruct (IH Hnd' (platformOutput_update (outputId o) (set_scheduledFor (time o)) st))
      as [Hq Hrows].
    split; [exact Hq|]. rewrite Hrows. unfold platformOutput_update; simpl.
    rewrite map_map. apply map_ext. intro r.
    rewrite (Nat.eqb_sym (outputId o) (outputId r)).
    destruct (Nat.eqb (outputId r) (outputId o)) eqn:E; [|reflexivity].
    apply Nat.eqb_eq in E. simpl. rewrite E.
    destruct (find (fun x => Nat.eqb (outputId x) (outputId o)) us) as [x|] eqn:Ef;
      [|reflexivity].
    exfalso. apply find_some in Ef. destruct Ef as [Hin Hx]. apply Nat.eqb_eq in Hx.
    apply Hnot. rewrite <- Hx. apply in_map. exact Hin.
Qed.

(** With distinct keys, the update found for a stored row is its own. *)
Lemma own_update (c : string) (rows : list PlatformOutput) (r : PlatformOutput) :
  NoDup (map outputId rows) ->
  In r rows ->
  find (fun o => Nat.eqb (outputId o) (outputId r))
       (filter eligible (filter (fun o => String.eqb (contentId o) c) rows))
  = if String.eqb (contentId r) c && eligible r then Some r else None.
Proof.
  intros Hnd Hr.
  destruct (find _ _) as [x|] eqn:Ef.
  - apply find_some in Ef. destruct Ef as [Hin Hx]. apply Nat.eqb_eq in Hx.
    apply filter_In in Hin. destruct Hin as [Hin Hel].
    apply filter_In in Hin. destruct Hin as [Hin Hc].
    assert (x = r) by (apply (NoDup_map_unique outputId rows); assumption).
    subst x. rewrite Hc, Hel. reflexivity.
  - destruct (String.eqb (contentId r) c && eligible r) eqn:E; [|reflexivity].
    apply andb_true_iff in E. destruct E as [Hc Hel].
    assert (Hin : In r (filter eligible (filter (fun o => String.eqb (contentId o) c) rows)))
      by (apply filter_In; split; [apply filter_In; split; assumption | exact Hel]).
    apply (find_none _ _ Ef) in Hin. rewrite Nat.eqb_refl in Hin. discriminate.
Qed.

(** An accepted schedule call: the answer and the stored rows. *)
Lemma POST_schedule_accepts (tz now : Z) (cid : string) (b : ScheduleBody) (st : Store)
    (q : ContentQueue) (time : PlatformOutput -> Z) :
  NoDup (map outputId (platformOutput st)) ->
  contentQueue_findUnique cid st = Some q ->
  status q = complete \/ status q = partial ->
  (forall o, In o (platformOutputs_of cid st) -> eligible o = true ->
             scheduledTime_for b (platformConfigs_of q st) tz now o = inr (Some (time o)) /\
             (now < time o)%Z) ->
  fst (POST_schedule true tz now cid b st)
  = SchOk cid (map (fun o => (platform o, time o)) (filter eligible (platformOutputs_of cid st)))
  /\ platformOutput (snd (POST_schedule true tz now cid b st))
     = map (fun r => if String.eqb (contentId r) cid && eligible r
                     then set_scheduledFor (time r) r else r) (platformOutput st).
Proof.
  intros Hnd Hq Hst Hok. unfold POST_schedule. cbn [negb]. rewrite Hq.
  replace (negb (Status_eqb (status q) complete) && negb (Status_eqb (status q) partial))
    with false by (destruct Hst as [-> | ->]; reflexivity).
  rewrite (contentQueue_findUnique_id _ _ _ Hq).
  rewrite (schedule_loop_accepts b _ tz now time _ Hok). cbn [fst snd app].
  split; [reflexivity|].
  assert (Hnd' : NoDup (map outputId (filter eligible (platformOutputs_of cid st))))
    by (unfold platformOutputs_of; apply NoDup_map_filter, NoDup_map_filter; exact Hnd).
  destruct (scheduled_rows time _ Hnd' st) as [_ ->].
  apply map_ext_in. intros r Hr. unfold platformOutputs_of.
  rewrite (own_update cid _ r Hnd Hr).
  destruct (String.eqb (contentId r) cid && eligible r); reflexivity.
Qed.

(** X13: a custom schedule that supplies, for every result of the unit
    that has copy, a time later than the call is accepted.  The answer lists
    exactly those results, in stored order, with the supplied times; each of
    them is stored with its time, and every other row of the table (results
    without copy, results of other units) is left as it was. *)
Theorem custom_schedule_accepted
    (tz now : Z) (cid : string) (times : Platform -> option Z) (st : Store) (q : ContentQueue) :
  NoDup (map outputId (platformOutput st)) ->
  contentQueue_findUnique cid st = Some q ->
  status q = complete \/ status q = partial ->
  (forall o, In o (platformOutputs_of cid st) -> eligible o = true ->
             exists t, times (platform o) = Some t /\ (now < t)%Z) ->
  fst (POST_schedule true tz now cid (mkSchedule custom (Some times)) st)
  = SchOk cid (map (fun o => (platform o, nullish (times (platform o)) 0%Z))
                   (filter eligible (platformOutputs_of cid st)))
  /\ platformOutput (snd (POST_schedule true tz now cid (mkSchedule custom (Some times)) st))
     = map (fun r => if String.eqb (contentId r) cid && eligible r
                     then set_scheduledFor (nullish (times (platform r)) 0%Z) r else r)
           (platformOutput st).
Proof.
  intros Hnd Hq Hst Hok.
  apply (POST_schedule_accepts tz now cid _ st q
           (fun o => nullish (times (platform o)) 0%Z) Hnd Hq Hst).
  intros o Hin Hel. destruct (Hok o Hin Hel) as (t & Ht & Hlt).
  unfold scheduledTime_for. simpl. rewrite Ht. simpl. auto.
Qed.

Lemma custom_schedule_accepted_witness :
  fst (POST_schedule true 0 900000000 unit1
         (mkSchedule custom (Some (fun _ => Some 903600000%Z))) all_ok_store)
  = SchOk unit1 [(instagram, 903600000%Z); (linkedin, 903600000%Z); (twitter, 903600000%Z)].
Proof.
  destruct (custom_schedule_accepted 0 900000000 unit1 (fun _ => Some 903600000%Z)
              all_ok_store all_ok_unit) as [H _].
  - simpl. repeat constructor; simpl; intuition discriminate.
  - reflexivity.
  - left. reflexivity.
  - intros o _ _. exists 903600000%Z. split; [reflexivity | reflexivity].
  - exact H.
Defined.

(** X14: in heuristic mode, with distinct row keys, every result of the
    unit that has copy is stored with the time computed from its platform's
    best time of day, and every other row is left as it was. *)
Theorem heuristic_schedule_persisted
    (tz now : Z) (cid : string) (cs : option (Platform -> option Z))
    (st : Store) (q : ContentQueue) :
  NoDup (map outputId (platformOutput st)) ->
  contentQueue_findUnique cid st = Some q ->
  status q = complete \/ status q = partial ->
  (forall o, In o (platformOutputs_of cid st) -> eligible o = true ->
             parse_bestTime (bestTime_for (platformConfigs_of q st) (platform o)) <> None) ->
  platformOutput (snd (POST_schedule true tz now cid (mkSchedule best_times cs) st))
  = map (fun r =>
           if String.eqb (contentId r) cid && eligible r
           then set_scheduledFor
                  (nullish (option_map (best_time_schedule tz now)
                              (parse_bestTime
                                 (bestTime_for (platformConfigs_of q st) (platform r)))) 0%Z) r
           else r)
        (platformOutput st).
Proof.
  intros Hnd Hq Hst Hok.
  apply (POST_schedule_accepts tz now cid _ st q
           (fun o => nullish (option_map (best_time_schedule tz now)
                                (parse_bestTime
                                   (bestTime_for (platformConfigs_of q st) (platform o)))) 0%Z)
           Hnd Hq Hst).
  intros o Hin Hel. unfold scheduledTime_for. simpl.
  destruct (parse_bestTime (bestTime_for (platformConfigs_of q st) (platform o)))
    as [[[h m] s]|] eqn:Ep; [|exfalso; exact (Hok o Hin Hel Ep)].
  simpl. split; [reflexivity|].
  apply (best_time_schedule_spec tz now h m s (parse_bestTime_nonneg _ _ _ _ Ep)).
Qed.

Lemma heuristic_schedule_persisted_witness :
  map scheduledFor
      (platformOutput
         (snd (POST_schedule true 0 900000000 unit1 (mkSchedule best_times None)
                             configured_store)))
  = [Some 914400000%Z; Some 982800000%Z; Some 903600000%Z].
Proof.
  rewrite (heuristic_schedule_persisted 0 900000000 unit1 None configured_store all_ok_unit).
  - reflexivity.
  - simpl. repeat constructor; simpl; intuition discriminate.
  - reflexivity.
  - left. reflexivity.
  - intros o Hin _. simpl in Hin.
    destruct Hin as [<-|[<-|[<-|[]]]]; vm_compute; discriminate.
Defined.

Lemma schedule_loop_first_missing (b : ScheduleBody) (cfgs : option (list PlatformConfig))
    (tz now : Z) (outputs : list PlatformOutput) (o : PlatformOutput)
    (rest : list PlatformOutput) :
  schedulingMode b = custom ->
  match customSchedules b with Some m => m (platform o) | None => None end = None ->
  filter eligible outputs = o :: rest ->
  forall acc st,
    schedule_loop b cfgs tz now outputs acc st
    = (inl (SchMissingSchedule
              ("Custom schedule time required for " ++ platform_name (platform o))), st).
Proof.
  intros Hmode Hmiss. induction outputs as [|x l IH]; intros Hf acc st; [discriminate|].
  cbn [schedule_loop filter] in *. destruct (eligible x) eqn:El; cbn [negb].
  - injection Hf as -> _. unfold scheduledTime_for. rewrite Hmode, Hmiss. reflexivity.
  - apply IH. exact Hf.
Qed.

(** X15: in custom mode, when the first stored result of the unit that has
    copy has no time supplied for its platform (in particular when the body
    carries no custom schedules at all), the call is rejected with
    MISSING_SCHEDULE naming that platform and the store is left as it was;
    results without copy ahead of it are skipped, not reported. *)
Theorem custom_schedule_missing_time
    (tz now : Z) (cid : string) (b : ScheduleBody) (st : Store) (q : ContentQueue)
    (o : PlatformOutput) (rest : list PlatformOutput) :
  contentQueue_findUnique cid st = Some q ->
  status q = complete \/ status q = partial ->
  schedulingMode b = custom ->
  filter eligible (platformOutputs_of cid st) = o :: rest ->
  match customSchedules b with Some m => m (platform o) | None => None end = None ->
  POST_schedule true tz now cid b st
  = (SchMissingSchedule ("Custom schedule time required for " ++ platform_name (platform o)),
     st).
Proof.
  intros Hq Hst Hmode Hf Hmiss. unfold POST_schedule. cbn [negb]. rewrite Hq.
  replace (negb (Status_eqb (status q) complete) && negb (Status_eqb (status q) partial))
    with false by (destruct Hst as [-> | ->]; reflexivity).
  rewrite (contentQueue_findUnique_id _ _ _ Hq).
  rewrite (schedule_loop_first_missing b _ tz now _ o rest Hmode Hmiss Hf). reflexivity.
Qed.

Lemma custom_schedule_missing_time_witness :
  POST_schedule true 0 900000000 unit1 (mkSchedule custom None) all_ok_store
  = (SchMissingSchedule "Custom schedule time required for instagram", all_ok_store).
Proof.
  apply (custom_schedule_missing_time 0 900000000 unit1 (mkSchedule custom None) all_ok_store
           all_ok_unit
           (mkOutput 0 unit1 instagram None (Some "Hello alpha") ["#a"; "#b"] false None []
                     None (Some 120%Z) (Some 900%Z) (Some "model"))
           [mkOutput 1 unit1 linkedin None (Some "Hello beta") ["#a"; "#b"] false None []
                     None (Some 120%Z) (Some 900%Z) (Some "model");
            mkOutput 2 unit1 twitter None (Some "Hello gamma") ["#a"; "#b"] false None []
                     None (Some 120%Z) (Some 900%Z) (Some "model")]).
  - reflexivity.
  - left. reflexivity.
  - reflexivity.
  - reflexivity.
  - reflexivity.
Defined.

(** ** Best posting times: the schema's pattern and the computed schedule *)

Lemma in_class_digit (lo hi c : ascii) :
  (48 <= nat_of_ascii lo)%nat -> (nat_of_ascii hi <= 57)%nat ->
  in_class lo hi c = true ->
  Ascii.eqb c ":" = false /\
  exists d, digit_value c = Some d /\
            (Z.of_nat (nat_of_ascii lo) - 48 <= d <= Z.of_nat (nat_of_ascii hi) - 48)%Z.
Proof.
  intros Hlo Hhi H. unfold in_class in H. apply andb_true_iff in H. destruct H as [H1 H2].
  apply Nat.leb_le in H1, H2. split.
  - destruct (Ascii.eqb c ":") eqn:E; [|reflexivity].
    apply Ascii.eqb_eq in E. subst c.
    change (nat_of_ascii ":") with 58%nat in H2. lia.
  - exists (Z.of_nat (nat_of_ascii c - 48)). split; [|lia].
    unfold digit_value.
    replace ((48 <=? nat_of_ascii c)%nat && (nat_of_ascii c <=? 57)%nat) with true;
      [reflexivity|].
    symmetry. apply andb_true_iff. split; apply Nat.leb_le; lia.
Qed.

(** Read a character known to be in a digit class: it is not the colon and
    has a digit value within the class. *)
Ltac digit_of c lo hi N d D B :=
  destruct (in_class_digit lo hi c) as (N & d & D & B);
  [vm_compute; lia | vm_compute; lia | assumption |];
  let l := eval vm_compute in (nat_of_ascii lo) in
  let h := eval vm_compute in (nat_of_ascii hi) in
  change (nat_of_ascii lo) with l in B; change (nat_of_ascii hi) with h in B.

Lemma matches_minutes_seconds_parse (r : string) :
  matches_minutes_seconds r = true ->
  exists m s, map Number_of (split_colon r) = [Some m; Some s] /\
              (0 <= m <= 59 /\ 0 <= s <= 59)%Z.
Proof.
  unfold matches_minutes_seconds.
  destruct r as [|m1 [|m2 [|c [|s1 [|s2 [|x r]]]]]]; try discriminate.
  intro H. do 4 (apply andb_true_iff in H; destruct H as [H ?]).
  digit_of m1 "0"%char "5"%char N1 d1 D1 B1.
  digit_of m2 "0"%char "9"%char N2 d2 D2 B2.
  digit_of s1 "0"%char "5"%char N3 d3 D3 B3.
  digit_of s2 "0"%char "9"%char N4 d4 D4 B4.
  exists (d1 * 10 + d2)%Z, (d3 * 10 + d4)%Z. split; [|lia].
  cbn [split_colon]. rewrite N1, N2, N3, N4.
  replace (Ascii.eqb c ":") with true by (symmetry; assumption).
  cbn [split_colon map]. unfold Number_of. cbn [digits_value].
  rewrite D1, D2, D3, D4. reflexivity.
Qed.

(** X16: every string the schema's pattern accepts as a best posting time
    is parsed by the schedule route into hours 0..23, minutes 0..59 and
    seconds 0..59. *)
Theorem valid_bestPostingTime_parses (t : string) :
  matches_bestPostingTime t = true ->
  exists h m s,
    parse_bestTime t = Some (h, m, s) /\
    (0 <= h <= 23 /\ 0 <= m <= 59 /\ 0 <= s <= 59)%Z.
Proof.
  unfold matches_bestPostingTime.
  destruct t as [|a [|b r]]; try discriminate.
  destruct (Ascii.eqb b ":") eqn:Eb.
  - intro H. apply andb_true_iff in H. destruct H as [Ha Hr].
    digit_of a "0"%char "9"%char Na da Da Ba.
    destruct (matches_minutes_seconds_parse r Hr) as (m & s & Hms & Bm).
    exists da, m, s. split; [|lia].
    unfold parse_bestTime. cbn [split_colon]. rewrite Na, Eb.
    cbn [map]. rewrite Hms. unfold Number_of. cbn [digits_value]. rewrite Da. reflexivity.
  - destruct r as [|c r']; [discriminate|].
    intro H. apply andb_true_iff in H. destruct H as [H Hr].
    apply andb_true_iff in H. destruct H as [Hc Hh].
    destruct (matches_minutes_seconds_parse r' Hr) as (m & s & Hms & Bm).
    assert (Hhours : Ascii.eqb a ":" = false /\
                     exists da db, digit_value a = Some da /\ digit_value b = Some db /\
                                   (0 <= da * 10 + db <= 23)%Z).
    { apply orb_true_iff in Hh. destruct Hh as [Hh|Hh];
        apply andb_true_iff in Hh; destruct Hh as [H1 H2].
      - digit_of a "0"%char "1"%char Na da Da Ba.
        digit_of b "0"%char "9"%char Nb db Db Bb.
        split; [exact Na|]. exists da, db. repeat split; try assumption; lia.
      - apply Ascii.eqb_eq in H1. subst a.
        digit_of b "0"%char "3"%char Nb db Db Bb.
        split; [reflexivity|]. exists 2%Z, db.
        repeat split; try assumption; try reflexivity; lia. }
    destruct Hhours as (Na & da & db & Da & Db & Bh).
    exists (da * 10 + db)%Z, m, s. split; [|lia].
    unfold parse_bestTime. cbn [split_colon]. rewrite Na, Eb, Hc.
    cbn [map]. rewrite Hms. unfold Number_of. cbn [digits_value]. rewrite Da, Db. reflexivity.
Qed.

Lemma valid_bestPostingTime_parses_witness :
  exists h m s,
    parse_bestTime "14:00:00" = Some (h, m, s) /\
    (0 <= h <= 23 /\ 0 <= m <= 59 /\ 0 <= s <= 59)%Z.
Proof. apply (valid_bestPostingTime_parses "14:00:00"). reflexivity. Defined.

(** X17: for a best time of day within 00:00:00..23:59:59 the heuristic
    schedules within the next 24 hours: the computed time is later than the
    call, at most one day later, and falls on exactly that time of day in
    local time. *)
Theorem best_time_within_a_day (tz now h m s : Z) :
  (0 <= h <= 23 /\ 0 <= m <= 59 /\ 0 <= s <= 59)%Z ->
  (now < best_time_schedule tz now (h, m, s) <= now + msPerDay)%Z /\
  TimeWithinDay (LocalTime tz (best_time_schedule tz now (h, m, s))) = MakeTime h m s 0.
Proof.
  intros (Hh & Hm & Hs).
  unfold best_time_schedule, setDate_next, setHours, UTC, MakeDate, Day, TimeWithinDay,
    LocalTime, MakeTime, msPerDay.
  set (tod := (h * 3600000 + m * 60000 + s * 1000 + 0)%Z).
  assert (Htod : (0 <= tod < 86400000)%Z) by (unfold tod; lia).
  set (d := ((now + tz) / 86400000)%Z).
  replace (d * 86400000 + tod - tz + tz)%Z with (tod + d * 86400000)%Z by lia.
  rewrite Z.div_add by lia. rewrite Z.mod_add by lia.
  rewrite (Z.div_small tod 86400000) by lia. rewrite (Z.mod_small tod 86400000) by lia.
  pose proof (Z.div_mod (now + tz) 86400000 ltac:(lia)) as Hnow.
  pose proof (Z.mod_pos_bound (now + tz) 86400000 ltac:(lia)) as Hb.
  fold d in Hnow.
  destruct (d * 86400000 + tod - tz <=? now)%Z eqn:E.
  - apply Z.leb_le in E. split; [lia|].
    replace ((0 + d + 1) * 86400000 + tod - tz + tz)%Z with (tod + (d + 1) * 86400000)%Z by lia.
    rewrite Z.mod_add by lia. apply Z.mod_small. lia.
  - apply Z.leb_gt in E. split; [lia|].
    replace (d * 86400000 + tod - tz + tz)%Z with (tod + d * 86400000)%Z by lia.
    rewrite Z.mod_add by lia. apply Z.mod_small. lia.
Qed.

Lemma best_time_within_a_day_witness :
  (900000000 < best_time_schedule 0 900000000 (9, 0, 0) <= 900000000 + msPerDay)%Z.
Proof.
  apply (best_time_within_a_day 0 900000000 9 0 0). lia.
Defined.

(** ** Placeholder replacement *)

Lemma strip_prefix_spec (p s r : string) :
  strip_prefix p s = Some r <-> s = p ++ r.
Proof.
  revert s. induction p as [|a p IH]; intro s; simpl.
  - split; [intro H; injection H as ->; reflexivity | intros ->; reflexivity].
  - destruct s as [|b s]; [split; discriminate|].
    destruct (Ascii.eqb a b) eqn:E.
    + apply Ascii.eqb_eq in E. subst b. rewrite IH. split; [intros ->; reflexivity|].
      intro H. injection H as H. exact H.
    + apply Ascii.eqb_neq in E. split; [discriminate|].
      intro H. injection H as H1 _. congruence.
Qed.

Lemma split_at_first_sound (needle s pre post : string) :
  split_at_first needle s = Some (pre, post) -> s = pre ++ needle ++ post.
Proof.
  revert pre. induction s as [|c s IH]; intro pre; simpl.
  - destruct (strip_prefix needle EmptyString) as [r|] eqn:E; [|discriminate].
    intro H. injection H as <- <-. apply strip_prefix_spec in E. exact E.
  - destruct (strip_prefix needle (String c s)) as [r|] eqn:E.
    + intro H. injection H as <- <-. apply strip_prefix_spec in E. exact E.
    + destruct (split_at_first needle s) as [[pre' post']|]; [|discriminate].
      intro H. injection H as <- <-. simpl. f_equal. apply IH. reflexivity.
Qed.

Lemma split_at_first_complete (needle a b : string) :
  exists pre post,
    split_at_first needle (a ++ needle ++ b) = Some (pre, post) /\
    (String.length pre <= String.length a)%nat.
Proof.
  induction a as [|c a IH]; simpl.
  - assert (E : strip_prefix needle (needle ++ b) = Some b)
      by (apply strip_prefix_spec; reflexivity).
    exists EmptyString, b.
    destruct (needle ++ b) as [|x r] eqn:Es; simpl; rewrite E; split; try reflexivity; lia.
  - destruct (strip_prefix needle (String c (a ++ needle ++ b))) as [r|].
    + exists EmptyString, r. split; [reflexivity | simpl; lia].
    + destruct IH as (pre & post & -> & Hlen).
      exists (String c pre), post. split; [reflexivity | simpl; lia].
Qed.

Lemma GetSubstitution_dollar_free (matched preceding following r : string) :
  dollar_free r = true -> GetSubstitution matched preceding following r = r.
Proof.
  induction r as [|c r IH]; simpl; [reflexivity|].
  intro H. apply andb_true_iff in H. destruct H as [Hc Hr].
  apply negb_true_iff in Hc. rewrite Hc. f_equal. apply IH. exact Hr.
Qed.

(** X18: [replace] with a replacement text free of [$] substitutes the
    first occurrence of the placeholder and nothing else: when the text is
    [a ++ placeholder ++ b], the result is [pre ++ replacement ++ post] for a
    decomposition [pre ++ placeholder ++ post] of the text in which [pre] is
    no longer than [a]; a text without the placeholder is returned as is. *)
Theorem replace_first_occurrence (s needle r : string) :
  dollar_free r = true ->
  (occurs_in needle s = false -> replace s needle r = s) /\
  (forall a b, s = a ++ needle ++ b ->
     exists pre post,
       s = pre ++ needle ++ post /\
       (String.length pre <= String.length a)%nat /\
       replace s needle r = pre ++ r ++ post).
Proof.
  intro Hr. split.
  - unfold occurs_in, replace. destruct (split_at_first needle s); [discriminate | reflexivity].
  - intros a b ->.
    destruct (split_at_first_complete needle a b) as (pre & post & Hsplit & Hlen).
    exists pre, post. split; [apply split_at_first_sound; exact Hsplit|].
    split; [exact Hlen|].
    unfold replace. rewrite Hsplit, GetSubstitution_dollar_free by exact Hr. reflexivity.
Qed.

Lemma replace_first_occurrence_witness :
  replace "Write about {{title}} and {{title}}" "{{title}}" "cats"
  = "Write about cats and {{title}}".
Proof.
  destruct (replace_first_occurrence "Write about {{title}} and {{title}}" "{{title}}" "cats"
              eq_refl) as [_ H].
  destruct (H "Write about " " and {{title}}" eq_refl) as (pre & post & Hs & Hlen & Hrep).
  rewrite Hrep. clear Hrep H.
  destruct pre as [|c0 pre]; [discriminate Hs|].
  do 11 (destruct pre as [|? pre]; [discriminate Hs|]).
  injection Hs as -> -> -> -> -> -> -> -> -> -> -> -> Hs.
  destruct pre as [|? pre]; [|simpl in Hlen; lia].
  simpl in Hs. injection Hs as <-. reflexivity.
Defined.

Lemma string_app_nil_r (s : string) : s ++ EmptyString = s.
Proof. induction s as [|c s IH]; simpl; [reflexivity | rewrite IH; reflexivity]. Qed.

Lemma string_app_assoc_l (a b c : string) : a ++ (b ++ c) = (a ++ b) ++ c.
Proof. induction a as [|x a IH]; simpl; [reflexivity | rewrite IH; reflexivity]. Qed.

Lemma occurs_in_middle (needle a b : string) : occurs_in needle (a ++ needle ++ b) = true.
Proof.
  unfold occurs_in.
  destruct (split_at_first_complete needle a b) as (pre & post & -> & _). reflexivity.
Qed.

(** X19: without a template, or with an empty one, [buildUserPrompt]
    returns the default text, in which the title and the body both occur; a
    non-empty template that mentions neither placeholder is returned
    unchanged, so the title and the body do not reach the prompt. *)
Theorem buildUserPrompt_without_placeholders (template : option string) (title body : string) :
  (truthy template = false ->
   occurs_in title (buildUserPrompt template title body) = true /\
   occurs_in body (buildUserPrompt template title body) = true) /\
  (forall t, template = Some t -> truthy template = true ->
     occurs_in "{{title}}" t = false -> occurs_in "{{body}}" t = false ->
     buildUserPrompt template title body = t).
Proof.
  split.
  - intro Ht. unfold buildUserPrompt. rewrite Ht. split.
    + apply (occurs_in_middle title
               ("Transform this content for social media:"
                ++ String "010" (String "010" "Title: "))).
    + rewrite <- (string_app_nil_r body) at 2.
      rewrite !string_app_assoc_l.
      rewrite <- (string_app_assoc_l _ body EmptyString).
      apply (occurs_in_middle body).
  - intros t -> Ht Hno_title Hno_body. unfold buildUserPrompt. rewrite Ht. simpl.
    unfold occurs_in in *.
    unfold replace at 2.
    destruct (split_at_first "{{title}}" t); [discriminate|].
    unfold replace. destruct (split_at_first "{{body}}" t); [discriminate | reflexivity].
Qed.

Lemma buildUserPrompt_without_placeholders_witness :
  buildUserPrompt (Some "Write something nice.") "My title" "My body"
  = "Write something nice.".
Proof.
  destruct (buildUserPrompt_without_placeholders (Some "Write something nice.")
              "My title" "My body") as [_ H].
  apply (H "Write something nice."); reflexivity.
Defined.

(** ** The mock copy of the test route *)

Lemma string_app_length (a b : string) :
  String.length (a ++ b) = (String.length a + String.length b)%nat.
Proof. induction a as [|c a IH]; simpl; [reflexivity | rewrite IH; reflexivity]. Qed.

Lemma substring_from_start_length (n : nat) (s : string) :
  String.length (String.substring 0 n s) = Nat.min n (String.length s).
Proof.
  revert n. induction s as [|c s IH]; intro n; destruct n; simpl; try reflexivity.
  rewrite IH. reflexivity.
Qed.

(** X20: the mock copy is the platform's hook, the title, a blank line,
    the start of the body and three dots; the body is cut to the character
    limit minus the hook minus 50 (to nothing when that is negative), so the
    copy fits the limit whenever the title has at most 45 characters and the
    limit is at least the hook plus 50. *)
Theorem generateMockCopy_length (p : Platform) (limit : Z) (title body : string) :
  Z.of_nat (String.length (generateMockCopy p limit title body))
  = (Z.of_nat (String.length (hook_of p)) + Z.of_nat (String.length title) + 5
     + Z.max 0 (Z.min (Z.of_nat (String.length body))
                      (limit - Z.of_nat (String.length (hook_of p)) - 50)))%Z
  /\ ((String.length title <= 45)%nat ->
      (Z.of_nat (String.length (hook_of p)) + 50 <= limit)%Z ->
      (Z.of_nat (String.length (generateMockCopy p limit title body)) <= limit)%Z).
Proof.
  assert (Hlen : Z.of_nat (String.length (generateMockCopy p limit title body))
    = (Z.of_nat (String.length (hook_of p)) + Z.of_nat (String.length title) + 5
       + Z.max 0 (Z.min (Z.of_nat (String.length body))
                        (limit - Z.of_nat (String.length (hook_of p)) - 50)))%Z).
  { unfold generateMockCopy, substring_to.
    rewrite !string_app_length, substring_from_start_length. simpl String.length. lia. }
  split; [exact Hlen|]. intros Ht Hl. rewrite Hlen. lia.
Qed.

Lemma generateMockCopy_length_witness :
  (Z.of_nat (String.length (generateMockCopy twitter 280 "A title" "Some body text")) <= 280)%Z.
Proof.
  apply (generateMockCopy_length twitter 280 "A title" "Some body text").
  - simpl. lia.
  - simpl. lia.
Defined.

(** ** Platform names and platform configurations *)

Lemma PUT_platform_named (pid : string) (p : Platform) (b : UpdatePlatformConfigBody)
    (cat : Catalog) :
  PUT_platform true pid (platform_name p) b cat
  = if range_rejected b then
      (PutValidationError "Minimum hashtag count cannot be greater than maximum", cat)
    else
      match configRow_findUnique pid p cat with
      | None => (PutConfigNotFound, cat)
      | Some existingConfig =>
          (PutOk (cr_platform (apply_update b existingConfig)) (updated_fields_of b),
           mkCatalog (brand cat) (brandVoiceProfile cat)
             (map (fun r => if Nat.eqb (cr_id r) (cr_id existingConfig)
                            then apply_update b r else r) (configRow cat))
             (nextConfigId cat))
      end.
Proof.
  unfold PUT_platform. cbn [negb].
  replace (platform_of_name (platform_name p)) with (Some p) by (destruct p; reflexivity).
  reflexivity.
Qed.

(** X22: when a configuration update carries both hashtag bounds, a
    minimum above the maximum is rejected with a validation error before the
    configuration is even looked up, and the catalog is unchanged; otherwise,
    for a stored configuration, the update is accepted and every row with
    the configuration's key holds the two bounds as sent. *)
Theorem put_range_checked_when_both_given
    (pid : string) (p : Platform) (b : UpdatePlatformConfigBody) (cat : Catalog) (lo hi : Z) :
  up_hashtagCountMin b = Some lo ->
  up_hashtagCountMax b = Some hi ->
  ((hi < lo)%Z ->
   PUT_platform true pid (platform_name p) b cat
   = (PutValidationError "Minimum hashtag count cannot be greater than maximum", cat)) /\
  ((lo <= hi)%Z -> forall cfg,
   configRow_findUnique pid p cat = Some cfg ->
   fst (PUT_platform true pid (platform_name p) b cat) = PutOk p (updated_fields_of b) /\
   forall r, In r (configRow (snd (PUT_platform true pid (platform_name p) b cat))) ->
             cr_id r = cr_id cfg ->
             cr_hashtagCountMin r = lo /\ cr_hashtagCountMax r = hi).
Proof.
  intros Hlo Hhi. rewrite PUT_platform_named. unfold range_rejected. rewrite Hlo, Hhi. split.
  - intro H. replace (hi <? lo)%Z with true by (symmetry; apply Z.ltb_lt; exact H).
    reflexivity.
  - intros H cfg Hfind.
    replace (hi <? lo)%Z with false by (symmetry; apply Z.ltb_ge; exact H).
    rewrite Hfind. simpl. split.
    + f_equal. apply find_some in Hfind. destruct Hfind as [_ Hk].
      apply andb_true_iff in Hk. destruct Hk as [_ Hk]. apply Platform_eqb_eq. exact Hk.
    + intros r Hin Hid. apply in_map_iff in Hin. destruct Hin as (x & Hx & _).
      destruct (Nat.eqb (cr_id x) (cr_id cfg)) eqn:E.
      * subst r. simpl. rewrite Hlo, Hhi. auto.
      * subst r. apply Nat.eqb_neq in E. contradiction.
Qed.

(** X23: the range check only compares bounds sent together.  An update
    that carries only a maximum, lower than the stored minimum of the
    configuration, is accepted, and the configuration is stored with its
    maximum below its minimum. *)
Theorem put_single_bound_unchecked
    (pid : string) (p : Platform) (b : UpdatePlatformConfigBody) (cat : Catalog)
    (cfg : ConfigRow) (hi : Z) :
  configRow_findUnique pid p cat = Some cfg ->
  up_hashtagCountMin b = None ->
  up_hashtagCountMax b = Some hi ->
  (hi < cr_hashtagCountMin cfg)%Z ->
  fst (PUT_platform true pid (platform_name p) b cat) = PutOk p (updated_fields_of b) /\
  exists r,
    configRow_findUnique pid p (snd (PUT_platform true pid (platform_name p) b cat)) = Some r /\
    cr_id r = cr_id cfg /\
    (cr_hashtagCountMax r < cr_hashtagCountMin r)%Z.
Proof.
  intros Hfind Hlo Hhi Hlt. rewrite PUT_platform_named. unfold range_rejected.
  rewrite Hlo, Hfind. simpl. split.
  - f_equal. apply find_some in Hfind. destruct Hfind as [_ Hk].
    apply andb_true_iff in Hk. destruct Hk as [_ Hk]. apply Platform_eqb_eq. exact Hk.
  - exists (apply_update b cfg). split; [|split].
    + unfold configRow_findUnique in *. simpl.
      rewrite find_map_stable.
      * rewrite Hfind. simpl. rewrite Nat.eqb_refl. reflexivity.
      * intro x. destruct (Nat.eqb (cr_id x) (cr_id cfg)); reflexivity.
    + reflexivity.
    + simpl. rewrite Hlo, Hhi. simpl. exact Hlt.
Qed.

Lemma put_range_checked_when_both_given_witness :
  PUT_platform true "profile1" "instagram" (range_update 20 5) one_profile_catalog
  = (PutValidationError "Minimum hashtag count cannot be greater than maximum",
     one_profile_catalog).
Proof.
  destruct (put_range_checked_when_both_given "profile1" instagram (range_update 20 5)
              one_profile_catalog 20 5 eq_refl eq_refl) as [H _].
  apply H. lia.
Defined.

Lemma put_single_bound_unchecked_witness :
  exists r,
    configRow_findUnique "profile1" instagram
      (snd (PUT_platform true "profile1" "instagram" (max_only_update 5) one_profile_catalog))
    = Some r /\
    (cr_hashtagCountMax r < cr_hashtagCountMin r)%Z.
Proof.
  destruct (put_single_bound_unchecked "profile1" instagram (max_only_update 5)
              one_profile_catalog (default_config "profile1" 0 instagram) 5)
    as (_ & r & Hfind & _ & Hlt).
  - reflexivity.
  - reflexivity.
  - reflexivity.
  - simpl. lia.
  - exists r. split; [exact Hfind | exact Hlt].
Defined.

(** ** Creating a voice profile *)

Lemma find_none_app {A : Type} (g : A -> bool) (l l' : list A) :
  (forall x, In x l -> g x = false) -> find g (l ++ l') = find g l'.
Proof.
  intro H. induction l as [|x l IH]; simpl; [reflexivity|].
  rewrite (H x (or_introl eq_refl)). apply IH. intros y Hy. apply H. right. exact Hy.
Qed.

(** X24: creating a profile under an existing brand, with a name the brand
    does not use yet and a key no configuration refers to, gives the profile
    one enabled configuration per platform, each holding that platform's
    defaults; the defaults satisfy the update schema: positive image sizes,
    a character limit within 1..100000, a hashtag minimum not above the
    maximum, and a best posting time matching the pattern. *)
Theorem profile_created_with_defaults
    (brandId profileName newId : string) (cat : Catalog) (br : Brand) (p : Platform) :
  brand_findUnique brandId cat = Some br ->
  find (fun pr => String.eqb (profile_brandId pr) brandId &&
                  String.eqb (profile_name pr) profileName) (brandVoiceProfile cat) = None ->
  (forall r, In r (configRow cat) -> cr_profileId r <> newId) ->
  fst (POST_profile true brandId profileName newId cat) = PrCreated newId profileName /\
  exists r,
    configRow_findUnique newId p (snd (POST_profile true brandId profileName newId cat))
    = Some r /\
    List.length
      (filter (fun r => String.eqb (cr_profileId r) newId && Platform_eqb (cr_platform r) p)
              (configRow (snd (POST_profile true brandId profileName newId cat)))) = 1%nat /\
    cr_enabled r = true /\
    cr_imageWidth r = pd_imageWidth (platformDefaults p) /\
    cr_imageHeight r = pd_imageHeight (platformDefaults p) /\
    cr_charLimit r = pd_charLimit (platformDefaults p) /\
    cr_hashtagCountMin r = pd_hashtagCountMin (platformDefaults p) /\
    cr_hashtagCountMax r = pd_hashtagCountMax (platformDefaults p) /\
    cr_bestPostingTime r = Some (pd_bestPostingTime (platformDefaults p)) /\
    (0 < cr_imageWidth r /\ 0 < cr_imageHeight r /\ 1 <= cr_charLimit r <= 100000 /\
     0 <= cr_hashtagCountMin r <= cr_hashtagCountMax r)%Z /\
    matches_bestPostingTime (pd_bestPostingTime (platformDefaults p)) = true.
Proof.
  intros Hb Hname Hfresh. unfold POST_profile. cbn [negb]. rewrite Hb, Hname. simpl fst.
  split; [reflexivity|].
  assert (Hold : forall x, In x (configRow cat) ->
            (String.eqb (cr_profileId x) newId && Platform_eqb (cr_platform x) p) = false).
  { intros x Hx. destruct (String.eqb (cr_profileId x) newId) eqn:E; [|reflexivity].
    apply String.eqb_eq in E. exfalso. exact (Hfresh x Hx E). }
  unfold configRow_findUnique. cbn [snd configRow].
  rewrite (find_none_app _ _ _ Hold). rewrite filter_app, length_app.
  assert (Hnil : filter (fun r => String.eqb (cr_profileId r) newId
                                  && Platform_eqb (cr_platform r) p) (configRow cat) = []).
  { clear - Hold. induction (configRow cat) as [|x l IH]; simpl; [reflexivity|].
    rewrite (Hold x (or_introl eq_refl)). apply IH. intros y Hy. apply Hold. right. exact Hy. }
  rewrite Hnil.
  exists (default_config newId
            (nextConfigId cat
             + match p with
               | instagram => 0 | linkedin => 1 | twitter => 2
               | facebook => 3 | pinterest => 4 | tiktok => 5
               end) p).
  cbn [seq combine platform_options map find filter fst snd cr_profileId cr_platform
       default_config].
  rewrite !String.eqb_refl.
  destruct p; cbn; rewrite ?Nat.add_0_r, ?Nat.add_succ_r, ?Nat.add_0_r;
    repeat split; try reflexivity; try lia.
Qed.

Lemma profile_created_with_defaults_witness :
  exists r,
    configRow_findUnique "profile1" twitter one_profile_catalog = Some r /\
    cr_enabled r = true /\ cr_charLimit r = 280%Z.
Proof.
  destruct (profile_created_with_defaults "b1" "Default voice" "profile1" brand_only_catalog
              (mkBrand "b1" "Acme") twitter)
    as (_ & r & Hfind & _ & Hen & _ & _ & Hlim & _).
  - reflexivity.
  - reflexivity.
  - intros r [].
  - exists r. split; [exact Hfind|]. split; [exact Hen | exact Hlim].
Defined.

(** ** Creating content *)

Lemma enabledPlatforms_of_spec (pid : string) (targets : list Platform) (cat : Catalog)
    (p : Platform) :
  In p (enabledPlatforms_of pid targets cat)
  <-> In p targets /\
      exists r, In r (configRow cat) /\ cr_profileId r = pid /\ cr_platform r = p /\
                cr_enabled r = true.
Proof.
  unfold enabledPlatforms_of. rewrite in_map_iff. split.
  - intros (r & Hp & Hin). apply filter_In in Hin. destruct Hin as [Hin Hk].
    apply andb_true_iff in Hk. destruct Hk as [Hk Ht].
    apply andb_true_iff in Hk. destruct Hk as [Hpid Hen].
    apply String.eqb_eq in Hpid. apply includes_In in Ht. subst p.
    split; [exact Ht|]. exists r. auto.
  - intros (Ht & r & Hin & Hpid & Hp & Hen). exists r. split; [exact Hp|].
    apply filter_In. split; [exact Hin|].
    rewrite Hpid, String.eqb_refl, Hen, Hp. simpl. apply includes_In. exact Ht.
Qed.

(** X25: for an existing brand and a profile of that brand, content is
    created exactly when every target platform has an enabled configuration
    in the profile.  Otherwise the call is rejected with
    MISSING_PLATFORM_CONFIG naming, comma separated and in the order sent,
    exactly the targets that have none, and nothing is stored.  When it is
    created and the webhook call does not throw, the unit is appended with
    status pending and the targets as sent, and nothing else changes. *)
Theorem content_creation_requires_enabled_configs
    (brandId profileId : string) (targets : list Platform) (newId : string)
    (trigger : Trigger) (cat : Catalog) (st : Store) (br : Brand) (pr : Profile) :
  brand_findUnique brandId cat = Some br ->
  find (fun pr => String.eqb (profile_id pr) profileId &&
                  String.eqb (profile_brandId pr) brandId) (brandVoiceProfile cat) = Some pr ->
  exists missing,
    (forall p, In p missing <->
               In p targets /\
               ~ exists r, In r (configRow cat) /\ cr_profileId r = profileId /\
                           cr_platform r = p /\ cr_enabled r = true) /\
    (missing <> [] ->
     POST_content true brandId profileId targets newId trigger cat st
     = (CrMissingPlatformConfig
          ("The following platforms are not enabled: " ++ join_names missing), st)) /\
    (missing = [] -> trigger <> FetchThrew ->
     POST_content true brandId profileId targets newId trigger cat st
     = (CrCreated newId pending,
        mkStore (contentQueue st ++ [mkContent newId (Some profileId) targets pending None None])
                (platformOutput st) (platformConfig st) (nextId st))).
Proof.
  intros Hb Hp.
  exists (filter (fun p => negb (includes (enabledPlatforms_of profileId targets cat) p)) targets).
  split; [|split].
  - intro p. rewrite filter_In, negb_true_iff. split.
    + intros [Ht Hnot]. split; [exact Ht|]. intros Hex.
      assert (Hin : In p (enabledPlatforms_of profileId targets cat))
        by (apply enabledPlatforms_of_spec; split; assumption).
      apply includes_In in Hin. congruence.
    + intros [Ht Hnot]. split; [exact Ht|].
      destruct (includes (enabledPlatforms_of profileId targets cat) p) eqn:E; [|reflexivity].
      apply includes_In, enabledPlatforms_of_spec in E. destruct E as [_ Hex]. contradiction.
  - intro Hne. unfold POST_content. cbn [negb]. rewrite Hb, Hp.
    destruct (filter _ targets) as [|x l]; [contradiction | reflexivity].
  - intros Hnil Htr. unfold POST_content. cbn [negb]. rewrite Hb, Hp, Hnil.
    destruct trigger; try reflexivity. contradiction.
Qed.

Lemma content_creation_requires_enabled_configs_witness :
  POST_content true "b1" "profile1" [instagram; twitter] "c9" FetchReturned
               one_profile_catalog (fresh_store [linkedin])
  = (CrCreated "c9" pending,
     mkStore (contentQueue (fresh_store [linkedin])
              ++ [mkContent "c9" (Some "profile1") [instagram; twitter] pending None None])
             [] [] 0).
Proof.
  destruct (content_creation_requires_enabled_configs "b1" "profile1" [instagram; twitter]
              "c9" FetchReturned one_profile_catalog (fresh_store [linkedin])
              (mkBrand "b1" "Acme") (mkProfile "profile1" "b1" "Default voice")
              eq_refl eq_refl) as (missing & Hmiss & _ & Hok).
  apply Hok; [|discriminate].
  destruct missing as [|p l]; [reflexivity|].
  exfalso. destruct (proj1 (Hmiss p) (or_introl eq_refl)) as [Ht Hnone].
  apply Hnone. simpl in Ht. destruct Ht as [<-|[<-|[]]].
  - exists (default_config "profile1" 0 instagram). simpl. tauto.
  - exists (default_config "profile1" 2 twitter). simpl. tauto.
Defined.

(** X26: when the webhook call throws, the answer is N8N_TRIGGER_FAILED
    but the unit is not removed: with a key not used before, it stays in the
    table with status failed and the message "Failed to trigger processing
    workflow", and every unit stored before is untouched. *)
Theorem failed_trigger_leaves_failed_unit
    (brandId profileId : string) (targets : list Platform) (newId : string)
    (cat : Catalog) (st : Store) (br : Brand) (pr : Profile) :
  brand_findUnique brandId cat = Some br ->
  find (fun pr => String.eqb (profile_id pr) profileId &&
                  String.eqb (profile_brandId pr) brandId) (brandVoiceProfile cat) = Some pr ->
  (forall p, In p targets -> In p (enabledPlatforms_of profileId targets cat)) ->
  contentQueue_findUnique newId st = None ->
  fst (POST_content true brandId profileId targets newId FetchThrew cat st) = CrTriggerFailed /\
  contentQueue_findUnique newId
    (snd (POST_content true brandId profileId targets newId FetchThrew cat st))
  = Some (mkContent newId (Some profileId) targets failed
                    (Some "Failed to trigger processing workflow") None) /\
  (forall c, c <> newId ->
     contentQueue_findUnique c
       (snd (POST_content true brandId profileId targets newId FetchThrew cat st))
     = contentQueue_findUnique c st).
Proof.
  intros Hb Hp Hall Hfresh. unfold POST_content. cbn [negb]. rewrite Hb, Hp.
  rewrite (no_invalid_platforms _ _ Hall). simpl.
  split; [reflexivity|]. split.
  - rewrite contentQueue_findUnique_update by reflexivity.
    unfold contentQueue_findUnique in *. simpl.
    rewrite find_app_first, Hfresh. simpl. rewrite String.eqb_refl. reflexivity.
  - intros c Hc. rewrite contentQueue_findUnique_update_other by (try reflexivity; assumption).
    unfold contentQueue_findUnique. simpl. rewrite find_app_first.
    destruct (find (fun q => String.eqb (cqId q) c) (contentQueue st)); [reflexivity|].
    simpl. replace (String.eqb newId c) with false; [reflexivity|].
    symmetry. apply String.eqb_neq. congruence.
Qed.

Lemma failed_trigger_leaves_failed_unit_witness :
  status_of "c9"
    (snd (POST_content true "b1" "profile1" [instagram] "c9" FetchThrew
                       one_profile_catalog (fresh_store [linkedin])))
  = Some failed.
Proof.
  destruct (failed_trigger_leaves_failed_unit "b1" "profile1" [instagram] "c9"
              one_profile_catalog (fresh_store [linkedin])
              (mkBrand "b1" "Acme") (mkProfile "profile1" "b1" "Default voice"))
    as (_ & Hq & _).
  - reflexivity.
  - reflexivity.
  - intros p [<-|[]]. simpl. tauto.
  - reflexivity.
  - unfold status_of. rewrite Hq. reflexivity.
Defined.

Lemma filter_all_true {A : Type} (g : A -> bool) (l : list A) :
  (forall x, In x l -> g x = true) -> filter g l = l.
Proof.
  intro H. induction l as [|x l IH]; simpl; [reflexivity|].
  rewrite (H x (or_introl eq_refl)). f_equal. apply IH. intros y Hy. apply H. right. exact Hy.
Qed.

Lemma filter_all_false {A : Type} (g : A -> bool) (l : list A) :
  (forall x, In x l -> g x = false) -> filter g l = [].
Proof.
  intro H. induction l as [|x l IH]; simpl; [reflexivity|].
  rewrite (H x (or_introl eq_refl)). apply IH. intros y Hy. apply H. right. exact Hy.
Qed.

(** X27: a unit that was just created (its key not used by any unit or
    result before, the webhook call not throwing) polls as pending with
    every target platform listed as pending, none as complete or failed, and
    no error message. *)
Theorem created_unit_polls_all_pending
    (brandId profileId : string) (targets : list Platform) (newId : string)
    (trigger : Trigger) (cat : Catalog) (st : Store) (br : Brand) (pr : Profile) :
  brand_findUnique brandId cat = Some br ->
  find (fun pr => String.eqb (profile_id pr) profileId &&
                  String.eqb (profile_brandId pr) brandId) (brandVoiceProfile cat) = Some pr ->
  (forall p, In p targets -> In p (enabledPlatforms_of profileId targets cat)) ->
  trigger <> FetchThrew ->
  contentQueue_findUnique newId st = None ->
  (forall o, In o (platformOutput st) -> contentId o <> newId) ->
  GET_status true newId
    (snd (POST_content true brandId profileId targets newId trigger cat st))
  = StOk (mkStatusData newId pending None [] targets [] None).
Proof.
  intros Hb Hp Hall Htr Hfresh Hrows.
  assert (Hpost : snd (POST_content true brandId profileId targets newId trigger cat st)
                  = mkStore (contentQueue st
                             ++ [mkContent newId (Some profileId) targets pending None None])
                            (platformOutput st) (platformConfig st) (nextId st)).
  { unfold POST_content. cbn [negb]. rewrite Hb, Hp, (no_invalid_platforms _ _ Hall).
    destruct trigger; try reflexivity. contradiction. }
  rewrite Hpost.
  assert (Hq : contentQueue_findUnique newId
                 (mkStore (contentQueue st
                           ++ [mkContent newId (Some profileId) targets pending None None])
                          (platformOutput st) (platformConfig st) (nextId st))
               = Some (mkContent newId (Some profileId) targets pending None None)).
  { unfold contentQueue_findUnique in *. simpl.
    rewrite find_app_first, Hfresh. simpl. rewrite String.eqb_refl. reflexivity. }
  rewrite (GET_status_stored _ _ _ Hq).
  assert (Hnone : platformOutputs_of newId
                    (mkStore (contentQueue st
                              ++ [mkContent newId (Some profileId) targets pending None None])
                             (platformOutput st) (platformConfig st) (nextId st)) = []).
  { unfold platformOutputs_of. simpl. apply filter_all_false. intros o Ho.
    apply String.eqb_neq. apply Hrows. exact Ho. }
  rewrite Hnone. simpl. f_equal. f_equal. apply filter_all_true. reflexivity.
Qed.

Lemma created_unit_polls_all_pending_witness :
  GET_status true "c9"
    (snd (POST_content true "b1" "profile1" [instagram; twitter] "c9" FetchReturned
                       one_profile_catalog all_ok_store))
  = StOk (mkStatusData "c9" pending None [] [instagram; twitter] [] None).
Proof.
  apply (created_unit_polls_all_pending "b1" "profile1" [instagram; twitter] "c9"
           FetchReturned one_profile_catalog all_ok_store
           (mkBrand "b1" "Acme") (mkProfile "profile1" "b1" "Default voice")).
  - reflexivity.
  - reflexivity.
  - intros p [<-|[<-|[]]]; simpl; tauto.
  - discriminate.
  - reflexivity.
  - intros o Ho. vm_compute in Ho. destruct Ho as [<-|[<-|[<-|[]]]]; discriminate.
Defined.

(** X28: a profile that was just created accepts content for any list of
    target platforms: the creation of content under the same brand and the
    new profile is never rejected for a missing platform configuration. *)
Theorem new_profile_accepts_any_targets
    (brandId profileName newProfile : string) (cat : Catalog) (br : Brand)
    (targets : list Platform) (newId : string) (trigger : Trigger) (st : Store) :
  brand_findUnique brandId cat = Some br ->
  fst (POST_profile true brandId profileName newProfile cat)
  = PrCreated newProfile profileName ->
  trigger <> FetchThrew ->
  fst (POST_content true brandId newProfile targets newId trigger
                    (snd (POST_profile true brandId profileName newProfile cat)) st)
  = CrCreated newId pending.
Proof.
  intros Hb Hcreated Htr.
  unfold POST_profile in *. cbn [negb] in *. rewrite Hb in *.
  destruct (find _ (brandVoiceProfile cat)) as [x|] eqn:Hname; [discriminate|].
  cbn [snd].
  set (cat' := mkCatalog _ _ _ _).
  assert (Hb' : brand_findUnique brandId cat' = Some br) by exact Hb.
  assert (Hp' : exists pr,
            find (fun pr => String.eqb (profile_id pr) newProfile &&
                            String.eqb (profile_brandId pr) brandId)
                 (brandVoiceProfile cat') = Some pr).
  { unfold cat'. cbn [brandVoiceProfile]. rewrite find_app_first.
    destruct (find (fun pr => String.eqb (profile_id pr) newProfile &&
                              String.eqb (profile_brandId pr) brandId)
                   (brandVoiceProfile cat)) as [y|]; [exists y; reflexivity|].
    simpl. rewrite !String.eqb_refl. simpl. eexists. reflexivity. }
  destruct Hp' as (pr & Hp').
  assert (Hall : forall p, In p targets -> In p (enabledPlatforms_of newProfile targets cat')).
  { intros p Hin. apply enabledPlatforms_of_spec. split; [exact Hin|].
    exists (default_config newProfile
              (nextConfigId cat
               + match p with
                 | instagram => 0 | linkedin => 1 | twitter => 2
                 | facebook => 3 | pinterest => 4 | tiktok => 5
                 end) p).
    split; [|repeat split].
    unfold cat'. cbn [configRow]. apply in_or_app. right.
    cbn [seq combine platform_options map fst snd].
    destruct p; rewrite ?Nat.add_0_r, ?Nat.add_succ_r, ?Nat.add_0_r; simpl; tauto. }
  unfold POST_content. cbn [negb]. rewrite Hb', Hp', (no_invalid_platforms _ _ Hall).
  destruct trigger; try reflexivity. contradiction.
Qed.

Lemma new_profile_accepts_any_targets_witness :
  fst (POST_content true "b1" "profile1" platform_options "c9" NoWebhookUrl
                    (snd (POST_profile true "b1" "Default voice" "profile1" brand_only_catalog))
                    (fresh_store [linkedin]))
  = CrCreated "c9" pending.
Proof.
  apply (new_profile_accepts_any_targets "b1" "Default voice" "profile1" brand_only_catalog
           (mkBrand "b1" "Acme")).
  - reflexivity.
  - reflexivity.
  - discriminate.
Defined.
